(** * openSwap UI development server: a shallow embedding of [server.py]

    [server.py] is a sixty-line script: it subclasses the standard library's
    [http.server.SimpleHTTPRequestHandler], overrides [__init__],
    [end_headers], [do_OPTIONS] and [log_message], and its [main] parses an
    optional port, opens a [socketserver.TCPServer] and serves until
    interrupted.

    The script's own functions are embedded below under their own names
    ([PORT], [DIRECTORY], [CORSHTTPRequestHandler.end_headers], [main], ...).
    The inherited methods they call or that call them are embedded from the
    text of CPython 3.11's [Lib/http/server.py], [Lib/socketserver.py] and
    [Lib/posixpath.py], each definition naming the function it follows.

    Conventions.
    - A Python [str] is a Rocq [string], one character per code point; only
      code points below 256 are representable.  Request lines are decoded by
      the library as ISO-8859-1, so they fit exactly.
    - [self] is a record [Handler] threaded through a state-and-exception
      monad [M].
    - Late binding ([self.end_headers()] called from inherited code reaches
      the override) is modelled by Section variables that the subclass
      instantiates. *)

From Stdlib Require Import String Ascii ZArith List Bool Lia DecimalString
  DecimalPos.
Import ListNotations.
Local Open Scope list_scope.
Local Open Scope string_scope.

(* ===================================================================== *)
(** * Python values: exceptions, strings, [int] *)
(* ===================================================================== *)

Module Py.

(** The exception classes that occur in the modelled code.  [SystemExit] is
    not among them: it is raised by [sys.exit] alone and is a separate
    outcome of [main] below. *)
Inductive exception : Type :=
| ValueError
| IndexError
| OverflowError
| OSError (errno : Z)
| KeyboardInterrupt
| OtherError (name : string).

Inductive result (A : Type) : Type :=
| Ok (a : A)
| Raise (e : exception).
Arguments Ok {A} a.
Arguments Raise {A} e.

Definition ord (c : ascii) : nat := nat_of_ascii c.

Definition chr (n : nat) : string := String (ascii_of_nat n) "".

(** [str.isspace] on one code point below 256; the same set is what
    [str.split()], [str.strip()] and [str.rstrip()] treat as whitespace. *)
Definition isspace (c : ascii) : bool :=
  let n := ord c in
  (((9 <=? n) && (n <=? 13)) || ((28 <=? n) && (n <=? 32))
   || (n =? 133) || (n =? 160))%nat.

(** [str.lower] on one code point below 256. *)
Definition lower_char (c : ascii) : ascii :=
  let n := ord c in
  if (((65 <=? n) && (n <=? 90))
      || ((192 <=? n) && (n <=? 222) && negb (n =? 215)))%nat
  then ascii_of_nat (n + 32) else c.

Fixpoint lower (s : string) : string :=
  match s with
  | "" => ""
  | String c r => String (lower_char c) (lower r)
  end.

Definition startswith (s pre : string) : bool := prefix pre s.

(** [s.endswith(suf)]: [s] is [suf], or its tail ends with [suf]. *)
Fixpoint endswith (s suf : string) : bool :=
  (s =? suf)
  || match s with
     | "" => false
     | String _ r => endswith r suf
     end.

(** [s.rstrip(chars)] with the stripped set given as a predicate. *)
Fixpoint rstrip_by (p : ascii -> bool) (s : string) : string :=
  match s with
  | "" => ""
  | String c r =>
      let r' := rstrip_by p r in
      if (r' =? "") && p c then "" else String c r'
  end.

Fixpoint lstrip_by (p : ascii -> bool) (s : string) : string :=
  match s with
  | "" => ""
  | String c r => if p c then lstrip_by p r else s
  end.

Definition rstrip (s : string) : string := rstrip_by isspace s.

(** [s.split()]: maximal runs of non-whitespace. *)
Fixpoint split_from (cur : option string) (s : string) : list string :=
  match s with
  | "" => match cur with Some w => [w] | None => [] end
  | String c r =>
      if isspace c then
        match cur with
        | Some w => w :: split_from None r
        | None => split_from None r
        end
      else
        split_from (Some (match cur with Some w => w | None => "" end
                          ++ String c "")) r
  end.

Definition split (s : string) : list string := split_from None s.

(** [s.split(sep)] for a one-character separator. *)
Fixpoint split_on (sep : ascii) (s : string) : list string :=
  match s with
  | "" => [""]
  | String c r =>
      if Ascii.eqb c sep then "" :: split_on sep r
      else match split_on sep r with
           | w :: ws => String c w :: ws
           | [] => [String c ""]
           end
  end.

(** [s.split(sep, 1)]: the part before the first [sep], and the part after
    it when there is one. *)
Fixpoint split1 (sep : ascii) (s : string) : string * option string :=
  match s with
  | "" => ("", None)
  | String c r =>
      if Ascii.eqb c sep then ("", Some r)
      else let '(a, b) := split1 sep r in (String c a, b)
  end.

(** [sep.join(words)] *)
Definition join (sep : string) (ws : list string) : string :=
  String.concat sep ws.

(** [str(n)] for an [int]. *)
Definition str (n : Z) : string := NilZero.string_of_int (Z.to_int n).

(** ** [int(s)] for a [str] argument

    [PyLong_FromUnicodeObject]: the string is passed through
    [_PyUnicode_TransformDecimalAndSpaceToASCII] and parsed by
    [PyLong_FromString] in base 10; every failure is a [ValueError]. *)

(** [Py_ISSPACE] of [pyctype.h]: the C locale's whitespace. *)
Definition Py_ISSPACE (c : ascii) : bool :=
  let n := ord c in (((9 <=? n) && (n <=? 13)) || (n =? 32))%nat.

Definition is_ascii (s : string) : bool :=
  forallb (fun c => (ord c <? 128)%nat) (list_ascii_of_string s).

(** The loop of [_PyUnicode_TransformDecimalAndSpaceToASCII]: code points
    below 127 are kept, other whitespace becomes a space, and the first
    other character (no code point in 127..255 is a decimal digit) is
    replaced by [?] and ends the output. *)
Fixpoint transform_loop (s : string) : string :=
  match s with
  | "" => ""
  | String ch r =>
      if (ord ch <? 127)%nat then String ch (transform_loop r)
      else if isspace ch then String " " (transform_loop r)
      else "?"
  end.

Definition TransformDecimalAndSpaceToASCII (s : string) : string :=
  if is_ascii s then s else transform_loop s.

Fixpoint skip_spaces (s : string) : string :=
  match s with
  | "" => ""
  | String c r => if Py_ISSPACE c then skip_spaces r else s
  end.

Definition digit_value (c : ascii) : option Z :=
  let n := ord c in
  if ((48 <=? n) && (n <=? 57))%nat then Some (Z.of_nat (n - 48)) else None.

(** The digit scan of [PyLong_FromString]: digits and single underscores.
    [None] is the error for a doubled underscore; otherwise the value, the
    number of digits, whether the last character scanned was an underscore,
    and the unread rest. *)
Fixpoint scan_digits (s : string) (prev_underscore : bool) (acc : Z)
  (digits : nat) : option (Z * nat * bool * string) :=
  match s with
  | "" => Some (acc, digits, prev_underscore, "")
  | String c r =>
      if Ascii.eqb c "_" then
        if prev_underscore then None else scan_digits r true acc digits
      else
        match digit_value c with
        | Some d => scan_digits r false (10 * acc + d)%Z (S digits)
        | None => Some (acc, digits, prev_underscore, s)
        end
  end.

(** [sys.int_info.default_max_str_digits] *)
Definition max_str_digits : nat := 4300.

Definition PyLong_FromString (s : string) : option Z :=
  let s1 := skip_spaces s in
  let '(negative, s2) :=
    match s1 with
    | String "+" r => (false, r)
    | String "-" r => (true, r)
    | _ => (false, s1)
    end in
  match s2 with
  | String "_" _ => None
  | _ =>
      match scan_digits s2 false 0%Z 0 with
      | None => None
      | Some (v, digits, prev_underscore, rest) =>
          if prev_underscore then None
          else if (max_str_digits <? digits)%nat then None
          else if (digits =? 0)%nat then None
          else match skip_spaces rest with
               | "" => Some (if negative then (- v)%Z else v)
               | _ => None
               end
      end
  end.

Definition int (s : string) : result Z :=
  match PyLong_FromString (TransformDecimalAndSpaceToASCII s) with
  | Some n => Ok n
  | None => Raise ValueError
  end.

End Py.

(* ===================================================================== *)
(** * [posixpath]: the path functions the server relies on *)
(* ===================================================================== *)

Module posixpath.
Import Py.

Definition is_sep (c : ascii) : bool := Ascii.eqb c "/".

(** [isabs(s)] *)
Definition isabs (s : string) : bool := startswith s "/".

(** [join(a, b)] with one further component. *)
Definition join (a b : string) : string :=
  if startswith b "/" then b
  else if (a =? "") || endswith a "/" then a ++ b
  else a ++ "/" ++ b.

(** [p[:p.rfind('/') + 1]]: everything up to and including the last
    slash, empty when there is none. *)
Fixpoint head_of (p : string) : string :=
  match p with
  | "" => ""
  | String c r =>
      let h := head_of r in
      if negb (h =? "") || is_sep c then String c h else ""
  end.

(** [head == sep*len(head)] *)
Definition all_sep (s : string) : bool :=
  forallb is_sep (list_ascii_of_string s).

(** [dirname(p)] *)
Definition dirname (p : string) : string :=
  let head := head_of p in
  if negb (head =? "") && negb (all_sep head)
  then rstrip_by is_sep head
  else head.

(** One turn of the component loop of [normpath]. *)
Definition normpath_step (initial_slashes : nat)
  (new_comps : list string) (comp : string) : list string :=
  if (comp =? "") || (comp =? ".") then new_comps
  else if negb (comp =? "..")
          || ((initial_slashes =? 0)%nat
              && match new_comps with [] => true | _ => false end)
          || (match new_comps with
              | [] => false
              | _ => last new_comps "" =? ".."
              end)
       then (new_comps ++ [comp])%list
       else removelast new_comps.

(** [normpath(path)], after the pure-Python definition (the C
    [_path_normpath] computes the same function on paths without NUL). *)
Definition normpath (path : string) : string :=
  if path =? "" then "."
  else
    let initial_slashes : nat :=
      if startswith path "/" then
        if startswith path "//" && negb (startswith path "///")
        then 2 else 1
      else 0 in
    let comps := split_on "/" path in
    let comps := fold_left (normpath_step initial_slashes) comps [] in
    let path := Py.join "/" comps in
    let path := String.concat "" (repeat "/" initial_slashes) ++ path in
    if path =? "" then "." else path.

(** [abspath(path)], with [os.getcwd()] given. *)
Definition abspath (cwd : string) (path : string) : string :=
  let path := if negb (isabs path) then join cwd path else path in
  normpath path.

End posixpath.

(* ===================================================================== *)
(** * [http.server]: the inherited request handler *)
(* ===================================================================== *)

Module http_server.
Import Py.

Definition CRLF : string := chr 13 ++ chr 10.

(** An argument of a logging call: a [str] or an [int]. *)
Inductive arg : Type :=
| AStr (s : string)
| AInt (n : Z).

(** What an f-string replacement field [{a}] shows. *)
Definition format_arg (a : arg) : string :=
  match a with
  | AStr s => s
  | AInt n => str n
  end.

(** One [self.wfile.write(...)]: [Head] marks the data written by
    [flush_headers], [Body] any other write.  The bytes on the wire are the
    concatenation of the payloads. *)
Inductive write : Type :=
| Head (block : string)
| Body (data : string).

(** An open file as [send_head] uses it: its bytes, [os.fstat(...)[6]] and
    [date_time_string(st_mtime)]. *)
Record FileData : Type := {
  content : string;
  st_size : Z;
  last_modified : string
}.

(** What [send_head] returns: the file object, with the path it was opened
    from ([None] for the in-memory directory listing). *)
Record FileObject : Type := {
  name : option string;
  data : string
}.

(** The surroundings of a request: the clock, the filesystem, and library
    functions whose results are taken as given. *)
Record Env : Type := {
  version_string : string;           (* self.version_string() *)
  date_time_string : string;         (* self.date_time_string() *)
  repr : string -> string;           (* '%r' % s *)
  (* (error_message_format % {...}).encode('UTF-8', 'replace'); the
     explanation defaults to the long text of [responses] *)
  error_page : Z -> string -> option string -> string;
  unquote : string -> string;        (* urllib.parse.unquote *)
  urlsplit_path : string -> string;  (* urllib.parse.urlsplit(p).path *)
  redirect_location : string -> string; (* urlunsplit with path + '/' *)
  guess_type : string -> string;
  isdir : string -> bool;
  isfile : string -> bool;
  open_rb : string -> option FileData;  (* None: OSError *)
  (* the If-Modified-Since value parses to a UTC time not older than the
     file's modification time *)
  not_modified_since : string -> FileData -> bool;
  listdir : string -> option (list string);  (* None: OSError *)
  listing_page : string -> string -> list string -> string;
  getfilesystemencoding : string
}.

(** The outcome of [http.client.parse_headers(self.rfile)]. *)
Inductive header_parse : Type :=
| Parsed (hs : list (string * string))
| LineTooLong (err : string)
| TooManyHeaders (err : string).

(** What one request puts on the connection: the first line read and the
    header block after it. *)
Record Request : Type := {
  raw_requestline : string;
  header_lines : header_parse
}.

(** The attributes of [self] that the modelled methods read or write, and
    the process's standard output. *)
Record Handler : Type := {
  client_address : string * Z;
  directory : string;
  requestline : string;
  command : option string;
  path : string;
  request_version : string;
  headers : list (string * string);
  close_connection : bool;
  headers_buffer : option (list string);   (* absent until first used *)
  wfile : list write;
  stdout : string
}.

Definition set_requestline (v : string) (h : Handler) : Handler :=
  {| client_address := client_address h; directory := directory h;
     requestline := v; command := command h; path := path h;
     request_version := request_version h; headers := headers h;
     close_connection := close_connection h;
     headers_buffer := headers_buffer h; wfile := wfile h;
     stdout := stdout h |}.

Definition set_command (v : option string) (h : Handler) : Handler :=
  {| client_address := client_address h; directory := directory h;
     requestline := requestline h; command := v; path := path h;
     request_version := request_version h; headers := headers h;
     close_connection := close_connection h;
     headers_buffer := headers_buffer h; wfile := wfile h;
     stdout := stdout h |}.

Definition set_path (v : string) (h : Handler) : Handler :=
  {| client_address := client_address h; directory := directory h;
     requestline := requestline h; command := command h; path := v;
     request_version := request_version h; headers := headers h;
     close_connection := close_connection h;
     headers_buffer := headers_buffer h; wfile := wfile h;
     stdout := stdout h |}.

Definition set_request_version (v : string) (h : Handler) : Handler :=
  {| client_address := client_address h; directory := directory h;
     requestline := requestline h; command := command h; path := path h;
     request_version := v; headers := headers h;
     close_connection := close_connection h;
     headers_buffer := headers_buffer h; wfile := wfile h;
     stdout := stdout h |}.

Definition set_headers (v : list (string * string)) (h : Handler)
  : Handler :=
  {| client_address := client_address h; directory := directory h;
     requestline := requestline h; command := command h; path := path h;
     request_version := request_version h; headers := v;
     close_connection := close_connection h;
     headers_buffer := headers_buffer h; wfile := wfile h;
     stdout := stdout h |}.

Definition set_close_connection (v : bool) (h : Handler) : Handler :=
  {| client_address := client_address h; directory := directory h;
     requestline := requestline h; command := command h; path := path h;
     request_version := request_version h; headers := headers h;
     close_connection := v;
     headers_buffer := headers_buffer h; wfile := wfile h;
     stdout := stdout h |}.

Definition set_headers_buffer (v : option (list string)) (h : Handler)
  : Handler :=
  {| client_address := client_address h; directory := directory h;
     requestline := requestline h; command := command h; path := path h;
     request_version := request_version h; headers := headers h;
     close_connection := close_connection h;
     headers_buffer := v; wfile := wfile h;
     stdout := stdout h |}.

Definition set_wfile (v : list write) (h : Handler) : Handler :=
  {| client_address := client_address h; directory := directory h;
     requestline := requestline h; command := command h; path := path h;
     request_version := request_version h; headers := headers h;
     close_connection := close_connection h;
     headers_buffer := headers_buffer h; wfile := v;
     stdout := stdout h |}.

Definition set_stdout (v : string) (h : Handler) : Handler :=
  {| client_address := client_address h; directory := directory h;
     requestline := requestline h; command := command h; path := path h;
     request_version := request_version h; headers := headers h;
     close_connection := close_connection h;
     headers_buffer := headers_buffer h; wfile := wfile h;
     stdout := v |}.

(** ** The handler monad: [self] as state, exceptions as failure *)

Definition M (A : Type) : Type := Handler -> result (A * Handler).

Definition ret {A : Type} (a : A) : M A := fun self => Ok (a, self).

Definition bind {A B : Type} (m : M A) (k : A -> M B) : M B :=
  fun self =>
    match m self with
    | Ok (a, self') => k a self'
    | Raise e => Raise e
    end.

Definition raise {A : Type} (e : exception) : M A := fun _ => Raise e.

Definition get : M Handler := fun self => Ok (self, self).

Definition modify (f : Handler -> Handler) : M unit :=
  fun self => Ok (tt, f self).

Declare Scope handler_scope.
Delimit Scope handler_scope with handler.
Notation "x <- m ;; k" := (bind m (fun x => k))
  (at level 61, m at next level, right associativity) : handler_scope.
Notation "m ;; k" := (bind m (fun _ => k))
  (at level 61, right associativity) : handler_scope.
Local Open Scope handler_scope.

(** [print(text)]: the text and a newline, on standard output. *)
Definition print (text : string) : M unit :=
  modify (fun self => set_stdout (stdout self ++ text ++ chr 10) self).

(** [self.wfile.write(data)] *)
Definition wfile_write (w : write) : M unit :=
  modify (fun self => set_wfile (wfile self ++ [w])%list self).

(** ** [BaseHTTPRequestHandler]: methods that call nothing overridable *)

Definition protocol_version : string := "HTTP/1.0".
Definition default_request_version : string := "HTTP/0.9".
Definition error_content_type : string := "text/html;charset=utf-8".

(** The reason phrases of [self.responses] (the [HTTPStatus] members). *)
Definition responses (code : Z) : option string :=
  match code with
  | 100%Z => Some "Continue"
  | 101%Z => Some "Switching Protocols"
  | 102%Z => Some "Processing"
  | 103%Z => Some "Early Hints"
  | 200%Z => Some "OK"
  | 201%Z => Some "Created"
  | 202%Z => Some "Accepted"
  | 203%Z => Some "Non-Authoritative Information"
  | 204%Z => Some "No Content"
  | 205%Z => Some "Reset Content"
  | 206%Z => Some "Partial Content"
  | 207%Z => Some "Multi-Status"
  | 208%Z => Some "Already Reported"
  | 226%Z => Some "IM Used"
  | 300%Z => Some "Multiple Choices"
  | 301%Z => Some "Moved Permanently"
  | 302%Z => Some "Found"
  | 303%Z => Some "See Other"
  | 304%Z => Some "Not Modified"
  | 305%Z => Some "Use Proxy"
  | 307%Z => Some "Temporary Redirect"
  | 308%Z => Some "Permanent Redirect"
  | 400%Z => Some "Bad Request"
  | 401%Z => Some "Unauthorized"
  | 402%Z => Some "Payment Required"
  | 403%Z => Some "Forbidden"
  | 404%Z => Some "Not Found"
  | 405%Z => Some "Method Not Allowed"
  | 406%Z => Some "Not Acceptable"
  | 407%Z => Some "Proxy Authentication Required"
  | 408%Z => Some "Request Timeout"
  | 409%Z => Some "Conflict"
  | 410%Z => Some "Gone"
  | 411%Z => Some "Length Required"
  | 412%Z => Some "Precondition Failed"
  | 413%Z => Some "Request Entity Too Large"
  | 414%Z => Some "Request-URI Too Long"
  | 415%Z => Some "Unsupported Media Type"
  | 416%Z => Some "Requested Range Not Satisfiable"
  | 417%Z => Some "Expectation Failed"
  | 418%Z => Some "I'm a Teapot"
  | 421%Z => Some "Misdirected Request"
  | 422%Z => Some "Unprocessable Entity"
  | 423%Z => Some "Locked"
  | 424%Z => Some "Failed Dependency"
  | 425%Z => Some "Too Early"
  | 426%Z => Some "Upgrade Required"
  | 428%Z => Some "Precondition Required"
  | 429%Z => Some "Too Many Requests"
  | 431%Z => Some "Request Header Fields Too Large"
  | 451%Z => Some "Unavailable For Legal Reasons"
  | 500%Z => Some "Internal Server Error"
  | 501%Z => Some "Not Implemented"
  | 502%Z => Some "Bad Gateway"
  | 503%Z => Some "Service Unavailable"
  | 504%Z => Some "Gateway Timeout"
  | 505%Z => Some "HTTP Version Not Supported"
  | 506%Z => Some "Variant Also Negotiates"
  | 507%Z => Some "Insufficient Storage"
  | 508%Z => Some "Loop Detected"
  | 510%Z => Some "Not Extended"
  | 511%Z => Some "Network Authentication Required"
  | _ => None
  end.

(** [self.command == name] *)
Definition command_is (self : Handler) (name : string) : bool :=
  match command self with
  | Some c => c =? name
  | None => false
  end.

(** [self.address_string()] *)
Definition address_string : M string :=
  self <- get ;; ret (fst (client_address self)).

(** Appending one line to [self._headers_buffer], creating it if absent. *)
Definition buffer_append (line : string) : M unit :=
  modify (fun self =>
    set_headers_buffer
      (Some (match headers_buffer self with
             | Some b => b
             | None => []
             end ++ [line])%list) self).

(** [send_response_only(code, message=None)] *)
Definition send_response_only (code : Z) (message : option string)
  : M unit :=
  self <- get ;;
  if negb (request_version self =? "HTTP/0.9") then
    let message :=
      match message with
      | Some m => m
      | None => match responses code with Some m => m | None => "" end
      end in
    buffer_append
      (protocol_version ++ " " ++ str code ++ " " ++ message ++ CRLF)
  else ret tt.

(** [send_header(keyword, value)] *)
Definition send_header (keyword value : string) : M unit :=
  self <- get ;;
  (if negb (request_version self =? "HTTP/0.9")
   then buffer_append (keyword ++ ": " ++ value ++ CRLF)
   else ret tt) ;;
  if lower keyword =? "connection" then
    if lower value =? "close" then modify (set_close_connection true)
    else if lower value =? "keep-alive"
         then modify (set_close_connection false)
         else ret tt
  else ret tt.

(** [flush_headers()] *)
Definition flush_headers : M unit :=
  self <- get ;;
  match headers_buffer self with
  | Some b =>
      wfile_write (Head (String.concat "" b)) ;;
      modify (set_headers_buffer (Some []))
  | None => ret tt
  end.

(** [BaseHTTPRequestHandler.end_headers()]; appending to an absent buffer
    is an [AttributeError]. *)
Definition end_headers : M unit :=
  self <- get ;;
  if negb (request_version self =? "HTTP/0.9") then
    match headers_buffer self with
    | Some _ => buffer_append CRLF ;; flush_headers
    | None => raise (OtherError "AttributeError")
    end
  else ret tt.

(** [self.headers.get(name, default)]: first header of that name, names
    compared without case. *)
Fixpoint headers_get (hs : list (string * string)) (name default : string)
  : string :=
  match hs with
  | [] => default
  | (k, v) :: rest =>
      if lower k =? lower name then v else headers_get rest name default
  end.

(** [name in self.headers] *)
Definition headers_contains (hs : list (string * string)) (name : string)
  : bool :=
  existsb (fun kv => lower (fst kv) =? lower name) hs.

(** [a >= b] on pairs of integers. *)
Definition pair_ge (a b : Z * Z) : bool :=
  ((fst b <? fst a) || ((fst a =? fst b) && (snd b <=? snd a)))%Z.

(** [s1 >= s2] on strings. *)
Definition str_ge (s1 s2 : string) : bool := String.leb s2 s1.

(** The [try] block of [parse_request] that reads the version word;
    [None] stands for the [ValueError] or [IndexError] it catches.  The
    result is [base_version_number] and the pair of integers. *)
Definition parse_version (version : string) : option (string * (Z * Z)) :=
  if negb (startswith version "HTTP/") then None
  else
    match split1 "/" version with
    | (_, Some base_version_number) =>
        match split_on "." base_version_number with
        | [major; minor] =>
            match int major, int minor with
            | Ok a, Ok b => Some (base_version_number, (a, b))
            | _, _ => None
            end
        | _ => None
        end
    | (_, None) => None
    end.

(** ** Inherited methods that call back into [self]

    [self_end_headers], [self_log_message] and [self_do] stand for the
    attributes [self.end_headers], [self.log_message] and
    [getattr(self, 'do_' + command)] as the class of [self] resolves them. *)

Section Inherited.

Variable env : Env.
Variable self_end_headers : M unit.
Variable self_log_message : string -> list arg -> M unit.
Variable self_do : string -> option (M unit).

(** [log_request(code, size='-')] *)
Definition log_request (code : Z) : M unit :=
  self <- get ;;
  self_log_message (chr 34 ++ "%s" ++ chr 34 ++ " %s %s")
    [AStr (requestline self); AStr (str code); AStr "-"].

(** [log_error(format, *args)] *)
Definition log_error (format : string) (args : list arg) : M unit :=
  self_log_message format args.

(** [send_response(code, message=None)] *)
Definition send_response (code : Z) (message : option string) : M unit :=
  log_request code ;;
  send_response_only code message ;;
  send_header "Server" (version_string env) ;;
  send_header "Date" (date_time_string env).

(** [send_error(code, message=None, explain=None)] *)
Definition send_error (code : Z) (message explain : option string)
  : M unit :=
  let shortmsg :=
    match responses code with Some m => m | None => "???" end in
  let message :=
    match message with Some m => m | None => shortmsg end in
  log_error "code %d, message %s" [AInt code; AStr message] ;;
  send_response code (Some message) ;;
  send_header "Connection" "close" ;;
  body <-
    (if (200 <=? code)%Z
        && negb ((code =? 204)%Z || (code =? 205)%Z || (code =? 304)%Z)
     then
       let body := error_page env code message explain in
       send_header "Content-Type" error_content_type ;;
       send_header "Content-Length" (str (Z.of_nat (String.length body))) ;;
       ret (Some body)
     else ret None) ;;
  self_end_headers ;;
  self <- get ;;
  match body with
  | Some body =>
      if negb (command_is self "HEAD") && negb (body =? "")
      then wfile_write (Body body)
      else ret tt
  | None => ret tt
  end.

(** [handle_expect_100()] *)
Definition handle_expect_100 : M bool :=
  send_response_only 100 None ;;
  self_end_headers ;;
  ret true.

(** [parse_request()], with the line read from the connection and the
    outcome of reading the header block given; the request line is
    decoded as ISO-8859-1, one character per byte. *)
Definition parse_request (req : Request) : M bool :=
  modify (set_command None) ;;
  modify (set_request_version default_request_version) ;;
  modify (set_close_connection true) ;;
  let requestline :=
    rstrip_by (fun c => Ascii.eqb c "013" || Ascii.eqb c "010")
              (raw_requestline req) in
  modify (set_requestline requestline) ;;
  let words := split requestline in
  if (length words =? 0)%nat then ret false
  else
    versioned <-
      (if (3 <=? length words)%nat then
         let version := last words "" in
         match parse_version version with
         | None =>
             send_error 400
               (Some ("Bad request version (" ++ repr env version ++ ")"))
               None ;;
             ret false
         | Some (base_version_number, version_number) =>
             (if pair_ge version_number (1, 1)%Z
                 && str_ge protocol_version "HTTP/1.1"
              then modify (set_close_connection false)
              else ret tt) ;;
             if pair_ge version_number (2, 0)%Z then
               send_error 505
                 (Some ("Invalid HTTP version (" ++ base_version_number
                        ++ ")"))
                 None ;;
               ret false
             else
               modify (set_request_version version) ;;
               ret true
         end
       else ret true) ;;
    if negb versioned then ret false
    else if negb ((2 <=? length words)%nat && (length words <=? 3)%nat) then
      send_error 400
        (Some ("Bad request syntax (" ++ repr env requestline ++ ")"))
        None ;;
      ret false
    else
      match words with
      | command :: path :: _ =>
          http09 <-
            (if (length words =? 2)%nat then
               modify (set_close_connection true) ;;
               if negb (command =? "GET") then
                 send_error 400
                   (Some ("Bad HTTP/0.9 request type ("
                          ++ repr env command ++ ")"))
                   None ;;
                 ret false
               else ret true
             else ret true) ;;
          if negb http09 then ret false
          else
            modify (set_command (Some command)) ;;
            modify (set_path path) ;;
            (if startswith path "//"
             then modify (set_path ("/" ++ lstrip_by (Ascii.eqb "/") path))
             else ret tt) ;;
            match header_lines req with
            | LineTooLong err =>
                send_error 431 (Some "Line too long") (Some err) ;;
                ret false
            | TooManyHeaders err =>
                send_error 431 (Some "Too many headers") (Some err) ;;
                ret false
            | Parsed hs =>
                modify (set_headers hs) ;;
                let conntype := headers_get hs "Connection" "" in
                (if lower conntype =? "close"
                 then modify (set_close_connection true)
                 else if (lower conntype =? "keep-alive")
                         && str_ge protocol_version "HTTP/1.1"
                      then modify (set_close_connection false)
                      else ret tt) ;;
                let expect := headers_get hs "Expect" "" in
                self <- get ;;
                if (lower expect =? "100-continue")
                   && str_ge protocol_version "HTTP/1.1"
                   && str_ge (request_version self) "HTTP/1.1"
                then
                  continue <- handle_expect_100 ;;
                  if negb continue then ret false else ret true
                else ret true
            end
      | _ => ret false
      end.

(** ** [SimpleHTTPRequestHandler] *)

(** [__init__(self, *args, directory=None, **kwargs)]: the value stored in
    [self.directory], with [os.getcwd()] given. *)
Definition init_directory (directory : option string) (getcwd : string)
  : string :=
  match directory with
  | None => getcwd
  | Some d => d
  end.

(** The loop of [translate_path] over the words of the normalised path;
    [os.path.dirname(word)] is non-empty exactly when [word] contains a
    slash. *)
Definition translate_step (path word : string) : string :=
  if negb (posixpath.dirname word =? "")
     || (word =? ".") || (word =? "..")
  then path
  else posixpath.join path word.

(** [translate_path(path)] *)
Definition translate_path (self : Handler) (path : string) : string :=
  let path := fst (split1 "?" path) in
  let path := fst (split1 "#" path) in
  let trailing_slash := endswith (rstrip path) "/" in
  let path := unquote env path in
  let path := posixpath.normpath path in
  let words := split_on "/" path in
  let words := filter (fun w => negb (w =? "")) words in
  let path := fold_left translate_step words (directory self) in
  if trailing_slash then path ++ "/" else path.

(** [list_directory(path)] *)
Definition list_directory (path : string) : M (option FileObject) :=
  match listdir env path with
  | None =>
      send_error 404 (Some "No permission to list directory") None ;;
      ret None
  | Some list =>
      self <- get ;;
      let encoded := listing_page env (http_server.path self) path list in
      send_response 200 None ;;
      send_header "Content-type"
        ("text/html; charset=" ++ getfilesystemencoding env) ;;
      send_header "Content-Length"
        (str (Z.of_nat (String.length encoded))) ;;
      self_end_headers ;;
      ret (Some {| name := None; data := encoded |})
  end.

(** The [for index in "index.html", "index.htm"] search of [send_head]. *)
Definition find_index (path : string) : option string :=
  if isfile env (posixpath.join path "index.html")
  then Some (posixpath.join path "index.html")
  else if isfile env (posixpath.join path "index.htm")
       then Some (posixpath.join path "index.htm")
       else None.

(** The part of [send_head] from [ctype = self.guess_type(path)] on. *)
Definition send_file (path : string) : M (option FileObject) :=
  let ctype := guess_type env path in
  if endswith path "/" then
    send_error 404 (Some "File not found") None ;; ret None
  else
    match open_rb env path with
    | None => send_error 404 (Some "File not found") None ;; ret None
    | Some f =>
        self <- get ;;
        if headers_contains (headers self) "If-Modified-Since"
           && negb (headers_contains (headers self) "If-None-Match")
           && not_modified_since env
                (headers_get (headers self) "If-Modified-Since" "") f
        then
          send_response 304 None ;;
          self_end_headers ;;
          ret None
        else
          send_response 200 None ;;
          send_header "Content-type" ctype ;;
          send_header "Content-Length" (str (st_size f)) ;;
          send_header "Last-Modified" (last_modified f) ;;
          self_end_headers ;;
          ret (Some {| name := Some path; data := content f |})
    end.

(** [send_head()] *)
Definition send_head : M (option FileObject) :=
  self <- get ;;
  let path := translate_path self (http_server.path self) in
  if isdir env path then
    if negb (endswith (urlsplit_path env (http_server.path self)) "/") then
      send_response 301 None ;;
      send_header "Location" (redirect_location env (http_server.path self)) ;;
      send_header "Content-Length" "0" ;;
      self_end_headers ;;
      ret None
    else
      match find_index path with
      | Some index => send_file index
      | None => list_directory path
      end
  else send_file path.

(** [do_GET()] *)
Definition do_GET : M unit :=
  f <- send_head ;;
  match f with
  | Some f => wfile_write (Body (data f))
  | None => ret tt
  end.

(** [do_HEAD()] *)
Definition do_HEAD : M unit :=
  f <- send_head ;;
  ret tt.

(** ** Dispatch *)

(** The part of [handle_one_request] after a successful [parse_request]:
    look up [do_<command>] and call it. *)
Definition handle_command : M unit :=
  self <- get ;;
  let command := match command self with Some c => c | None => "" end in
  match self_do command with
  | None =>
      send_error 501
        (Some ("Unsupported method (" ++ repr env command ++ ")")) None
  | Some method => method
  end.

(** [handle_one_request()]; a read that times out is not modelled. *)
Definition handle_one_request (req : Request) : M unit :=
  if (65536 <? Z.of_nat (String.length (raw_requestline req)))%Z then
    modify (set_requestline "") ;;
    modify (set_request_version "") ;;
    modify (set_command (Some "")) ;;
    send_error 414 None None
  else if raw_requestline req =? "" then
    modify (set_close_connection true)
  else
    parsed <- parse_request req ;;
    if negb parsed then ret tt else handle_command.

End Inherited.

End http_server.

(* ===================================================================== *)
(** * The process: what [main] does to the outside world *)
(* ===================================================================== *)

Module process.
Import Py.

(** The calls of [main] that reach outside the process, in order. *)
Inductive event : Type :=
| TCPServer (host : string) (port : Z)  (* socketserver.TCPServer((host, port), ...) *)
| Print (text : string)                 (* print(text) completed *)
| ServeForever                          (* httpd.serve_forever() entered *)
| ServerClose.                          (* httpd.server_close() *)

(** How a computation stops without a value. *)
Inductive termination : Type :=
| Raised (e : exception)
| SystemExit (code : Z)
| Blocked.                              (* a call that never returns *)

Definition Proc (A : Type) : Type := list event * (A + termination).

Definition pure {A : Type} (a : A) : Proc A := ([], inl a).

Definition bind {A B : Type} (m : Proc A) (k : A -> Proc B) : Proc B :=
  match m with
  | (evs, inl a) => let '(evs', r) := k a in ((evs ++ evs')%list, r)
  | (evs, inr t) => (evs, inr t)
  end.

Declare Scope proc_scope.
Delimit Scope proc_scope with proc.
Notation "x <- m ;; k" := (bind m (fun x => k))
  (at level 61, m at next level, right associativity) : proc_scope.
Notation "m ;; k" := (bind m (fun _ => k))
  (at level 61, right associativity) : proc_scope.

(** Lifting a Python result: a raised exception propagates. *)
Definition lift {A : Type} (r : result A) : Proc A :=
  match r with
  | Ok a => pure a
  | Raise e => ([], inr (Raised e))
  end.

(** How [httpd.serve_forever()] ends, if it does. *)
Inductive serve_outcome : Type :=
| Forever
| Returns
| Raises (e : exception).

(** What the surroundings do at each call of [main]: [None] lets the call
    complete, [Some e] makes it raise [e] (a failed bind, a signal
    delivered during the call). *)
Record World : Type := {
  tcp_server_init : Z -> option exception;
  print_banner : option exception;
  serve : serve_outcome;
  print_stopped : option exception
}.

(** [print(text)], completing or raising as the world says. *)
Definition print (interrupt : option exception) (text : string)
  : Proc unit :=
  match interrupt with
  | None => ([Print text], inl tt)
  | Some e => ([], inr (Raised e))
  end.

(** [sys.exit(code)] *)
Definition sys_exit {A : Type} (code : Z) : Proc A :=
  ([], inr (SystemExit code)).

(** [socketserver.TCPServer((host, port), RequestHandlerClass)]: binds and
    listens, or raises (the constructor's own closing of a socket it could
    not bind is not recorded). *)
Definition TCPServer_init (w : World) (host : string) (port : Z)
  : Proc unit :=
  match tcp_server_init w port with
  | None => ([TCPServer host port], inl tt)
  | Some e => ([TCPServer host port], inr (Raised e))
  end.

(** [with <server> as httpd: <body>].  If the constructor raises, the
    block is not entered.  Otherwise [BaseServer.__exit__] runs
    [server_close()] however the body is left, and lets an exception
    through. *)
Definition with_server {A : Type} (init : Proc unit) (body : Proc A)
  : Proc A :=
  match init with
  | (evs, inl tt) =>
      match body with
      | (evs', inr Blocked) => ((evs ++ evs')%list, inr Blocked)
      | (evs', r) => ((evs ++ evs' ++ [ServerClose])%list, r)
      end
  | (evs, inr t) => (evs, inr t)
  end.

(** [try: <body> except KeyboardInterrupt: <handler>] *)
Definition try_except_KeyboardInterrupt {A : Type}
  (body handler : Proc A) : Proc A :=
  match body with
  | (evs, inr (Raised KeyboardInterrupt)) =>
      let '(evs', r) := handler in ((evs ++ evs')%list, r)
  | other => other
  end.

(** [httpd.serve_forever()] *)
Definition serve_forever (w : World) : Proc unit :=
  match serve w with
  | Forever => ([ServeForever], inr Blocked)
  | Returns => ([ServeForever], inl tt)
  | Raises e => ([ServeForever], inr (Raised e))
  end.

(** The exit status of the interpreter running a script whose body ended
    as given: 0 after a normal end, the code of [sys.exit], 1 after an
    uncaught exception, and termination by SIGINT (status 130 to a shell)
    after an uncaught [KeyboardInterrupt].  A blocked process has none. *)
Definition exit_status {A : Type} (p : Proc A) : option Z :=
  match snd p with
  | inl _ => Some 0%Z
  | inr (SystemExit code) => Some code
  | inr (Raised KeyboardInterrupt) => Some 130%Z
  | inr (Raised _) => Some 1%Z
  | inr Blocked => None
  end.

End process.

(* ===================================================================== *)
(** * [server.py] *)
(* ===================================================================== *)

(** [PORT = 8080] *)
Definition PORT : Z := 8080.

(** [DIRECTORY = os.path.dirname(os.path.abspath(__file__))], evaluated
    once when the script is loaded; [getcwd] is the working directory at
    that moment and [file] the script's [__file__]. *)
Definition DIRECTORY (getcwd file : string) : string :=
  posixpath.dirname (posixpath.abspath getcwd file).

Module CORSHTTPRequestHandler.
Import Py http_server.
Local Open Scope handler_scope.

(** The escape character, written [\033] in the script. *)
Definition ESC : string := chr 27.

(** [__init__(self, *args, **kwargs)], which hands its arguments to the
    inherited constructor together with [directory=DIRECTORY], the value
    computed when the script was loaded.  The result is [self] as the
    request methods find it; [getcwd] is the working directory when the
    handler is created.  The request attributes are placeholders that
    [handle_one_request] overwrites before reading. *)
Definition __init__ (DIRECTORY : string) (client_address : string * Z)
  (getcwd : string) (stdout : string) : Handler :=
  {| client_address := client_address;
     directory := init_directory (Some DIRECTORY) getcwd;
     requestline := "";
     command := None;
     path := "";
     request_version := default_request_version;
     headers := [];
     close_connection := true;
     headers_buffer := None;
     wfile := [];
     stdout := stdout |}.

(** [end_headers(self)] *)
Definition end_headers : M unit :=
  send_header "Access-Control-Allow-Origin" "*" ;;
  send_header "Access-Control-Allow-Methods" "GET, POST, OPTIONS" ;;
  send_header "Access-Control-Allow-Headers" "Content-Type" ;;
  send_header "Cache-Control" "no-store, no-cache, must-revalidate" ;;
  http_server.end_headers.

(** [log_message(self, format, *args)] *)
Definition log_message (format : string) (args : list arg) : M unit :=
  address <- address_string ;;
  match args with
  | first :: _ =>
      print (ESC ++ "[90m" ++ address ++ ESC ++ "[0m - " ++ format_arg first)
  | [] => raise IndexError
  end.

(** [do_OPTIONS(self)] *)
Definition do_OPTIONS (env : Env) : M unit :=
  send_response env log_message 200 None ;;
  end_headers.

(** [getattr(self, 'do_' + command)] on an instance of this class:
    [do_GET] and [do_HEAD] are inherited, [do_OPTIONS] is defined here,
    and there is no other [do_] attribute. *)
Definition getattr_do (env : Env) (command : string) : option (M unit) :=
  if command =? "GET" then Some (do_GET env end_headers log_message)
  else if command =? "HEAD" then Some (do_HEAD env end_headers log_message)
  else if command =? "OPTIONS" then Some (do_OPTIONS env)
  else None.

(** The inherited methods as an instance of this class runs them. *)
Definition send_error (env : Env) :=
  http_server.send_error env end_headers log_message.

Definition send_head (env : Env) :=
  http_server.send_head env end_headers log_message.

Definition handle_command (env : Env) :=
  http_server.handle_command env end_headers log_message (getattr_do env).

Definition handle_one_request (env : Env) :=
  http_server.handle_one_request env end_headers log_message (getattr_do env).

End CORSHTTPRequestHandler.

(** The newline character. *)
Definition LF : string := Py.chr 10.

(** The text of the start-up banner, as the bytes printed. *)
Definition banner (port : Z) : string :=
  let ESC := CORSHTTPRequestHandler.ESC in
  let str := Py.str in
  LF ++
  ESC ++ "[38;2;0;217;255m╔═══════════════════════════════════════════════════════════╗" ++ LF ++
  "║                                                             ║" ++ LF ++
  "║   ██████╗ ██████╗ ███████╗███╗   ██╗███████╗██╗    ██╗ █████╗ ██████╗  ║" ++ LF ++
  "║  ██╔═══██╗██╔══██╗██╔════╝████╗  ██║██╔════╝██║    ██║██╔══██╗██╔══██╗ ║" ++ LF ++
  "║  ██║   ██║██████╔╝█████╗  ██╔██╗ ██║███████╗██║ █╗ ██║███████║██████╔╝ ║" ++ LF ++
  "║  ██║   ██║██╔═══╝ ██╔══╝  ██║╚██╗██║╚════██║██║███╗██║██╔══██║██╔═══╝  ║" ++ LF ++
  "║  ╚██████╔╝██║     ███████╗██║ ╚████║███████║╚███╔███╔╝██║  ██║██║      ║" ++ LF ++
  "║   ╚═════╝ ╚═╝     ╚══════╝╚═╝  ╚═══╝╚══════╝ ╚══╝╚══╝ ╚═╝  ╚═╝╚═╝      ║" ++ LF ++
  "║                                                             ║" ++ LF ++
  "╚═══════════════════════════════════════════════════════════╝" ++ ESC ++ "[0m" ++ LF ++
  LF ++
  ESC ++ "[38;2;0;217;255m→" ++ ESC ++ "[0m Server running at " ++ ESC ++ "[1mhttp://localhost:" ++ str port ++ ESC ++ "[0m" ++ LF ++
  ESC ++ "[38;2;0;217;255m→" ++ ESC ++ "[0m Press " ++ ESC ++ "[1mCtrl+C" ++ ESC ++ "[0m to stop" ++ LF ++
  LF.

(** The text printed when the server is interrupted. *)
Definition stopped_message : string :=
  let ESC := CORSHTTPRequestHandler.ESC in
  LF ++ ESC ++ "[38;2;0;217;255m→" ++ ESC ++ "[0m Server stopped".

(** The port expression of [main]:
    [int(sys.argv[1]) if len(sys.argv) > 1 else PORT]. *)
Definition port_of_argv (argv : list string) : Py.result Z :=
  if (1 <? length argv)%nat then Py.int (nth 1 argv "") else Py.Ok PORT.

Import process.
Local Open Scope proc_scope.

(** [main()] *)
Definition main (argv : list string) (w : World) : Proc unit :=
  port <- lift (port_of_argv argv) ;;
  with_server (TCPServer_init w "" port)
    (print (print_banner w) (banner port) ;;
     try_except_KeyboardInterrupt
       (serve_forever w)
       (print (print_stopped w) stopped_message ;;
        sys_exit 0%Z)).

(* ===================================================================== *)
(** * Vocabulary of the properties *)
(* ===================================================================== *)

Import http_server.

(** The four header lines of [CORSHTTPRequestHandler.end_headers], as they
    stand in a header block. *)
Definition cors_headers : string :=
  "Access-Control-Allow-Origin: *" ++ CRLF ++
  "Access-Control-Allow-Methods: GET, POST, OPTIONS" ++ CRLF ++
  "Access-Control-Allow-Headers: Content-Type" ++ CRLF ++
  "Cache-Control: no-store, no-cache, must-revalidate" ++ CRLF.

(** One header line, and the status line, as [send_header] and
    [send_response_only] format them. *)
Definition header_line (keyword value : string) : string :=
  keyword ++ ": " ++ value ++ CRLF.

Definition status_line (code : Z) (message : string) : string :=
  protocol_version ++ " " ++ Py.str code ++ " " ++ message ++ CRLF.

(** The reason phrase [send_response_only] uses when none is given. *)
Definition default_message (code : Z) : string :=
  match responses code with
  | Some m => m
  | None => ""
  end.

(** The same four lines as entries of the headers buffer. *)
Definition cors_lines : list string :=
  [ "Access-Control-Allow-Origin: *" ++ CRLF;
    "Access-Control-Allow-Methods: GET, POST, OPTIONS" ++ CRLF;
    "Access-Control-Allow-Headers: Content-Type" ++ CRLF;
    "Cache-Control: no-store, no-cache, must-revalidate" ++ CRLF ].

(** The lines waiting in [self._headers_buffer]. *)
Definition pending (h : Handler) : list string :=
  match headers_buffer h with
  | Some b => b
  | None => []
  end.

(** A header block carries the four headers: they are its last four
    lines, followed by the blank line that ends the block. *)
Definition carries_cors (block : string) : Prop :=
  exists pre : string, block = pre ++ cors_headers ++ CRLF.

(** A write is in order when, if it is a header block, it carries the
    four headers. *)
Definition write_ok (w : write) : Prop :=
  match w with
  | Head block => carries_cors block
  | Body _ => True
  end.

(** A handler method is safe when, started with every header block so
    far in order, it returns and leaves every header block in order. *)
Definition safe {A : Type} (m : M A) : Prop :=
  forall h : Handler,
    Forall write_ok (wfile h) ->
    exists (a : A) (h' : Handler),
      m h = Py.Ok (a, h') /\ Forall write_ok (wfile h').

(** A write that is not a header block. *)
Definition is_body (w : write) : Prop := exists data : string, w = Body data.

(** From [h] to [h'] a response with headers was written: unless the
    request version in [h'] is HTTP/0.9, what was added to [wfile] is a
    header block that carries the four headers, followed by body data
    only. *)
Definition answered (h h' : Handler) : Prop :=
  (request_version h' =? "HTTP/0.9") = false ->
  exists (block : string) (rest : list write),
    wfile h' = (wfile h ++ Head block :: rest)%list
    /\ carries_cors block
    /\ Forall is_body rest.

(** A method that writes nothing to the connection and leaves the request
    version alone. *)
Definition quiet {A : Type} (m : M A) : Prop :=
  forall h : Handler,
    exists (a : A) (h' : Handler),
      m h = Py.Ok (a, h')
      /\ request_version h' = request_version h
      /\ wfile h' = wfile h.

(** A method that writes body data at most. *)
Definition trails {A : Type} (m : M A) : Prop :=
  forall h : Handler,
    exists (a : A) (h' : Handler) (rest : list write),
      m h = Py.Ok (a, h')
      /\ request_version h' = request_version h
      /\ wfile h' = (wfile h ++ rest)%list
      /\ Forall is_body rest.

(** A method that sends one response. *)
Definition responds {A : Type} (m : M A) : Prop :=
  forall h : Handler,
    exists (a : A) (h' : Handler),
      m h = Py.Ok (a, h')
      /\ request_version h' = request_version h
      /\ answered h h'.

(** A step of [parse_request] after the request line is split: it returns
    [true] having written nothing, or [false] having answered with an
    error response. *)
Definition parses (m : M bool) : Prop :=
  forall h : Handler,
    exists (b : bool) (h' : Handler),
      m h = Py.Ok (b, h')
      /\ if b then wfile h' = wfile h else answered h h'.

(** The bytes of a response as they go over the connection. *)
Definition payload (w : write) : string :=
  match w with
  | Head block => block
  | Body data => data
  end.

Definition wire (ws : list write) : string :=
  String.concat "" (map payload ws).

(** [needle in hay] *)
Fixpoint occurs (needle hay : string) : bool :=
  prefix needle hay
  || match hay with
     | "" => false
     | String _ r => occurs needle r
     end.

(** The line [log_message] prints for a first argument [first]. *)
Definition log_line (address first : string) : string :=
  (CORSHTTPRequestHandler.ESC ++ "[90m" ++ address
   ++ CORSHTTPRequestHandler.ESC ++ "[0m - " ++ first) ++ LF.

(** Whatever a handler method returns satisfies [P]. *)
Definition returns {A : Type} (P : A -> Prop) (m : M A) : Prop :=
  forall (h : Handler) (a : A) (h' : Handler), m h = Py.Ok (a, h') -> P a.

(** [c in s] for the path separator. *)
Fixpoint has_slash (s : string) : bool :=
  match s with
  | "" => false
  | String c r => posixpath.is_sep c || has_slash r
  end.

(** A plain file or directory name: not empty, without a slash, and not
    the parent directory. *)
Definition plain_name (w : string) : Prop :=
  w <> "" /\ has_slash w = false /\ w <> "..".

(** Lexical containment: [p] is [root] followed by a relative part that
    starts at a component boundary and has no [..] component. *)
Definition inside (root p : string) : Prop :=
  exists rel : string,
    p = root ++ rel
    /\ (rel = "" \/ Py.startswith rel "/" = true
        \/ Py.endswith root "/" = true)
    /\ Forall (fun c => c <> "..") (Py.split_on "/" rel).

(** A filesystem and library to run examples in: the serving root
    [/srv/ui] holds [index.html] and nothing else. *)
Definition sample_env : Env := {|
  version_string := "SimpleHTTP/0.6 Python/3.11.2";
  date_time_string := "Wed, 04 Nov 2026 12:00:00 GMT";
  repr := fun s => "'" ++ s ++ "'";
  error_page := fun code message _ =>
    "<h1>" ++ Py.str code ++ " " ++ message ++ "</h1>";
  unquote := fun s => s;
  urlsplit_path := fun s => fst (Py.split1 "?" s);
  redirect_location := fun s => s ++ "/";
  guess_type := fun _ => "text/html";
  isdir := fun p => (p =? "/srv/ui") || (p =? "/srv/ui/");
  isfile := fun p => p =? "/srv/ui/index.html";
  open_rb := fun p =>
    if p =? "/srv/ui/index.html"
    then Some {| content := "<h1>openSwap</h1>"; st_size := 17;
                 last_modified := "Tue, 03 Nov 2026 10:00:00 GMT" |}
    else None;
  not_modified_since := fun _ _ => false;
  listdir := fun _ => Some ["index.html"];
  listing_page := fun _ _ _ => "<ul><li>index.html</li></ul>";
  getfilesystemencoding := "utf-8"
|}.

(** A handler created for a client at 127.0.0.1 by a server whose script
    is [/srv/ui/server.py], while the working directory is [/tmp]. *)
Definition sample_handler : Handler :=
  CORSHTTPRequestHandler.__init__ (DIRECTORY "/home/dev" "/srv/ui/server.py")
    ("127.0.0.1", 50000%Z) "/tmp" "".

(** The same handler once [parse_request] has read the request line
    [OPTIONS /no/such/file HTTP/1.1]. *)
Definition options_handler : Handler :=
  set_path "/no/such/file"
    (set_command (Some "OPTIONS")
       (set_request_version "HTTP/1.1"
          (set_requestline "OPTIONS /no/such/file HTTP/1.1" sample_handler))).

(** The whole of a preflight response: status line, the library's two
    headers, the four headers, the blank line. *)
Definition preflight_response (env : Env) : string :=
  status_line 200 "OK"
  ++ header_line "Server" (version_string env)
  ++ header_line "Date" (date_time_string env)
  ++ cors_headers ++ CRLF.

(** The request made of one request line and no header. *)
Definition request_of_line (line : string) : Request :=
  {| raw_requestline := line ++ CRLF; header_lines := Parsed [] |}.

(** A world in which start-up succeeds and Ctrl+C arrives while serving. *)
Definition sample_world : World := {|
  tcp_server_init := fun _ => None;
  print_banner := None;
  serve := Raises Py.KeyboardInterrupt;
  print_stopped := None
|}.

(** A world in which the port is already in use (EADDRINUSE). *)
Definition busy_world : World := {|
  tcp_server_init := fun _ => Some (Py.OSError 98);
  print_banner := None;
  serve := Forever;
  print_stopped := None
|}.

(* ===================================================================== *)
(** * Vocabulary of the further properties *)
(* ===================================================================== *)

(** ** Whole responses *)

(** The lines of a header block as the handler flushes it: the status
    line, the two headers of [send_response], the headers the method
    sends, the four headers of [end_headers], the blank line. *)
Definition header_block (env : Env) (code : Z) (message : string)
  (fields : list (string * string)) : list string :=
  ([status_line code message;
    header_line "Server" (version_string env);
    header_line "Date" (date_time_string env)]
   ++ map (fun kv => header_line (fst kv) (snd kv)) fields
   ++ cors_lines ++ [CRLF])%list.

(** The reason phrase of an error response: [send_error]'s [message]. *)
Definition error_reason (code : Z) (message : option string) : string :=
  match message with
  | Some m => m
  | None => match responses code with Some m => m | None => "???" end
  end.

(** The headers [send_error] sends with an error page. *)
Definition error_fields (body : string) : list (string * string) :=
  [ ("Connection", "close");
    ("Content-Type", error_content_type);
    ("Content-Length", Py.str (Z.of_nat (String.length body))) ].

(** The headers [send_head] sends with a file. *)
Definition file_fields (env : Env) (path : string) (fd : FileData)
  : list (string * string) :=
  [ ("Content-type", guess_type env path);
    ("Content-Length", Py.str (st_size fd));
    ("Last-Modified", last_modified fd) ].

(** The headers [send_head] sends when it redirects to a directory. *)
Definition redirect_fields (env : Env) (path : string)
  : list (string * string) :=
  [ ("Location", redirect_location env path); ("Content-Length", "0") ].

(** The codes for which [send_error] sends an error page. *)
Definition has_error_page (code : Z) : bool :=
  (200 <=? code)%Z
  && negb ((code =? 204)%Z || (code =? 205)%Z || (code =? 304)%Z).

(** The body of an error response as [send_error] writes it: the page,
    unless it is empty or the request is a HEAD. *)
Definition error_body (h : Handler) (body : string) : list write :=
  if negb (command_is h "HEAD") && negb (body =? "") then [Body body]
  else [].

(** A write that is a header block. *)
Definition is_head (w : write) : Prop := exists block : string, w = Head block.

(** [c in s] *)
Fixpoint has_char (c : ascii) (s : string) : bool :=
  match s with
  | "" => false
  | String d r => Ascii.eqb d c || has_char c r
  end.

(** The sample handler once [parse_request] has read the request line
    given, a method, a target and [HTTP/1.1]. *)
Definition parsed_handler (method target : string) : Handler :=
  set_path target
    (set_command (Some method)
       (set_request_version "HTTP/1.1"
          (set_requestline (method ++ " " ++ target ++ " HTTP/1.1")
             sample_handler))).

(** ** State invariants *)

(** A method keeps [I] when, started in a state where [I] holds, it
    returns in a state where [I] holds. *)
Definition keeps (I : Handler -> Prop) {A : Type} (m : M A) : Prop :=
  forall h : Handler,
    I h -> exists (a : A) (h' : Handler), m h = Py.Ok (a, h') /\ I h'.

(** The connection is to be closed after the request. *)
Definition closing (h : Handler) : Prop := close_connection h = true.

(** A HEAD request is being answered, and since [w0] header blocks only
    have been written. *)
Definition heads_only (w0 : list write) (h : Handler) : Prop :=
  command_is h "HEAD" = true
  /\ exists ws : list write,
       wfile h = (w0 ++ ws)%list /\ Forall is_head ws.

(** ** The connection *)

(** What [self.rfile] gives once the client has sent everything: an empty
    line. *)
Definition end_of_stream : Request :=
  {| raw_requestline := ""; header_lines := Parsed [] |}.

(** The [while not self.close_connection: self.handle_one_request()] loop
    of [handle], on an instance of [CORSHTTPRequestHandler]; [reads] is
    what the successive calls find on the connection.  When the
    connection is exhausted the call reads an empty line, which sets
    [close_connection] and so ends the loop. *)
Fixpoint handle_loop (env : Env) (reads : list Request) : M unit :=
  (self <- get ;;
   if close_connection self then ret tt
   else
     match reads with
     | [] => CORSHTTPRequestHandler.handle_one_request env end_of_stream
     | req :: rest =>
         CORSHTTPRequestHandler.handle_one_request env req ;;
         handle_loop env rest
     end)%handler.

(** [BaseHTTPRequestHandler.handle()] on an instance of
    [CORSHTTPRequestHandler]. *)
Definition handle (env : Env) (reads : list Request) : M unit :=
  (modify (set_close_connection true) ;;
   CORSHTTPRequestHandler.handle_one_request env (hd end_of_stream reads) ;;
   handle_loop env (tl reads))%handler.

(** ** The access log *)

(** From [h] to [h'] the request was logged: one line with the request
    line, after a line with the status code when the response is an error
    response. *)
Definition logged (h h' : Handler) : Prop :=
  let address := fst (client_address h) in
  stdout h' = stdout h ++ log_line address (requestline h')
  \/ exists code : Z,
       stdout h' =
       (stdout h ++ log_line address (Py.str code))
       ++ log_line address (requestline h').

(** A method that prints nothing and leaves the client address and the
    request line alone. *)
Definition hushed {A : Type} (m : M A) : Prop :=
  forall h : Handler,
    exists (a : A) (h' : Handler),
      m h = Py.Ok (a, h')
      /\ client_address h' = client_address h
      /\ requestline h' = requestline h
      /\ stdout h' = stdout h.

(** A method that logs the request once. *)
Definition logs {A : Type} (m : M A) : Prop :=
  forall h : Handler,
    exists (a : A) (h' : Handler),
      m h = Py.Ok (a, h')
      /\ client_address h' = client_address h
      /\ requestline h' = requestline h
      /\ logged h h'.

(** A step of [parse_request]: it returns [true] having printed nothing,
    or [false] having logged the request. *)
Definition parse_logs (m : M bool) : Prop :=
  forall h : Handler,
    exists (b : bool) (h' : Handler),
      m h = Py.Ok (b, h')
      /\ client_address h' = client_address h
      /\ if b then stdout h' = stdout h else logged h h'.

(** ** Decimal numerals *)

(** The value of the digits [d] read after digits of value [acc]. *)
Fixpoint horner (d : Decimal.uint) (acc : Z) : Z :=
  match d with
  | Decimal.Nil => acc
  | Decimal.D0 r => horner r (10 * acc + 0)
  | Decimal.D1 r => horner r (10 * acc + 1)
  | Decimal.D2 r => horner r (10 * acc + 2)
  | Decimal.D3 r => horner r (10 * acc + 3)
  | Decimal.D4 r => horner r (10 * acc + 4)
  | Decimal.D5 r => horner r (10 * acc + 5)
  | Decimal.D6 r => horner r (10 * acc + 6)
  | Decimal.D7 r => horner r (10 * acc + 7)
  | Decimal.D8 r => horner r (10 * acc + 8)
  | Decimal.D9 r => horner r (10 * acc + 9)
  end%Z.

(** The test of [send_head] for a conditional request whose copy is still
    good: [If-Modified-Since] is present, [If-None-Match] is not, and the
    file is not newer than the date given. *)
Definition not_modified (env : Env) (h : Handler) (fd : FileData) : bool :=
  headers_contains (headers h) "If-Modified-Since"
  && negb (headers_contains (headers h) "If-None-Match")
  && not_modified_since env
       (headers_get (headers h) "If-Modified-Since" "") fd.

(** What [do_GET] and [do_HEAD] write after [send_head] returned [f]. *)
Definition copied (method : string) (f : option FileObject) : list write :=
  match f with
  | Some f => if method =? "GET" then [Body (data f)] else []
  | None => []
  end.

(** The sample surroundings with a working test of [If-Modified-Since]:
    the copy is good when the date sent is the file's own. *)
Definition conditional_env : Env := {|
  version_string := version_string sample_env;
  date_time_string := date_time_string sample_env;
  repr := repr sample_env;
  error_page := error_page sample_env;
  unquote := unquote sample_env;
  urlsplit_path := urlsplit_path sample_env;
  redirect_location := redirect_location sample_env;
  guess_type := guess_type sample_env;
  isdir := isdir sample_env;
  isfile := isfile sample_env;
  open_rb := open_rb sample_env;
  not_modified_since := fun date fd => date =? last_modified fd;
  listdir := listdir sample_env;
  listing_page := listing_page sample_env;
  getfilesystemencoding := getfilesystemencoding sample_env
|}.

(** A parsed request for [/index.html] that carries the file's date in
    [If-Modified-Since]. *)
Definition conditional_handler : Handler :=
  set_headers [("If-Modified-Since", "Tue, 03 Nov 2026 10:00:00 GMT")]
    (parsed_handler "GET" "/index.html").

(** The headers [list_directory] sends with a listing. *)
Definition listing_fields (env : Env) (page : string)
  : list (string * string) :=
  [ ("Content-type", "text/html; charset=" ++ getfilesystemencoding env);
    ("Content-Length", Py.str (Z.of_nat (String.length page))) ].

(** The sample surroundings, with a serving root that has no index file. *)
Definition bare_env : Env := {|
  version_string := version_string sample_env;
  date_time_string := date_time_string sample_env;
  repr := repr sample_env;
  error_page := error_page sample_env;
  unquote := unquote sample_env;
  urlsplit_path := urlsplit_path sample_env;
  redirect_location := redirect_location sample_env;
  guess_type := guess_type sample_env;
  isdir := isdir sample_env;
  isfile := fun _ => false;
  open_rb := fun _ => None;
  not_modified_since := not_modified_since sample_env;
  listdir := fun _ => Some ["assets"];
  listing_page := fun _ _ _ => "<ul><li>assets/</li></ul>";
  getfilesystemencoding := getfilesystemencoding sample_env
|}.

(** ** The directory of the script *)

(** The number of leading slashes [normpath] keeps: two for exactly two,
    one for any other positive number, none for a relative path. *)
Definition initial_slashes (path : string) : nat :=
  if Py.startswith path "/" then
    if Py.startswith path "//" && negb (Py.startswith path "///")
    then 2 else 1
  else 0.

(** The components [normpath] keeps, in order. *)
Definition components (path : string) : list string :=
  fold_left (posixpath.normpath_step (initial_slashes path))
    (Py.split_on "/" path) [].

(** One component of a path: not empty and without a slash. *)
Definition component (c : string) : Prop := c <> "" /\ has_slash c = false.

(** The name of a script in its directory: a component that is neither
    [.] nor [..]. *)
Definition script_name (n : string) : Prop :=
  component n /\ n <> "." /\ n <> "..".

(** ** Request lines at the edges *)

(** The words of the request line as [parse_request] splits them. *)
Definition request_words (req : Request) : list string :=
  Py.split
    (Py.rstrip_by (fun c => Ascii.eqb c "013" || Ascii.eqb c "010")
       (raw_requestline req)).

(** A request whose first line is as long as [readline(65537)] returns at
    most. *)
Definition long_request : Request :=
  {| raw_requestline := string_of_list_ascii (repeat "a"%char (Z.to_nat 65537));
     header_lines := Parsed [] |}.

(** ** HTTP/0.9 *)

(** From [h] to [h'] nothing but body data was written, if in [h'] the
    request version is HTTP/0.9. *)
Definition unheaded (h h' : Handler) : Prop :=
  (request_version h' =? "HTTP/0.9") = true ->
  exists rest : list write,
    wfile h' = (wfile h ++ rest)%list /\ Forall is_body rest.

(** A method that leaves the request version alone and, under HTTP/0.9,
    writes body data at most. *)
Definition plain {A : Type} (m : M A) : Prop :=
  forall h : Handler,
    exists (a : A) (h' : Handler),
      m h = Py.Ok (a, h')
      /\ request_version h' = request_version h
      /\ unheaded h h'.

(** A step of [parse_request]: it returns [true] having written nothing,
    or [false] having written, under HTTP/0.9, body data at most. *)
Definition parse_plain (m : M bool) : Prop :=
  forall h : Handler,
    exists (b : bool) (h' : Handler),
      m h = Py.Ok (b, h')
      /\ if b then wfile h' = wfile h else unheaded h h'.

(* ===================================================================== *)
(** * [main]: port argument, start-up and shutdown *)
(* ===================================================================== *)

(** [int] raises nothing but [ValueError]. *)
Lemma int_cases (s : string) :
  (exists n, Py.int s = Py.Ok n) \/ Py.int s = Py.Raise Py.ValueError.
Proof.
  unfold Py.int.
  destruct (Py.PyLong_FromString _) as [n|]; [left; exists n|right];
    reflexivity.
Qed.

Lemma port_of_argv_default (argv : list string) :
  (length argv <= 1)%nat -> port_of_argv argv = Py.Ok PORT.
Proof.
  intros H. unfold port_of_argv.
  destruct (Nat.ltb_spec 1 (length argv)); [lia | reflexivity].
Qed.

Lemma port_of_argv_argument (prog s : string) (rest : list string) :
  port_of_argv (prog :: s :: rest) = Py.int s.
Proof. reflexivity. Qed.

(** [main] once the port is known: the [with] block. *)
Lemma main_with_port (argv : list string) (w : World) (port : Z) :
  port_of_argv argv = Py.Ok port ->
  main argv w =
  with_server (TCPServer_init w "" port)
    (process.bind (process.print (print_banner w) (banner port))
       (fun _ =>
          try_except_KeyboardInterrupt (serve_forever w)
            (process.bind (process.print (print_stopped w) stopped_message)
               (fun _ => sys_exit 0%Z)))).
Proof.
  intros H. unfold main. rewrite H. simpl.
  destruct (with_server _ _) as [evs r]. reflexivity.
Qed.

(** An uncaught exception never gives exit status 0. *)
Lemma exit_status_raised {A : Type} (evs : list event) (e : Py.exception) :
  exit_status (A := A) (evs, inr (Raised e)) <> Some 0%Z.
Proof. destruct e; discriminate. Qed.

(** The first call [main] makes is the server's constructor, on all
    interfaces and the port computed from the arguments. *)
Lemma main_first_event (argv : list string) (w : World) (port : Z) :
  port_of_argv argv = Py.Ok port ->
  hd_error (fst (main argv w)) = Some (TCPServer "" port).
Proof.
  intros H. rewrite (main_with_port argv w port H).
  unfold with_server, TCPServer_init.
  destruct (tcp_server_init w port); [reflexivity|].
  destruct (process.bind _ _) as [evs [[]|[e| code |]]]; reflexivity.
Qed.

(** Once the server is created and the banner printed, [main] is serving. *)
Lemma main_serving (argv : list string) (w : World) (port : Z) :
  port_of_argv argv = Py.Ok port ->
  tcp_server_init w port = None ->
  print_banner w = None ->
  exists evs : list event,
    fst (main argv w)
    = TCPServer "" port :: Print (banner port) :: ServeForever :: evs.
Proof.
  intros Hport Hinit Hbanner. rewrite (main_with_port argv w port Hport).
  unfold with_server, TCPServer_init, serve_forever.
  rewrite Hinit, Hbanner.
  destruct (serve w) as [| |e]; [| |destruct e];
    try (eexists; reflexivity);
    destruct (print_stopped w); eexists; reflexivity.
Qed.

(** C3.  Without a command-line argument the server is created on port
    8080; with a first argument that [int] accepts, on exactly the integer
    it denotes, for instance 9090 for ['9090'].  When the constructor and
    the printing of the banner complete, [serve_forever] runs on that
    server. *)
Theorem C3_default_port_and_given_port :
  (forall (argv : list string) (w : World),
      (length argv <= 1)%nat ->
      hd_error (fst (main argv w)) = Some (TCPServer "" 8080%Z))
  /\ (forall (prog s : string) (rest : list string) (n : Z) (w : World),
         Py.int s = Py.Ok n ->
         hd_error (fst (main (prog :: s :: rest) w)) = Some (TCPServer "" n)
         /\ (tcp_server_init w n = None ->
             print_banner w = None ->
             exists evs : list event,
               fst (main (prog :: s :: rest) w)
               = TCPServer "" n :: Print (banner n) :: ServeForever :: evs))
  /\ Py.int "9090" = Py.Ok 9090%Z.
Proof.
  split; [|split].
  - intros argv w H. apply main_first_event.
    now apply port_of_argv_default.
  - intros prog s rest n w H. split.
    + apply main_first_event. now rewrite port_of_argv_argument.
    + apply main_serving. now rewrite port_of_argv_argument.
  - reflexivity.
Qed.

Lemma C3_witness :
  hd_error (fst (main ["server.py"] sample_world)) = Some (TCPServer "" 8080%Z)
  /\ hd_error (fst (main ["server.py"; "9090"] sample_world))
     = Some (TCPServer "" 9090%Z).
Proof.
  destruct C3_default_port_and_given_port as [Hdefault [Hgiven _]].
  split.
  - apply Hdefault. simpl. lia.
  - apply (Hgiven "server.py" "9090" [] 9090%Z sample_world). reflexivity.
Defined.

(** C4.  With a first argument that is not a valid integer ([int] raises
    [ValueError], the only exception it raises on a string), [main] ends
    in that [ValueError] before any server is created: no port is bound,
    8080 or other, and the exit status is 1. *)
Theorem C4_invalid_port_is_fatal :
  forall (prog s : string) (rest : list string) (w : World),
    Py.int s = Py.Raise Py.ValueError ->
    main (prog :: s :: rest) w = ([], inr (Raised Py.ValueError))
    /\ exit_status (main (prog :: s :: rest) w) = Some 1%Z
    /\ exit_status (main (prog :: s :: rest) w) <> Some 0%Z
    /\ (forall s' : string,
           (forall n : Z, Py.int s' <> Py.Ok n)
           <-> Py.int s' = Py.Raise Py.ValueError).
Proof.
  intros prog s rest w Hbad.
  assert (Hmain : main (prog :: s :: rest) w = ([], inr (Raised Py.ValueError))).
  { unfold main. rewrite port_of_argv_argument, Hbad. reflexivity. }
  rewrite Hmain. repeat split; try discriminate.
  - intros Hno. destruct (int_cases s') as [[n Hn] | Hv]; [|exact Hv].
    exfalso. exact (Hno n Hn).
  - intros Hv n Hn. congruence.
Qed.

Lemma C4_witness :
  main ["server.py"; "eighty"] sample_world = ([], inr (Raised Py.ValueError))
  /\ exit_status (main ["server.py"; "eighty"] sample_world) = Some 1%Z.
Proof.
  destruct (C4_invalid_port_is_fatal "server.py" "eighty" [] sample_world
              eq_refl) as (Hmain & Hstatus & _).
  split; [exact Hmain | exact Hstatus].
Defined.

Lemma main_interrupted (argv : list string) (w : World) (port : Z) :
  port_of_argv argv = Py.Ok port ->
  tcp_server_init w port = None ->
  print_banner w = None ->
  serve w = Raises Py.KeyboardInterrupt ->
  print_stopped w = None ->
  main argv w =
    ([TCPServer "" port; Print (banner port); ServeForever;
      Print stopped_message; ServerClose],
     inr (SystemExit 0%Z)).
Proof.
  intros Hport Hinit Hbanner Hserve Hstopped.
  rewrite (main_with_port argv w port Hport).
  unfold with_server, TCPServer_init, serve_forever.
  rewrite Hinit, Hbanner, Hserve, Hstopped. reflexivity.
Qed.

(** C6.  When start-up has succeeded and [serve_forever] is interrupted by
    [KeyboardInterrupt], [main] prints the "Server stopped" message, closes
    the listening socket and exits with status 0. *)
Theorem C6_interrupt_stops_cleanly :
  forall (argv : list string) (w : World) (port : Z),
    port_of_argv argv = Py.Ok port ->
    tcp_server_init w port = None ->
    print_banner w = None ->
    serve w = Raises Py.KeyboardInterrupt ->
    print_stopped w = None ->
    main argv w =
      ([TCPServer "" port; Print (banner port); ServeForever;
        Print stopped_message; ServerClose],
       inr (SystemExit 0%Z))
    /\ exit_status (main argv w) = Some 0%Z
    /\ Py.endswith stopped_message "Server stopped" = true.
Proof.
  intros argv w port Hport Hinit Hbanner Hserve Hstopped.
  rewrite (main_interrupted argv w port Hport Hinit Hbanner Hserve Hstopped).
  repeat split; reflexivity.
Qed.

Lemma C6_witness :
  main ["server.py"] sample_world =
    ([TCPServer "" 8080%Z; Print (banner 8080%Z); ServeForever;
      Print stopped_message; ServerClose],
     inr (SystemExit 0%Z))
  /\ exit_status (main ["server.py"] sample_world) = Some 0%Z
  /\ Py.endswith stopped_message "Server stopped" = true.
Proof.
  apply (C6_interrupt_stops_cleanly ["server.py"] sample_world 8080%Z);
    reflexivity.
Defined.

(** C9.  With a first argument, the port is whatever [int] makes of it:
    ['0'], ['-1'] and [' 8080 '] are accepted and give 0, -1 and 8080,
    [main] goes on to create the server on 0 and on -1, and the port
    expression fails exactly when [int] rejects the string. *)
Theorem C9_port_parsing_is_int :
  (forall (prog s : string) (rest : list string),
      port_of_argv (prog :: s :: rest) = Py.int s)
  /\ Py.int "0" = Py.Ok 0%Z
  /\ Py.int "-1" = Py.Ok (-1)%Z
  /\ Py.int " 8080 " = Py.Ok 8080%Z
  /\ (forall (prog : string) (rest : list string) (w : World),
         hd_error (fst (main (prog :: "0" :: rest) w))
         = Some (TCPServer "" 0%Z)
         /\ hd_error (fst (main (prog :: "-1" :: rest) w))
            = Some (TCPServer "" (-1)%Z))
  /\ (forall (prog s : string) (rest : list string),
         (exists e, port_of_argv (prog :: s :: rest) = Py.Raise e)
         <-> (forall n : Z, Py.int s <> Py.Ok n)).
Proof.
  repeat split; try reflexivity.
  - apply main_first_event. reflexivity.
  - apply main_first_event. reflexivity.
  - intros [e He] n Hn. rewrite port_of_argv_argument in He. congruence.
  - intros Hbad. rewrite port_of_argv_argument.
    destruct (int_cases s) as [[n Hn] | Hv].
    + exfalso. exact (Hbad n Hn).
    + exists Py.ValueError. exact Hv.
Qed.

Lemma main_bind_failure (argv : list string) (w : World) (port : Z)
  (e : Py.exception) :
  port_of_argv argv = Py.Ok port ->
  tcp_server_init w port = Some e ->
  main argv w = ([TCPServer "" port], inr (Raised e)).
Proof.
  intros Hport Hinit. rewrite (main_with_port argv w port Hport).
  unfold with_server, TCPServer_init. rewrite Hinit. reflexivity.
Qed.

Lemma main_banner_failure (argv : list string) (w : World) (port : Z)
  (e : Py.exception) :
  port_of_argv argv = Py.Ok port ->
  tcp_server_init w port = None ->
  print_banner w = Some e ->
  main argv w = ([TCPServer "" port; ServerClose], inr (Raised e)).
Proof.
  intros Hport Hinit Hbanner. rewrite (main_with_port argv w port Hport).
  unfold with_server, TCPServer_init. rewrite Hinit, Hbanner. reflexivity.
Qed.

Lemma main_serve_failure (argv : list string) (w : World) (port : Z)
  (e : Py.exception) :
  port_of_argv argv = Py.Ok port ->
  tcp_server_init w port = None ->
  print_banner w = None ->
  serve w = Raises e ->
  e <> Py.KeyboardInterrupt ->
  main argv w =
    ([TCPServer "" port; Print (banner port); ServeForever; ServerClose],
     inr (Raised e)).
Proof.
  intros Hport Hinit Hbanner Hserve Hne.
  rewrite (main_with_port argv w port Hport).
  unfold with_server, TCPServer_init, serve_forever.
  rewrite Hinit, Hbanner, Hserve.
  destruct e; try reflexivity. now contradiction Hne.
Qed.

(** C10.  Once the port is known, [main] ends in [sys.exit(0)] exactly
    when the server was created, the banner printed, [serve_forever]
    raised [KeyboardInterrupt] and the stop message was printed.  An
    exception raised by the server's constructor (a failed bind, an
    interrupt during it), by the printing of the banner, or by
    [serve_forever] when it is not [KeyboardInterrupt], leaves [main]
    uncaught: the stop message is not printed and the exit status is not
    0. *)
Theorem C10_only_serving_interrupt_is_caught :
  forall (argv : list string) (w : World) (port : Z),
    port_of_argv argv = Py.Ok port ->
    (forall e : Py.exception,
        tcp_server_init w port = Some e ->
        snd (main argv w) = inr (Raised e)
        /\ ~ In (Print stopped_message) (fst (main argv w))
        /\ exit_status (main argv w) <> Some 0%Z)
    /\ (forall e : Py.exception,
           tcp_server_init w port = None ->
           print_banner w = Some e ->
           snd (main argv w) = inr (Raised e)
           /\ ~ In (Print stopped_message) (fst (main argv w))
           /\ exit_status (main argv w) <> Some 0%Z)
    /\ (forall e : Py.exception,
           tcp_server_init w port = None ->
           print_banner w = None ->
           serve w = Raises e ->
           e <> Py.KeyboardInterrupt ->
           snd (main argv w) = inr (Raised e)
           /\ ~ In (Print stopped_message) (fst (main argv w))
           /\ exit_status (main argv w) <> Some 0%Z)
    /\ (snd (main argv w) = inr (SystemExit 0%Z)
        <-> tcp_server_init w port = None
            /\ print_banner w = None
            /\ serve w = Raises Py.KeyboardInterrupt
            /\ print_stopped w = None).
Proof.
  intros argv w port Hport.
  assert (Hprint : forall p, Print stopped_message <> Print (banner p)).
  { intros p H.
    apply (f_equal (fun ev => match ev with
                              | Print text => substring 0 24 text
                              | _ => ""
                              end)) in H.
    vm_compute in H. discriminate. }
  split; [|split; [|split]].
  - intros e Hinit.
    rewrite (main_bind_failure argv w port e Hport Hinit). simpl.
    split; [reflexivity|split].
    + intros [H|[]]. discriminate.
    + apply exit_status_raised.
  - intros e Hinit Hbanner.
    rewrite (main_banner_failure argv w port e Hport Hinit Hbanner). simpl.
    split; [reflexivity|split].
    + intros [H|[H|[]]]; discriminate.
    + apply exit_status_raised.
  - intros e Hinit Hbanner Hserve Hne.
    rewrite (main_serve_failure argv w port e Hport Hinit Hbanner Hserve Hne).
    simpl. split; [reflexivity|split].
    + intros [H|[H|[H|[H|[]]]]]; try discriminate;
        symmetry in H; exact (Hprint port H).
    + apply exit_status_raised.
  - split.
    + intros Hexit. rewrite (main_with_port argv w port Hport) in Hexit.
      unfold with_server, TCPServer_init, serve_forever in Hexit.
      destruct (tcp_server_init w port); [discriminate|].
      destruct (print_banner w); [discriminate|].
      destruct (serve w) as [| |e]; try discriminate.
      destruct e; try discriminate.
      destruct (print_stopped w); [discriminate|].
      repeat split; reflexivity.
    + intros (Hinit & Hbanner & Hserve & Hstopped).
      rewrite (main_interrupted argv w port Hport Hinit Hbanner Hserve
                 Hstopped).
      reflexivity.
Qed.

Lemma C10_witness :
  snd (main ["server.py"] busy_world) = inr (Raised (Py.OSError 98))
  /\ exit_status (main ["server.py"] busy_world) <> Some 0%Z.
Proof.
  destruct (C10_only_serving_interrupt_is_caught ["server.py"] busy_world
              8080%Z eq_refl) as [Hbind _].
  destruct (Hbind (Py.OSError 98) eq_refl) as (Hraised & _ & Hstatus).
  split; assumption.
Defined.

(* ===================================================================== *)
(** * Strings *)
(* ===================================================================== *)

Lemma append_assoc (a b c : string) : (a ++ b) ++ c = a ++ b ++ c.
Proof. induction a as [|x a IH]; simpl; [reflexivity | now rewrite IH]. Qed.

Lemma append_nil_r (a : string) : a ++ "" = a.
Proof. induction a as [|x a IH]; simpl; [reflexivity | now rewrite IH]. Qed.

Lemma concat_empty_app (xs ys : list string) :
  String.concat "" (xs ++ ys)%list
  = String.concat "" xs ++ String.concat "" ys.
Proof.
  induction xs as [|x xs IH]; simpl; [reflexivity|].
  destruct xs as [|x' xs]; simpl in *.
  - destruct ys; simpl; [now rewrite append_nil_r | reflexivity].
  - rewrite IH. now rewrite append_assoc.
Qed.

(** A buffer that ends with the four lines and the blank line flushes to
    a block that carries the four headers. *)
Lemma carries_cors_flush (b : list string) :
  carries_cors (String.concat "" (b ++ cors_lines ++ [CRLF])%list).
Proof.
  exists (String.concat "" b).
  rewrite concat_empty_app. f_equal.
Qed.

(* ===================================================================== *)
(** * Running the handler's methods *)
(* ===================================================================== *)

Local Open Scope handler_scope.

(** Reading a field of an updated state. *)
Ltac norm :=
  cbn [client_address directory requestline command path request_version
       headers close_connection headers_buffer wfile stdout
       set_requestline set_command set_path set_request_version set_headers
       set_close_connection set_headers_buffer set_wfile set_stdout
       pending command_is negb].

Lemma send_header_run (keyword value : string) (h : Handler) :
  (Py.lower keyword =? "connection") = false ->
  send_header keyword value h =
  Py.Ok (tt,
         if request_version h =? "HTTP/0.9" then h
         else set_headers_buffer
                (Some (pending h ++ [header_line keyword value])%list)
                h).
Proof.
  intros Hk. unfold send_header, http_server.bind, get, buffer_append, modify, ret, pending.
  destruct (request_version h =? "HTTP/0.9"); cbn [negb]; rewrite Hk;
    reflexivity.
Qed.

Lemma send_header_close_run (h : Handler) :
  send_header "Connection" "close" h =
  Py.Ok (tt,
         set_close_connection true
           (if request_version h =? "HTTP/0.9" then h
            else set_headers_buffer
                   (Some (pending h ++ [header_line "Connection" "close"])%list)
                   h)).
Proof.
  unfold send_header, http_server.bind, get, buffer_append, modify, ret, pending.
  destruct (request_version h =? "HTTP/0.9"); reflexivity.
Qed.

Lemma send_response_only_run (code : Z) (message : option string)
  (h : Handler) :
  send_response_only code message h =
  Py.Ok (tt,
         if request_version h =? "HTTP/0.9" then h
         else set_headers_buffer
                (Some (pending h ++
                       [status_line code
                          match message with
                          | Some m => m
                          | None => default_message code
                          end])%list)
                h).
Proof.
  unfold send_response_only, http_server.bind, get, buffer_append, modify, ret, pending.
  destruct (request_version h =? "HTTP/0.9"); reflexivity.
Qed.

Lemma end_headers_run (h : Handler) :
  CORSHTTPRequestHandler.end_headers h =
  Py.Ok (tt,
         if request_version h =? "HTTP/0.9" then h
         else set_headers_buffer (Some [])
                (set_wfile
                   (wfile h ++
                    [Head (String.concat ""
                             (pending h ++ cors_lines ++ [CRLF])%list)])%list
                   h)).
Proof.
  unfold CORSHTTPRequestHandler.end_headers, http_server.bind.
  rewrite send_header_run by reflexivity.
  destruct (request_version h =? "HTTP/0.9") eqn:E.
  - repeat (rewrite send_header_run by reflexivity; rewrite E).
    unfold http_server.end_headers, http_server.bind, get, ret.
    now rewrite E.
  - repeat (rewrite send_header_run by reflexivity; norm; rewrite E).
    unfold http_server.end_headers, flush_headers, buffer_append,
      wfile_write, http_server.bind, get, modify, ret.
    norm. rewrite E. norm.
    unfold cors_lines. repeat rewrite <- app_assoc. reflexivity.
Qed.

Lemma log_message_run (format : string) (first : arg) (rest : list arg)
  (h : Handler) :
  CORSHTTPRequestHandler.log_message format (first :: rest) h =
  Py.Ok (tt,
         set_stdout
           (stdout h ++ log_line (fst (client_address h)) (format_arg first))
           h).
Proof. reflexivity. Qed.

Lemma log_request_run (code : Z) (h : Handler) :
  log_request CORSHTTPRequestHandler.log_message code h =
  Py.Ok (tt,
         set_stdout
           (stdout h ++ log_line (fst (client_address h)) (requestline h)) h).
Proof. reflexivity. Qed.

(** The three lines [send_response] puts in the buffer. *)
Lemma send_response_run (env : Env) (code : Z) (message : option string)
  (h : Handler) :
  send_response env CORSHTTPRequestHandler.log_message code message h =
  Py.Ok (tt,
         let logged :=
           set_stdout
             (stdout h ++ log_line (fst (client_address h)) (requestline h))
             h in
         if request_version h =? "HTTP/0.9" then logged
         else set_headers_buffer
                (Some (pending h ++
                       [status_line code
                          match message with
                          | Some m => m
                          | None => default_message code
                          end;
                        header_line "Server" (version_string env);
                        header_line "Date" (date_time_string env)])%list)
                logged).
Proof.
  unfold send_response, http_server.bind.
  rewrite log_request_run, send_response_only_run. norm.
  destruct (request_version h =? "HTTP/0.9") eqn:E.
  - repeat (rewrite send_header_run by reflexivity; norm; rewrite E).
    reflexivity.
  - repeat (rewrite send_header_run by reflexivity; norm; rewrite E).
    cbv zeta. repeat rewrite <- app_assoc. reflexivity.
Qed.

Lemma do_OPTIONS_run (env : Env) (h : Handler) :
  CORSHTTPRequestHandler.do_OPTIONS env h =
  Py.Ok (tt,
         let logged :=
           set_stdout
             (stdout h ++ log_line (fst (client_address h)) (requestline h))
             h in
         if request_version h =? "HTTP/0.9" then logged
         else set_headers_buffer (Some [])
                (set_wfile
                   (wfile h ++
                    [Head (String.concat ""
                             (pending h ++
                              [status_line 200 "OK";
                               header_line "Server" (version_string env);
                               header_line "Date" (date_time_string env)]
                              ++ cors_lines ++ [CRLF])%list)])%list
                   logged)).
Proof.
  unfold CORSHTTPRequestHandler.do_OPTIONS, http_server.bind.
  rewrite send_response_run. cbv zeta.
  destruct (request_version h =? "HTTP/0.9") eqn:E;
    rewrite end_headers_run; norm; rewrite E.
  - reflexivity.
  - repeat rewrite <- app_assoc. reflexivity.
Qed.

(* ===================================================================== *)
(** * Every header block carries the four headers *)
(* ===================================================================== *)

(** ** Safety of the building blocks *)

Lemma safe_ret {A : Type} (a : A) : safe (ret a).
Proof. intros h Hh. exists a, h. split; [reflexivity | exact Hh]. Qed.

Lemma safe_bind {A B : Type} (m : M A) (k : A -> M B) :
  safe m -> (forall a, safe (k a)) -> safe (http_server.bind m k).
Proof.
  intros Hm Hk h Hh. unfold http_server.bind.
  destruct (Hm h Hh) as (a & h1 & -> & Hh1).
  exact (Hk a h1 Hh1).
Qed.

Lemma safe_get : safe get.
Proof. intros h Hh. exists h, h. split; [reflexivity | exact Hh]. Qed.

Lemma safe_modify (f : Handler -> Handler) :
  (forall h, wfile (f h) = wfile h) -> safe (modify f).
Proof.
  intros Hf h Hh. exists tt, (f h). split; [reflexivity|].
  now rewrite Hf.
Qed.

Lemma safe_write_body (data : string) : safe (wfile_write (Body data)).
Proof.
  intros h Hh. exists tt, (set_wfile (wfile h ++ [Body data])%list h).
  split; [reflexivity|]. cbn [wfile set_wfile].
  apply Forall_app. split; [exact Hh|]. repeat constructor.
Qed.

Create HintDb safe.

#[local] Hint Resolve safe_ret safe_get safe_write_body : safe.

(** One step through a method body: sequencing, branching, and the
    state updates that leave [wfile] alone. *)
Ltac safe_step :=
  match goal with
  | |- safe (http_server.bind _ _) => apply safe_bind; [| intros ?]
  | |- safe (modify _) => apply safe_modify; intros ?; reflexivity
  | |- safe (if ?b then _ else _) => destruct b
  | |- safe (match ?x with _ => _ end) => destruct x
  | |- safe _ => solve [auto with safe]
  end.

Ltac safe_auto := cbv zeta; repeat safe_step.

Lemma safe_buffer_append (line : string) : safe (buffer_append line).
Proof. unfold buffer_append. safe_auto. Qed.

#[local] Hint Resolve safe_buffer_append : safe.

Lemma safe_send_response_only (code : Z) (message : option string) :
  safe (send_response_only code message).
Proof. unfold send_response_only. safe_auto. Qed.

Lemma safe_send_header (keyword value : string) :
  safe (send_header keyword value).
Proof. unfold send_header. safe_auto. Qed.

#[local] Hint Resolve safe_send_response_only safe_send_header : safe.

(** The override: whatever the buffer holds, what is flushed ends with the
    four lines. *)
Lemma safe_end_headers : safe CORSHTTPRequestHandler.end_headers.
Proof.
  intros h Hh. rewrite end_headers_run.
  eexists _, _. split; [reflexivity|].
  destruct (request_version h =? "HTTP/0.9"); [exact Hh|].
  cbn [wfile set_headers_buffer set_wfile].
  apply Forall_app. split; [exact Hh|].
  constructor; [apply carries_cors_flush | constructor].
Qed.

Lemma safe_log_message (format : string) (first : arg) (rest : list arg) :
  safe (CORSHTTPRequestHandler.log_message format (first :: rest)).
Proof.
  intros h Hh. rewrite log_message_run.
  eexists _, _. split; [reflexivity | exact Hh].
Qed.

(** ** Safety of the inherited methods, for any subclass whose
    [end_headers] is safe and whose [log_message] accepts one argument or
    more *)

Section InheritedSafe.

Variable env : Env.
Variable self_end_headers : M unit.
Variable self_log_message : string -> list arg -> M unit.
Variable self_do : string -> option (M unit).

Hypothesis end_headers_safe : safe self_end_headers.
Hypothesis log_message_safe :
  forall format first rest, safe (self_log_message format (first :: rest)).
Hypothesis do_safe :
  forall command method, self_do command = Some method -> safe method.

Local Hint Resolve end_headers_safe log_message_safe : safe.

Lemma safe_log_request (code : Z) : safe (log_request self_log_message code).
Proof. unfold log_request. safe_auto. Qed.

Local Hint Resolve safe_log_request : safe.

Lemma safe_send_response (code : Z) (message : option string) :
  safe (send_response env self_log_message code message).
Proof. unfold send_response. safe_auto. Qed.

Local Hint Resolve safe_send_response : safe.

Lemma safe_send_error (code : Z) (message explain : option string) :
  safe (send_error env self_end_headers self_log_message code message
          explain).
Proof. unfold send_error, log_error. safe_auto. Qed.

Local Hint Resolve safe_send_error : safe.

Lemma safe_handle_expect_100 : safe (handle_expect_100 self_end_headers).
Proof. unfold handle_expect_100. safe_auto. Qed.

Local Hint Resolve safe_handle_expect_100 : safe.

Lemma safe_parse_request (req : Request) :
  safe (parse_request env self_end_headers self_log_message req).
Proof. unfold parse_request. safe_auto. Qed.

Lemma safe_list_directory (path : string) :
  safe (list_directory env self_end_headers self_log_message path).
Proof. unfold list_directory. safe_auto. Qed.

Lemma safe_send_file (path : string) :
  safe (send_file env self_end_headers self_log_message path).
Proof. unfold send_file. safe_auto. Qed.

Local Hint Resolve safe_list_directory safe_send_file : safe.

Lemma safe_send_head :
  safe (send_head env self_end_headers self_log_message).
Proof. unfold send_head. safe_auto. Qed.

Local Hint Resolve safe_send_head : safe.

Lemma safe_do_GET : safe (do_GET env self_end_headers self_log_message).
Proof. unfold do_GET. safe_auto. Qed.

Lemma safe_do_HEAD : safe (do_HEAD env self_end_headers self_log_message).
Proof. unfold do_HEAD. safe_auto. Qed.

Lemma safe_handle_command :
  safe (handle_command env self_end_headers self_log_message self_do).
Proof.
  unfold handle_command.
  apply safe_bind; [apply safe_get | intros self].
  cbv zeta.
  destruct (self_do _) as [method|] eqn:Hdo.
  - exact (do_safe _ _ Hdo).
  - auto with safe.
Qed.

Local Hint Resolve safe_parse_request safe_handle_command : safe.

Lemma safe_handle_one_request (req : Request) :
  safe (handle_one_request env self_end_headers self_log_message self_do
          req).
Proof. unfold handle_one_request. safe_auto. Qed.

End InheritedSafe.

(** ** The subclass *)

Lemma safe_do_OPTIONS (env : Env) : safe (CORSHTTPRequestHandler.do_OPTIONS env).
Proof.
  unfold CORSHTTPRequestHandler.do_OPTIONS.
  apply safe_bind; [| intros _; apply safe_end_headers].
  apply safe_send_response. apply safe_log_message.
Qed.

Lemma safe_getattr_do (env : Env) (command : string) (method : M unit) :
  CORSHTTPRequestHandler.getattr_do env command = Some method -> safe method.
Proof.
  unfold CORSHTTPRequestHandler.getattr_do.
  destruct (command =? "GET").
  { intros [= <-]. apply safe_do_GET;
      [apply safe_end_headers | apply safe_log_message]. }
  destruct (command =? "HEAD").
  { intros [= <-]. apply safe_do_HEAD;
      [apply safe_end_headers | apply safe_log_message]. }
  destruct (command =? "OPTIONS").
  { intros [= <-]. apply safe_do_OPTIONS. }
  discriminate.
Qed.

Lemma safe_cors_handle_one_request (env : Env) (req : Request) :
  safe (CORSHTTPRequestHandler.handle_one_request env req).
Proof.
  unfold CORSHTTPRequestHandler.handle_one_request.
  apply safe_handle_one_request.
  - apply safe_end_headers.
  - apply safe_log_message.
  - apply safe_getattr_do.
Qed.


(** Normalising after a step, with the version test [E] decided. *)
Ltac settle E := repeat (progress (norm; try rewrite E)).

(** Closing a run lemma: the equation, then the fields one by one. *)
Ltac finish_run :=
  split; [reflexivity|]; norm;
  split; [reflexivity|];
  split; [reflexivity|];
  split; [repeat econstructor|].

(** What an error response logs and writes: two log lines, and, unless the
    request is an HTTP/0.9 one, a header block that starts with the status
    line and ends with the four headers; then the body, if any. *)
Lemma send_error_run (env : Env) (code : Z) (message explain : option string)
  (h : Handler) :
  exists (h' : Handler) (rest : list write),
    CORSHTTPRequestHandler.send_error env code message explain h
    = Py.Ok (tt, h')
    /\ request_version h' = request_version h
    /\ stdout h' =
       (stdout h ++ log_line (fst (client_address h)) (Py.str code))
       ++ log_line (fst (client_address h)) (requestline h)
    /\ Forall (fun w => exists data, w = Body data) rest
    /\ if request_version h =? "HTTP/0.9"
       then wfile h' = (wfile h ++ rest)%list
       else exists (reason : string) (lines : list string),
              wfile h' =
              (wfile h ++
               Head (String.concat ""
                       (pending h ++ status_line code reason :: lines
                        ++ cors_lines ++ [CRLF])%list) :: rest)%list.
Proof.
  unfold CORSHTTPRequestHandler.send_error, send_error, log_error,
    http_server.bind.
  destruct (request_version h =? "HTTP/0.9") eqn:E.
  - rewrite log_message_run, send_response_run. cbv zeta. settle E.
    rewrite send_header_close_run. settle E.
    destruct ((200 <=? code)%Z && _).
    + repeat (rewrite send_header_run by reflexivity; settle E).
      unfold ret. rewrite end_headers_run. settle E.
      unfold get. settle E.
      match goal with
      | |- context [if ?b then wfile_write ?w else _] =>
          destruct b; [eexists _, [w] | eexists _, []]
      end; finish_run; rewrite ?app_nil_r; reflexivity.
    + unfold ret. rewrite end_headers_run. settle E.
      unfold get. eexists _, []. finish_run.
      rewrite ?app_nil_r; reflexivity.
  - rewrite log_message_run, send_response_run. cbv zeta. settle E.
    rewrite send_header_close_run. settle E.
    destruct ((200 <=? code)%Z && _).
    + repeat (rewrite send_header_run by reflexivity; settle E).
      unfold ret. rewrite end_headers_run. settle E.
      unfold get. settle E.
      match goal with
      | |- context [if ?b then wfile_write ?w else _] =>
          destruct b; [eexists _, [w] | eexists _, []]
      end; finish_run; eexists _, [_; _; _; _; _];
        repeat rewrite <- app_assoc; reflexivity.
    + unfold ret. rewrite end_headers_run. settle E.
      unfold get. eexists _, []. finish_run.
      eexists _, [_; _; _]. repeat rewrite <- app_assoc. reflexivity.
Qed.

(* ===================================================================== *)
(** * Every response with headers starts with a block that carries them *)
(* ===================================================================== *)

(** ** Composition *)

Lemma quiet_ret {A : Type} (a : A) : quiet (ret a).
Proof. intros h. exists a, h. repeat split. Qed.

Lemma quiet_get : quiet get.
Proof. intros h. exists h, h. repeat split. Qed.

Lemma quiet_modify (f : Handler -> Handler) :
  (forall h, request_version (f h) = request_version h) ->
  (forall h, wfile (f h) = wfile h) ->
  quiet (modify f).
Proof. intros Hv Hw h. exists tt, (f h). repeat split; auto. Qed.

Lemma quiet_bind {A B : Type} (m : M A) (k : A -> M B) :
  quiet m -> (forall a, quiet (k a)) -> quiet (http_server.bind m k).
Proof.
  intros Hm Hk h. unfold http_server.bind.
  destruct (Hm h) as (a & h1 & -> & Hv1 & Hw1).
  destruct (Hk a h1) as (b & h2 & -> & Hv2 & Hw2).
  exists b, h2. repeat split; congruence.
Qed.

Lemma trails_quiet {A : Type} (m : M A) : quiet m -> trails m.
Proof.
  intros Hm h. destruct (Hm h) as (a & h' & Hrun & Hv & Hw).
  exists a, h', []. rewrite app_nil_r. repeat split; auto.
Qed.

Lemma trails_write_body (data : string) : trails (wfile_write (Body data)).
Proof.
  intros h. eexists tt, _, [Body data]. repeat split.
  repeat constructor. now exists data.
Qed.

Lemma trails_bind {A B : Type} (m : M A) (k : A -> M B) :
  trails m -> (forall a, trails (k a)) -> trails (http_server.bind m k).
Proof.
  intros Hm Hk h. unfold http_server.bind.
  destruct (Hm h) as (a & h1 & rest1 & -> & Hv1 & Hw1 & Hb1).
  destruct (Hk a h1) as (b & h2 & rest2 & -> & Hv2 & Hw2 & Hb2).
  exists b, h2, (rest1 ++ rest2)%list.
  repeat split; [congruence | |].
  - now rewrite Hw2, Hw1, app_assoc.
  - apply Forall_app. now split.
Qed.

Lemma answered_trail (h h1 h2 : Handler) (rest : list write) :
  answered h h1 ->
  request_version h2 = request_version h1 ->
  wfile h2 = (wfile h1 ++ rest)%list ->
  Forall is_body rest ->
  answered h h2.
Proof.
  intros Ha Hv Hw Hrest E. rewrite Hv in E.
  destruct (Ha E) as (block & rest1 & Hw1 & Hc & Hb).
  exists block, (rest1 ++ rest)%list. rewrite Hw, Hw1.
  repeat split; [now rewrite <- app_assoc | exact Hc|].
  apply Forall_app. now split.
Qed.

Lemma answered_after (h h1 h2 : Handler) :
  wfile h1 = wfile h -> answered h1 h2 -> answered h h2.
Proof. intros Hw Ha E. rewrite <- Hw. exact (Ha E). Qed.

(** Quiet steps, then a response. *)
Lemma responds_after_quiet {A B : Type} (m : M A) (k : A -> M B) :
  quiet m -> (forall a, responds (k a)) -> responds (http_server.bind m k).
Proof.
  intros Hm Hk h. unfold http_server.bind.
  destruct (Hm h) as (a & h1 & -> & Hv1 & Hw1).
  destruct (Hk a h1) as (b & h2 & -> & Hv2 & Ha).
  exists b, h2. repeat split; [congruence|].
  now apply (answered_after h h1 h2).
Qed.

(** A response, then body data at most. *)
Lemma responds_then_trails {A B : Type} (m : M A) (k : A -> M B) :
  responds m -> (forall a, trails (k a)) -> responds (http_server.bind m k).
Proof.
  intros Hm Hk h. unfold http_server.bind.
  destruct (Hm h) as (a & h1 & -> & Hv1 & Ha).
  destruct (Hk a h1) as (b & h2 & rest & -> & Hv2 & Hw & Hrest).
  exists b, h2. repeat split; [congruence|].
  now apply (answered_trail h h1 h2 rest).
Qed.

Create HintDb quiet.

#[local] Hint Resolve quiet_ret quiet_get : quiet.

Ltac quiet_step :=
  match goal with
  | |- quiet (http_server.bind _ _) => apply quiet_bind; [| intros ?]
  | |- quiet (modify _) => apply quiet_modify; intros ?; reflexivity
  | |- quiet (if ?b then _ else _) => destruct b
  | |- quiet (match ?x with _ => _ end) => destruct x
  | |- quiet _ => solve [auto with quiet]
  end.

Ltac quiet_auto := cbv zeta; repeat quiet_step.

Ltac trails_auto :=
  cbv zeta;
  repeat match goal with
         | |- trails (http_server.bind _ _) => apply trails_bind; [| intros ?]
         | |- trails (if ?b then _ else _) => destruct b
         | |- trails (match ?x with _ => _ end) => destruct x
         | |- trails (wfile_write (Body _)) => apply trails_write_body
         | |- trails _ => apply trails_quiet; solve [quiet_auto]
         end.

(** A sequence that sends one response: quiet steps first, the response,
    then body data at most. *)
Ltac responds_step :=
  match goal with
  | |- responds (if ?b then _ else _) => destruct b
  | |- responds (match ?x with _ => _ end) => destruct x
  | |- responds (http_server.bind _ _) =>
      first [ apply responds_after_quiet; [solve [quiet_auto] | intros ?]
            | apply responds_then_trails;
              [solve [auto with responds] | intros ?; solve [trails_auto]] ]
  | |- responds _ => solve [auto with responds]
  end.

Ltac responds_auto := cbv zeta; repeat responds_step.

Lemma quiet_buffer_append (line : string) : quiet (buffer_append line).
Proof. unfold buffer_append. quiet_auto. Qed.

#[local] Hint Resolve quiet_buffer_append : quiet.

Lemma quiet_send_response_only (code : Z) (message : option string) :
  quiet (send_response_only code message).
Proof. unfold send_response_only. quiet_auto. Qed.

Lemma quiet_send_header (keyword value : string) :
  quiet (send_header keyword value).
Proof. unfold send_header. quiet_auto. Qed.

#[local] Hint Resolve quiet_send_response_only quiet_send_header : quiet.

Lemma quiet_log_message (format : string) (first : arg) (rest : list arg) :
  quiet (CORSHTTPRequestHandler.log_message format (first :: rest)).
Proof.
  intros h. rewrite log_message_run. eexists _, _. repeat split.
Qed.

Lemma responds_end_headers : responds CORSHTTPRequestHandler.end_headers.
Proof.
  intros h. rewrite end_headers_run. eexists _, _.
  split; [reflexivity|].
  destruct (request_version h =? "HTTP/0.9") eqn:E.
  - split; [reflexivity|]. intros E'. congruence.
  - split; [reflexivity|]. intros _. norm.
    eexists _, []. repeat split; [apply carries_cors_flush | constructor].
Qed.

Create HintDb responds.

(** ** The inherited methods, for any subclass whose [end_headers] sends
    the header block and whose [log_message] is quiet *)

Section InheritedResponds.

Variable env : Env.
Variable self_end_headers : M unit.
Variable self_log_message : string -> list arg -> M unit.
Variable self_do : string -> option (M unit).

Hypothesis end_headers_responds : responds self_end_headers.
Hypothesis log_message_quiet :
  forall format first rest, quiet (self_log_message format (first :: rest)).
Hypothesis do_responds :
  forall command method, self_do command = Some method -> responds method.

Local Hint Resolve log_message_quiet : quiet.
Local Hint Resolve end_headers_responds : responds.

Lemma quiet_log_request (code : Z) : quiet (log_request self_log_message code).
Proof. unfold log_request. quiet_auto. Qed.

Local Hint Resolve quiet_log_request : quiet.

Lemma quiet_send_response (code : Z) (message : option string) :
  quiet (send_response env self_log_message code message).
Proof. unfold send_response. quiet_auto. Qed.

Local Hint Resolve quiet_send_response : quiet.

Lemma responds_send_error (code : Z) (message explain : option string) :
  responds (send_error env self_end_headers self_log_message code message
              explain).
Proof. unfold send_error, log_error. responds_auto. Qed.

Local Hint Resolve responds_send_error : responds.

Lemma responds_list_directory (path : string) :
  responds (list_directory env self_end_headers self_log_message path).
Proof. unfold list_directory. responds_auto. Qed.

Lemma responds_send_file (path : string) :
  responds (send_file env self_end_headers self_log_message path).
Proof. unfold send_file. responds_auto. Qed.

Local Hint Resolve responds_list_directory responds_send_file : responds.

Lemma responds_send_head :
  responds (send_head env self_end_headers self_log_message).
Proof. unfold send_head. responds_auto. Qed.

Local Hint Resolve responds_send_head : responds.

Lemma responds_do_GET :
  responds (do_GET env self_end_headers self_log_message).
Proof. unfold do_GET. responds_auto. Qed.

Lemma responds_do_HEAD :
  responds (do_HEAD env self_end_headers self_log_message).
Proof. unfold do_HEAD. responds_auto. Qed.

Lemma responds_handle_command :
  responds (handle_command env self_end_headers self_log_message self_do).
Proof.
  unfold handle_command.
  apply responds_after_quiet; [apply quiet_get | intros self].
  cbv zeta. destruct (self_do _) as [method|] eqn:Hdo.
  - exact (do_responds _ _ Hdo).
  - auto with responds.
Qed.

(** *** [parse_request] *)

Lemma parses_ret_true : parses (ret true).
Proof. intros h. exists true, h. split; reflexivity. Qed.

Lemma parses_modify (f : Handler -> Handler) (k : M bool) :
  (forall h, wfile (f h) = wfile h) ->
  parses k -> parses (http_server.bind (modify f) (fun _ => k)).
Proof.
  intros Hf Hk h. unfold http_server.bind, modify.
  destruct (Hk (f h)) as (b & h' & -> & Hb).
  exists b, h'. split; [reflexivity|].
  destruct b; [now rewrite Hb, Hf|].
  exact (answered_after h (f h) h' (Hf h) Hb).
Qed.

Lemma parses_after_quiet {A : Type} (m : M A) (k : A -> M bool) :
  quiet m -> (forall a, parses (k a)) -> parses (http_server.bind m k).
Proof.
  intros Hm Hk h. unfold http_server.bind.
  destruct (Hm h) as (a & h1 & -> & Hv1 & Hw1).
  destruct (Hk a h1) as (b & h2 & -> & Hb).
  exists b, h2. split; [reflexivity|].
  destruct b; [congruence|].
  exact (answered_after h h1 h2 Hw1 Hb).
Qed.

Lemma parses_error {A : Type} (m : M A) :
  responds m -> parses (http_server.bind m (fun _ => ret false)).
Proof.
  intros Hm h. unfold http_server.bind, ret.
  destruct (Hm h) as (a & h1 & -> & _ & Ha).
  exists false, h1. split; [reflexivity | exact Ha].
Qed.

Lemma parses_bind (m : M bool) (k : bool -> M bool) :
  parses m -> parses (k true) ->
  (forall h, k false h = Py.Ok (false, h)) ->
  parses (http_server.bind m k).
Proof.
  intros Hm Hk Hfalse h. unfold http_server.bind.
  destruct (Hm h) as ([|] & h1 & -> & Hb).
  - destruct (Hk h1) as (b & h2 & -> & Hb2).
    exists b, h2. split; [reflexivity|].
    destruct b; [congruence|].
    exact (answered_after h h1 h2 Hb Hb2).
  - rewrite Hfalse. exists false, h1. split; [reflexivity | exact Hb].
Qed.

Ltac parses_step :=
  match goal with
  | |- parses (ret true) => apply parses_ret_true
  | |- parses (http_server.bind (modify _) _) =>
      apply parses_modify; [intros ?; reflexivity|]
  | |- parses (http_server.bind _ (fun _ => ret false)) =>
      apply parses_error; solve [auto with responds]
  | |- parses (http_server.bind _ (fun b => if negb b then _ else _)) =>
      apply parses_bind; [| cbn [negb] | intros ?; reflexivity]
  | |- parses (http_server.bind _ _) =>
      apply parses_after_quiet; [solve [quiet_auto] | intros ?]
  | |- parses (if (?b && false) && _ then _ else _) =>
      destruct b; cbn [andb]
  | |- parses (if ?b then _ else _) => destruct b
  | |- parses (match ?x with _ => _ end) => destruct x
  end.

Ltac parses_auto := cbv zeta; repeat parses_step.

(** [parse_request] returns [true] having written nothing, or [false]
    having answered with an error response, or [false] having written
    nothing while the request version is HTTP/0.9 (a blank request
    line). *)
Lemma parse_request_answers (req : Request) (h : Handler) :
  exists (b : bool) (h' : Handler),
    parse_request env self_end_headers self_log_message req h
    = Py.Ok (b, h')
    /\ if b then wfile h' = wfile h
       else answered h h'
            \/ (wfile h' = wfile h
                /\ (request_version h' =? "HTTP/0.9") = true).
Proof.
  unfold parse_request. cbv zeta.
  change (str_ge protocol_version "HTTP/1.1") with false.
  destruct (Py.split _) as [|w1 [|w2 ws]] eqn:W.
  - (* a blank line: nothing is sent *)
    eexists false, _. split; [reflexivity|]. right. split; reflexivity.
  - (* one word *)
    cbn [length Nat.eqb Nat.leb andb negb last].
    match goal with
    | |- context [?m h] =>
        assert (Hp : parses m) by parses_auto;
        destruct (Hp h) as (b & h' & Hrun & Hb)
    end.
    exists b, h'. split; [exact Hrun|]. destruct b; [exact Hb | now left].
  - (* two words or more *)
    cbn [length Nat.eqb Nat.leb andb negb].
    match goal with
    | |- context [?m h] =>
        assert (Hp : parses m) by parses_auto;
        destruct (Hp h) as (b & h' & Hrun & Hb)
    end.
    exists b, h'. split; [exact Hrun|]. destruct b; [exact Hb | now left].
Qed.

(** Handling one request answers with a response that starts with the
    header block, or writes nothing at all while the request version is
    HTTP/0.9 or as it was. *)
Lemma handle_one_request_answers (req : Request) (h : Handler) :
  exists h' : Handler,
    handle_one_request env self_end_headers self_log_message self_do req h
    = Py.Ok (tt, h')
    /\ (answered h h'
        \/ (wfile h' = wfile h
            /\ ((request_version h' =? "HTTP/0.9") = true
                \/ request_version h' = request_version h))).
Proof.
  unfold handle_one_request.
  destruct (_ <? _)%Z.
  - (* the request line is too long *)
    assert (Hp : parses
              (modify (set_requestline "") ;;
               modify (set_request_version "") ;;
               modify (set_command (Some "")) ;;
               send_error env self_end_headers self_log_message 414 None
                 None ;;
               ret false)%handler) by parses_auto.
    destruct (Hp h) as (b & h' & Hrun & Hb).
    revert Hrun. unfold http_server.bind, modify, ret.
    destruct (send_error _ _ _ _ _ _ _) as [[[] h1]|e]; [|discriminate].
    intros [= <- <-]. exists h1. split; [reflexivity | now left].
  - destruct (raw_requestline req =? "").
    + eexists. split; [reflexivity|]. right. split; [reflexivity|].
      right. reflexivity.
    + unfold http_server.bind.
      destruct (parse_request_answers req h) as (b & h1 & -> & Hb).
      destruct b; cbn [negb].
      * destruct (responds_handle_command h1) as ([] & h2 & -> & _ & Ha).
        exists h2. split; [reflexivity|]. left.
        exact (answered_after h h1 h2 Hb Ha).
      * exists h1. split; [reflexivity|].
        destruct Hb as [Ha | [Hw Hv]]; [now left|].
        right. split; [exact Hw | now left].
Qed.

End InheritedResponds.

(** ** The subclass *)

Lemma responds_do_OPTIONS (env : Env) :
  responds (CORSHTTPRequestHandler.do_OPTIONS env).
Proof.
  unfold CORSHTTPRequestHandler.do_OPTIONS.
  apply responds_after_quiet; [| intros _; apply responds_end_headers].
  apply quiet_send_response. apply quiet_log_message.
Qed.

Lemma responds_getattr_do (env : Env) (command : string) (method : M unit) :
  CORSHTTPRequestHandler.getattr_do env command = Some method ->
  responds method.
Proof.
  unfold CORSHTTPRequestHandler.getattr_do.
  destruct (command =? "GET").
  { intros [= <-]. apply responds_do_GET;
      [apply responds_end_headers | apply quiet_log_message]. }
  destruct (command =? "HEAD").
  { intros [= <-]. apply responds_do_HEAD;
      [apply responds_end_headers | apply quiet_log_message]. }
  destruct (command =? "OPTIONS").
  { intros [= <-]. apply responds_do_OPTIONS. }
  discriminate.
Qed.

(** A request handled by a new handler: if in the end the request version
    is not HTTP/0.9, the response starts with a header block that carries
    the four headers, and body data follows at most. *)
Lemma cors_handle_one_request_answers (env : Env) (req : Request)
  (DIRECTORY : string) (client : string * Z) (getcwd out : string) :
  exists h' : Handler,
    CORSHTTPRequestHandler.handle_one_request env req
      (CORSHTTPRequestHandler.__init__ DIRECTORY client getcwd out)
    = Py.Ok (tt, h')
    /\ ((request_version h' =? "HTTP/0.9") = false ->
        exists (block : string) (rest : list write),
          wfile h' = Head block :: rest
          /\ carries_cors block
          /\ Forall is_body rest).
Proof.
  unfold CORSHTTPRequestHandler.handle_one_request.
  destruct (handle_one_request_answers env
              CORSHTTPRequestHandler.end_headers
              CORSHTTPRequestHandler.log_message
              (CORSHTTPRequestHandler.getattr_do env)
              responds_end_headers quiet_log_message
              (responds_getattr_do env) req
              (CORSHTTPRequestHandler.__init__ DIRECTORY client getcwd out))
    as (h' & Hrun & Hans).
  exists h'. split; [exact Hrun|]. intros E.
  destruct Hans as [Ha | [_ [Hv | Hv]]].
  - exact (Ha E).
  - congruence.
  - rewrite Hv in E. discriminate.
Qed.

(* ===================================================================== *)
(** * Paths: the serving root and what is resolved against it *)
(* ===================================================================== *)

(** ** Splitting and suffixes *)

Lemma split_on_nonempty (sep : ascii) (s : string) : Py.split_on sep s <> [].
Proof.
  destruct s as [|c r]; simpl; [discriminate|].
  destruct (Ascii.eqb c sep); [discriminate|].
  destruct (Py.split_on sep r); discriminate.
Qed.

(** The components of [a + sep + b] are those of [a], then those of [b]. *)
Lemma split_on_app_sep (sep : ascii) (a b : string) :
  Py.split_on sep (a ++ String sep b)
  = (Py.split_on sep a ++ Py.split_on sep b)%list.
Proof.
  induction a as [|c a IH]; simpl.
  - now rewrite Ascii.eqb_refl.
  - destruct (Ascii.eqb c sep); [now rewrite IH|].
    rewrite IH.
    destruct (Py.split_on sep a) as [|w ws] eqn:Ha; [|reflexivity].
    now contradiction (split_on_nonempty sep a).
Qed.

Lemma split_on_no_slash (w : string) :
  has_slash w = false -> Py.split_on "/" w = [w].
Proof.
  induction w as [|c w IH]; simpl; [reflexivity|].
  unfold posixpath.is_sep. intros H.
  apply orb_false_iff in H as [Hc Hw].
  rewrite Hc, (IH Hw). reflexivity.
Qed.

Lemma eqb_cons_single (c d : ascii) (s : string) :
  s <> "" -> (String c s =? String d "") = false.
Proof.
  intros Hs. simpl. destruct (Ascii.eqb c d); [|reflexivity].
  destruct s; [now contradiction Hs | reflexivity].
Qed.

Lemma endswith_slash_app (a b : string) :
  b <> "" -> Py.endswith (a ++ b) "/" = Py.endswith b "/".
Proof.
  intros Hb. induction a as [|c a IH]; [reflexivity|].
  change (Py.endswith (String c a ++ b) "/")
    with ((String c (a ++ b) =? "/") || Py.endswith (a ++ b) "/").
  rewrite eqb_cons_single, IH; [reflexivity|].
  destruct a; simpl; [exact Hb | discriminate].
Qed.

Lemma endswith_slash_inv (s : string) :
  Py.endswith s "/" = true -> exists s0, s = s0 ++ "/".
Proof.
  induction s as [|c s IH]; [discriminate|].
  change (Py.endswith (String c s) "/")
    with ((String c s =? "/") || Py.endswith s "/").
  intros H. apply orb_true_iff in H as [H|H].
  - apply String.eqb_eq in H. exists "". exact H.
  - destruct (IH H) as [s0 ->]. exists (String c s0). reflexivity.
Qed.

Lemma startswith_slash_iff (s : string) :
  Py.startswith s "/" = true <-> exists r, s = String "/" r.
Proof.
  unfold Py.startswith. destruct s as [|c r]; cbn [prefix].
  - split; [discriminate | intros [r H]; discriminate].
  - destruct (ascii_dec "/" c) as [<-|Hc].
    + split; [intros _; now exists r | destruct r; reflexivity].
    + split; [discriminate | intros [r' [= -> _]]; now contradiction Hc].
Qed.

Lemma startswith_slash_app (a b : string) :
  Py.startswith a "/" = true -> Py.startswith (a ++ b) "/" = true.
Proof.
  intros H. apply startswith_slash_iff in H as [r ->].
  apply startswith_slash_iff. now exists (r ++ b).
Qed.

Lemma no_slash_not_absolute (w : string) :
  has_slash w = false -> Py.startswith w "/" = false.
Proof.
  intros H. destruct (Py.startswith w "/") eqn:E; [|reflexivity].
  apply startswith_slash_iff in E as [r ->]. discriminate.
Qed.

Lemma rstrip_by_empty (p : ascii -> bool) (s : string) :
  Py.rstrip_by p s = "" -> forallb p (list_ascii_of_string s) = true.
Proof.
  induction s as [|c s IH]; simpl; [reflexivity|].
  destruct (Py.rstrip_by p s =? "") eqn:E; simpl.
  - destruct (p c); [|discriminate].
    intros _. apply String.eqb_eq in E. now rewrite (IH E).
  - discriminate.
Qed.

Lemma head_of_empty (w : string) :
  posixpath.head_of w = "" -> has_slash w = false.
Proof.
  induction w as [|c w IH]; simpl; [reflexivity|].
  destruct (posixpath.head_of w =? "") eqn:E; simpl.
  - destruct (posixpath.is_sep c); [discriminate|].
    intros _. apply String.eqb_eq in E. exact (IH E).
  - discriminate.
Qed.

(** [translate_path]'s test [os.path.dirname(word)] is false exactly on
    words without a slash. *)
Lemma dirname_empty (w : string) :
  posixpath.dirname w = "" -> has_slash w = false.
Proof.
  unfold posixpath.dirname. intros H. apply head_of_empty.
  destruct (posixpath.head_of w =? "") eqn:E.
  - now apply String.eqb_eq in E.
  - simpl in H. destruct (posixpath.all_sep _) eqn:A; simpl in H.
    + exact H.
    + apply rstrip_by_empty in H. unfold posixpath.all_sep in A. congruence.
Qed.

(** ** Containment *)

Lemma inside_root (root : string) : inside root root.
Proof.
  exists "". rewrite append_nil_r.
  repeat split; [now left | repeat constructor; discriminate].
Qed.

(** Appending a separator and a name without [..] stays inside. *)
Lemma inside_child (root p w : string) :
  inside root p -> has_slash w = false -> w <> ".." ->
  inside root (p ++ "/" ++ w).
Proof.
  intros (rel & -> & Hb & Hc) Hw Hdd.
  exists (rel ++ "/" ++ w). split; [now rewrite append_assoc|]. split.
  - destruct Hb as [-> | [Hb | Hb]].
    + right; left. apply startswith_slash_iff. now exists w.
    + right; left. now apply startswith_slash_app.
    + right; right. exact Hb.
  - change (rel ++ "/" ++ w) with (rel ++ String "/" w).
    rewrite split_on_app_sep, (split_on_no_slash w Hw).
    apply Forall_app. split; [exact Hc | repeat constructor; exact Hdd].
Qed.

(** [posixpath.join] with a plain name stays inside. *)
Lemma inside_join (root p w : string) :
  root <> "" -> inside root p -> plain_name w ->
  inside root (posixpath.join p w).
Proof.
  intros Hroot Hin (Hne & Hw & Hdd).
  unfold posixpath.join. rewrite (no_slash_not_absolute w Hw).
  destruct Hin as (rel & -> & Hb & Hc).
  assert (Hp : (root ++ rel =? "") = false).
  { apply String.eqb_neq. destruct root; [now contradiction Hroot|].
    discriminate. }
  rewrite Hp. simpl orb.
  destruct (Py.endswith (root ++ rel) "/") eqn:E.
  - (* the path already ends with a slash *)
    destruct rel as [|c rel'] eqn:Hrel.
    + rewrite append_nil_r in *. exists w. repeat split.
      * right; right. exact E.
      * rewrite (split_on_no_slash w Hw). repeat constructor. exact Hdd.
    + rewrite <- Hrel in *.
      assert (Hrne : rel <> "") by (rewrite Hrel; discriminate).
      rewrite (endswith_slash_app root rel Hrne) in E.
      destruct (endswith_slash_inv rel E) as [r0 Hr0].
      exists (rel ++ w). split; [now rewrite append_assoc|]. split.
      * destruct Hb as [Hb | [Hb | Hb]].
        -- now contradiction Hrne.
        -- right; left. now apply startswith_slash_app.
        -- right; right. exact Hb.
      * rewrite Hr0 in Hc |- *. rewrite append_assoc.
        change ("/" ++ w) with (String "/" w).
        change (r0 ++ "/") with (r0 ++ String "/" "") in Hc.
        rewrite split_on_app_sep in Hc |- *.
        rewrite (split_on_no_slash w Hw).
        apply Forall_app in Hc as [Hc _].
        apply Forall_app. split; [exact Hc | repeat constructor; exact Hdd].
  - apply (inside_child root (root ++ rel) w); [|exact Hw | exact Hdd].
    exists rel. repeat split; assumption.
Qed.

(** Appending the trailing slash stays inside. *)
Lemma inside_trailing_slash (root p : string) :
  inside root p -> inside root (p ++ "/").
Proof.
  intros Hin.
  apply (inside_child root p "" Hin); [reflexivity | discriminate].
Qed.

Lemma plain_index (name : string) :
  name = "index.html" \/ name = "index.htm" -> plain_name name.
Proof. intros [-> | ->]; repeat split; discriminate. Qed.

(** One turn of the loop of [translate_path] stays inside. *)
Lemma inside_translate_step (root p w : string) :
  root <> "" -> w <> "" -> inside root p ->
  inside root (translate_step p w).
Proof.
  intros Hroot Hne Hin. unfold translate_step.
  destruct (posixpath.dirname w =? "") eqn:D; simpl; [|exact Hin].
  destruct (w =? ".") eqn:D1; simpl; [exact Hin|].
  destruct (w =? "..") eqn:D2; simpl; [exact Hin|].
  apply inside_join; [exact Hroot | exact Hin|].
  repeat split.
  - exact Hne.
  - apply dirname_empty. now apply String.eqb_eq.
  - now apply String.eqb_neq.
Qed.

Lemma inside_translate_fold (root : string) (words : list string) :
  root <> "" -> Forall (fun w => w <> "") words ->
  forall p, inside root p -> inside root (fold_left translate_step words p).
Proof.
  intros Hroot Hwords. induction Hwords as [|w ws Hw _ IH]; intros p Hin.
  - exact Hin.
  - simpl. apply IH. now apply inside_translate_step.
Qed.

Lemma filter_nonempty (words : list string) :
  Forall (fun w => w <> "") (filter (fun w => negb (w =? "")) words).
Proof.
  apply Forall_forall. intros w Hw. apply filter_In in Hw as [_ Hw].
  apply negb_true_iff in Hw. now apply String.eqb_neq.
Qed.

(** Whatever the request path and whatever [unquote] returns, the
    translated path is inside [self.directory]. *)
Lemma translate_path_inside (env : Env) (self : Handler) (p : string) :
  directory self <> "" -> inside (directory self) (translate_path env self p).
Proof.
  intros Hroot. unfold translate_path. cbv zeta.
  match goal with
  | |- inside _ (if ?b then _ else _) => destruct b
  end.
  - apply inside_trailing_slash.
    apply inside_translate_fold;
      [exact Hroot | apply filter_nonempty | apply inside_root].
  - apply inside_translate_fold;
      [exact Hroot | apply filter_nonempty | apply inside_root].
Qed.

(** ** The serving root is absolute *)

Lemma normpath_absolute (p : string) :
  posixpath.isabs p = true -> posixpath.isabs (posixpath.normpath p) = true.
Proof.
  unfold posixpath.isabs. intros H.
  assert (Hne : (p =? "") = false).
  { apply startswith_slash_iff in H as [r ->]. reflexivity. }
  unfold posixpath.normpath. rewrite Hne, H. cbv zeta.
  apply startswith_slash_iff.
  destruct (Py.startswith p "//" && _); simpl; eexists; reflexivity.
Qed.

Lemma join_absolute (cwd file : string) :
  posixpath.isabs cwd = true ->
  posixpath.isabs (posixpath.join cwd file) = true.
Proof.
  unfold posixpath.isabs, posixpath.join. intros H.
  destruct (Py.startswith file "/") eqn:F; [exact F|].
  destruct ((cwd =? "") || Py.endswith cwd "/");
    now apply startswith_slash_app.
Qed.

Lemma abspath_absolute (cwd file : string) :
  posixpath.isabs cwd = true ->
  posixpath.isabs (posixpath.abspath cwd file) = true.
Proof.
  intros H. unfold posixpath.abspath. apply normpath_absolute.
  destruct (posixpath.isabs file) eqn:F; simpl; [exact F|].
  now apply join_absolute.
Qed.

Lemma dirname_absolute (p : string) :
  posixpath.isabs p = true -> posixpath.isabs (posixpath.dirname p) = true.
Proof.
  unfold posixpath.isabs. intros H.
  apply startswith_slash_iff in H as [r ->].
  apply startswith_slash_iff.
  unfold posixpath.dirname.
  assert (Hhead : posixpath.head_of (String "/" r)
                  = String "/" (posixpath.head_of r)).
  { simpl. now rewrite orb_true_r. }
  rewrite Hhead.
  destruct (posixpath.all_sep (String "/" (posixpath.head_of r))) eqn:A.
  - rewrite andb_false_r. eexists; reflexivity.
  - change (String "/" (posixpath.head_of r) =? "") with false.
    cbv [negb andb].
    change (Py.rstrip_by posixpath.is_sep (String "/" (posixpath.head_of r)))
      with (if (Py.rstrip_by posixpath.is_sep (posixpath.head_of r) =? "")
               && posixpath.is_sep "/"
            then ""
            else String "/"
                   (Py.rstrip_by posixpath.is_sep (posixpath.head_of r))).
    destruct (Py.rstrip_by posixpath.is_sep (posixpath.head_of r) =? "")
      eqn:E.
    + apply String.eqb_eq in E. apply rstrip_by_empty in E.
      unfold posixpath.all_sep in A. simpl in A. congruence.
    + eexists; reflexivity.
Qed.

(** [DIRECTORY] is an absolute path whenever the working directory at
    start-up is reported as one. *)
Lemma DIRECTORY_absolute (getcwd file : string) :
  posixpath.isabs getcwd = true ->
  posixpath.isabs (DIRECTORY getcwd file) = true.
Proof.
  intros H. unfold DIRECTORY.
  now apply dirname_absolute, abspath_absolute.
Qed.

Lemma absolute_nonempty (p : string) : posixpath.isabs p = true -> p <> "".
Proof. intros H ->. discriminate. Qed.

(** ** What [send_head] opens *)

Lemma returns_ret {A : Type} (P : A -> Prop) (a : A) : P a -> returns P (ret a).
Proof. intros H h a' h' [= <- _]. exact H. Qed.

Lemma returns_bind {A B : Type} (P : B -> Prop) (m : M A) (k : A -> M B) :
  (forall a, returns P (k a)) -> returns P (http_server.bind m k).
Proof.
  intros Hk h b h'. unfold http_server.bind.
  destruct (m h) as [[a h1]|e]; [|discriminate].
  apply Hk.
Qed.

Ltac returns_auto :=
  cbv zeta;
  repeat match goal with
         | |- returns _ (http_server.bind _ _) => apply returns_bind; intros ?
         | |- returns _ (if ?b then _ else _) => destruct b
         | |- returns _ (match ?x with _ => _ end) => destruct x
         | |- returns _ (ret _) => apply returns_ret
         end.

Section Served.

Variable env : Env.
Variable self_end_headers : M unit.
Variable self_log_message : string -> list arg -> M unit.

(** A file object that [send_file] returns was opened from the path it
    was given. *)
Lemma send_file_name (path : string) :
  returns (fun r => forall f, r = Some f -> name f = Some path)
          (send_file env self_end_headers self_log_message path).
Proof.
  unfold send_file. returns_auto; intros f' [= <-]; reflexivity.
Qed.

(** The listing that [list_directory] returns is not a file on disk. *)
Lemma list_directory_name (path : string) :
  returns (fun r => forall f, r = Some f -> name f = None)
          (list_directory env self_end_headers self_log_message path).
Proof.
  unfold list_directory. returns_auto; intros f' [= <-]; reflexivity.
Qed.

(** The file [send_head] opens is inside [self.directory]. *)
Lemma send_head_inside (self h' : Handler) (f : FileObject) (p : string) :
  directory self <> "" ->
  send_head env self_end_headers self_log_message self = Py.Ok (Some f, h') ->
  name f = Some p ->
  inside (directory self) p.
Proof.
  intros Hroot Hrun Hname. unfold send_head in Hrun.
  unfold http_server.bind at 1, get at 1 in Hrun. cbv zeta in Hrun.
  pose proof (translate_path_inside env self (path self) Hroot) as Hin.
  destruct (isdir env _).
  - destruct (negb _).
    + exfalso. revert Hrun. generalize self at 2.
      intros h Hrun.
      assert (Hnone : returns (fun r : option FileObject => r = None)
                (send_response env self_log_message 301 None ;;
                 send_header "Location"
                   (redirect_location env (path self)) ;;
                 send_header "Content-Length" "0" ;;
                 self_end_headers ;; ret None)%handler)
        by (returns_auto; reflexivity).
      specialize (Hnone _ _ _ Hrun). discriminate.
    + unfold find_index in Hrun.
      destruct (isfile env _).
      { pose proof (send_file_name _ _ _ _ Hrun f eq_refl) as Hf.
        rewrite Hname in Hf. injection Hf as ->.
        apply inside_join; [exact Hroot | exact Hin|].
        apply plain_index. now left. }
      destruct (isfile env _).
      { pose proof (send_file_name _ _ _ _ Hrun f eq_refl) as Hf.
        rewrite Hname in Hf. injection Hf as ->.
        apply inside_join; [exact Hroot | exact Hin|].
        apply plain_index. now right. }
      pose proof (list_directory_name _ _ _ _ Hrun f eq_refl) as Hf.
      congruence.
  - pose proof (send_file_name _ _ _ _ Hrun f eq_refl) as Hf.
    rewrite Hname in Hf. injection Hf as ->. exact Hin.
Qed.

End Served.

(* ===================================================================== *)
(** * The request handler: headers, preflight, logging, serving root *)
(* ===================================================================== *)

(** What a successful file response writes: one header block, status 200
    first and the four headers last. *)
Lemma send_file_run (env : Env) (path : string) (fd : FileData)
  (h : Handler) :
  Py.endswith path "/" = false ->
  open_rb env path = Some fd ->
  headers_contains (headers h) "If-Modified-Since" = false ->
  (request_version h =? "HTTP/0.9") = false ->
  exists (h' : Handler) (lines : list string),
    http_server.send_file env CORSHTTPRequestHandler.end_headers
      CORSHTTPRequestHandler.log_message path h
    = Py.Ok (Some {| name := Some path; data := content fd |}, h')
    /\ wfile h' =
       (wfile h ++
        [Head (String.concat ""
                 (pending h ++ status_line 200 "OK" :: lines
                  ++ cors_lines ++ [CRLF])%list)])%list.
Proof.
  intros Hslash Hopen Hims E.
  unfold send_file. rewrite Hslash, Hopen.
  unfold http_server.bind at 1, get at 1. rewrite Hims. cbn [andb].
  unfold http_server.bind.
  rewrite send_response_run. cbv zeta. settle E.
  repeat (rewrite send_header_run by reflexivity; settle E).
  rewrite end_headers_run. settle E.
  unfold ret. eexists _, [_; _; _; _; _]. split; [reflexivity|]. norm.
  repeat rewrite <- app_assoc. reflexivity.
Qed.

(** [do_OPTIONS] is what [OPTIONS] dispatches to. *)
Lemma handle_command_OPTIONS (env : Env) (h : Handler) :
  command h = Some "OPTIONS" ->
  CORSHTTPRequestHandler.handle_command env h
  = CORSHTTPRequestHandler.do_OPTIONS env h.
Proof.
  intros Hc.
  unfold CORSHTTPRequestHandler.handle_command, handle_command.
  unfold http_server.bind at 1, get at 1. rewrite Hc. reflexivity.
Qed.

(** The header block of a preflight response, as one string. *)
Lemma options_block (env : Env) (b : list string) :
  String.concat ""
    (b ++ [status_line 200 "OK";
           header_line "Server" (version_string env);
           header_line "Date" (date_time_string env)]
       ++ cors_lines ++ [CRLF])%list
  = String.concat "" b
    ++ status_line 200 "OK"
    ++ header_line "Server" (version_string env)
    ++ header_line "Date" (date_time_string env)
    ++ cors_headers ++ CRLF.
Proof.
  rewrite concat_empty_app. reflexivity.
Qed.




(** C2, as amended.  Once a request line with the command [OPTIONS] and a
    version other than HTTP/0.9 has been parsed, the response is status
    200 with the library's two headers and the four headers, and no body,
    whatever the path and whatever the filesystem holds; the same from
    end to end for a file that exists and for one that does not.  (For
    the version HTTP/0.9 nothing is written: see [C2_counterexample].) *)
Theorem C2_options_preflight :
  (forall (env : Env) (h : Handler),
      command h = Some "OPTIONS" ->
      (request_version h =? "HTTP/0.9") = false ->
      exists h' : Handler,
        CORSHTTPRequestHandler.handle_command env h = Py.Ok (tt, h')
        /\ wfile h' =
           (wfile h ++
            [Head (String.concat "" (pending h) ++ preflight_response env)])%list)
  /\ (forall target : string,
         target = "/index.html" \/ target = "/no/such/file" ->
         exists h' : Handler,
           CORSHTTPRequestHandler.handle_one_request sample_env
             (request_of_line ("OPTIONS " ++ target ++ " HTTP/1.1"))
             sample_handler
           = Py.Ok (tt, h')
           /\ wfile h' = [Head (preflight_response sample_env)]).
Proof.
  split.
  - intros env h Hc E.
    rewrite (handle_command_OPTIONS env h Hc), do_OPTIONS_run.
    cbv zeta. rewrite E. eexists. split; [reflexivity|]. norm.
    now rewrite options_block.
  - intros target [-> | ->]; eexists; (split; [vm_compute; reflexivity|]);
      reflexivity.
Qed.

Lemma C2_witness :
  (exists h' : Handler,
      CORSHTTPRequestHandler.handle_command sample_env options_handler
      = Py.Ok (tt, h')
      /\ wfile h' =
         (wfile options_handler ++
          [Head (String.concat "" (pending options_handler)
                 ++ preflight_response sample_env)])%list)
  /\ (exists h' : Handler,
         CORSHTTPRequestHandler.handle_one_request sample_env
           (request_of_line ("OPTIONS " ++ "/no/such/file" ++ " HTTP/1.1"))
           sample_handler
         = Py.Ok (tt, h')
         /\ wfile h' = [Head (preflight_response sample_env)]).
Proof.
  destruct C2_options_preflight as [Hparsed Hwhole].
  split.
  - apply Hparsed; reflexivity.
  - apply Hwhole. now right.
Defined.

(** C2 as stated fails.  [OPTIONS /index.html HTTP/0.9] is parsed, its
    command is [OPTIONS] and [do_OPTIONS] runs, but for that version the
    library writes neither status line nor headers: the response is
    empty. *)
Lemma C2_counterexample :
  exists h' : Handler,
    CORSHTTPRequestHandler.handle_one_request sample_env
      (request_of_line "OPTIONS /index.html HTTP/0.9") sample_handler
    = Py.Ok (tt, h')
    /\ command h' = Some "OPTIONS"
    /\ wfile h' = []
    /\ wire (wfile h') = "".
Proof.
  eexists. split; [vm_compute; reflexivity|].
  repeat split; reflexivity.
Qed.




Lemma not_inside_other_tree : ~ inside "/srv/ui" "/etc/passwd".
Proof. intros (rel & H & _). discriminate. Qed.

Lemma not_inside_dotdot : ~ inside "/srv/ui" "/srv/ui/../../etc/passwd".
Proof.
  intros (rel & H & _ & Hc). injection H as <-.
  vm_compute in Hc.
  inversion Hc as [|? ? _ Hc1]; subst.
  inversion Hc1 as [|? ? Hdd _]; subst.
  now contradiction Hdd.
Qed.

(** C7.  For a handler whose serving root is not the empty string, every
    request path is translated to a path inside the root: the root
    followed by a relative part without [..]; and a file that [send_head]
    opens is inside the root as well.  [/../../etc/passwd] is translated
    to [etc/passwd] below the root.  The containment is lexical: it says
    nothing of symbolic links below the root. *)
Theorem C7_paths_stay_inside_root :
  (forall (env : Env) (self : Handler),
      (directory self =? "") = false ->
      (forall p : string,
          inside (directory self) (translate_path env self p))
      /\ (forall (h' : Handler) (f : FileObject) (p : string),
             CORSHTTPRequestHandler.send_head env self = Py.Ok (Some f, h') ->
             name f = Some p ->
             inside (directory self) p))
  /\ (forall (env : Env) (self : Handler),
         unquote env "/../../etc/passwd" = "/../../etc/passwd" ->
         translate_path env self "/../../etc/passwd"
         = posixpath.join (posixpath.join (directory self) "etc") "passwd")
  /\ ~ inside "/srv/ui" "/etc/passwd"
  /\ ~ inside "/srv/ui" "/srv/ui/../../etc/passwd".
Proof.
  split; [|split; [|split]].
  - intros env self Hroot. apply String.eqb_neq in Hroot. split.
    + intros p. now apply translate_path_inside.
    + intros h' f p Hrun Hname.
      exact (send_head_inside env _ _ self h' f p Hroot Hrun Hname).
  - intros env self Hunquote. unfold translate_path.
    change (fst (Py.split1 "#" (fst (Py.split1 "?" "/../../etc/passwd"))))
      with "/../../etc/passwd".
    cbv zeta. rewrite Hunquote.
    change (posixpath.normpath "/../../etc/passwd") with "/etc/passwd".
    reflexivity.
  - exact not_inside_other_tree.
  - exact not_inside_dotdot.
Qed.

Lemma C7_witness :
  inside "/srv/ui"
    (translate_path sample_env sample_handler "/../../etc/passwd")
  /\ translate_path sample_env sample_handler "/../../etc/passwd"
     = "/srv/ui/etc/passwd".
Proof.
  destruct C7_paths_stay_inside_root as [Hinside [Htraversal _]].
  split.
  - apply (Hinside sample_env sample_handler). reflexivity.
  - rewrite (Htraversal sample_env sample_handler eq_refl). reflexivity.
Defined.
(* ===================================================================== *)
(** * Further properties of [main] *)
(* ===================================================================== *)

(** Every run of [main] once the port is known. *)
Lemma main_outcome (argv : list string) (w : World) (port : Z) :
  port_of_argv argv = Py.Ok port ->
  main argv w =
  match tcp_server_init w port with
  | Some e => ([TCPServer "" port], inr (Raised e))
  | None =>
      match print_banner w with
      | Some e => ([TCPServer "" port; ServerClose], inr (Raised e))
      | None =>
          let serving :=
            [TCPServer "" port; Print (banner port); ServeForever] in
          match serve w with
          | Forever => (serving, inr Blocked)
          | Returns => ((serving ++ [ServerClose])%list, inl tt)
          | Raises Py.KeyboardInterrupt =>
              match print_stopped w with
              | None =>
                  ((serving ++ [Print stopped_message; ServerClose])%list,
                   inr (SystemExit 0%Z))
              | Some e => ((serving ++ [ServerClose])%list, inr (Raised e))
              end
          | Raises e => ((serving ++ [ServerClose])%list, inr (Raised e))
          end
      end
  end.
Proof.
  intros Hport. rewrite (main_with_port argv w port Hport).
  unfold with_server, TCPServer_init, serve_forever.
  destruct (tcp_server_init w port); [reflexivity|].
  destruct (print_banner w); [reflexivity|].
  destruct (serve w) as [| |e]; [reflexivity | reflexivity |].
  destruct e; try reflexivity.
  destruct (print_stopped w); reflexivity.
Qed.


(** X2.  The exit status of [main] once the port is known.  There is none
    exactly while [serve_forever] runs.  It is 0 exactly when start-up
    succeeded and either [serve_forever] returned or it was interrupted
    and the stop message printed.  It is the status of termination by
    SIGINT exactly when a [KeyboardInterrupt] arrived outside the [try]
    block: in the constructor, while the banner or the stop message was
    printed.  Every other run ends with status 1. *)
Theorem X2_main_exit_status (argv : list string) (w : World) (port : Z) :
  port_of_argv argv = Py.Ok port ->
  let started := tcp_server_init w port = None /\ print_banner w = None in
  (exit_status (main argv w) = None <-> started /\ serve w = Forever)
  /\ (exit_status (main argv w) = Some 0%Z
      <-> started
          /\ (serve w = Returns
              \/ (serve w = Raises Py.KeyboardInterrupt
                  /\ print_stopped w = None)))
  /\ (exit_status (main argv w) = Some 130%Z
      <-> tcp_server_init w port = Some Py.KeyboardInterrupt
          \/ (tcp_server_init w port = None
              /\ print_banner w = Some Py.KeyboardInterrupt)
          \/ (started
              /\ serve w = Raises Py.KeyboardInterrupt
              /\ print_stopped w = Some Py.KeyboardInterrupt))
  /\ (exit_status (main argv w) = None
      \/ exit_status (main argv w) = Some 0%Z
      \/ exit_status (main argv w) = Some 1%Z
      \/ exit_status (main argv w) = Some 130%Z).
Proof.
  intros Hport started. subst started.
  rewrite (main_outcome argv w port Hport). cbv zeta.
  destruct (tcp_server_init w port) as [e|].
  { destruct e; cbn [exit_status snd];
      (split; [|split; [|split]]);
      try (split; [discriminate|]);
      try (intros [[? ?] ?]; discriminate);
      try (intros [?|[[? ?]|[[? ?] ?]]]; discriminate);
      try (split; [intros _; left; reflexivity | reflexivity]);
      auto. }
  destruct (print_banner w) as [e|].
  { destruct e; cbn [exit_status snd];
      (split; [|split; [|split]]);
      try (split; [discriminate|]);
      try (intros [[? ?] ?]; discriminate);
      try (intros [?|[[? ?]|[[? ?] ?]]]; discriminate);
      try (split; [intros _; right; left; split; reflexivity | reflexivity]);
      auto. }
  destruct (serve w) as [| |e].
  - cbn [exit_status snd]. split; [|split; [|split]].
    + split; [intros _|]; repeat split; reflexivity.
    + split; [discriminate|]. intros [_ [?|[? _]]]; discriminate.
    + split; [discriminate|].
      intros [?|[[? ?]|[_ [? _]]]]; discriminate.
    + left. reflexivity.
  - cbn [exit_status snd]. split; [|split; [|split]].
    + split; [discriminate|]. intros [_ ?]. discriminate.
    + split; [intros _|]; repeat split; try reflexivity.
      left. reflexivity.
    + split; [discriminate|].
      intros [?|[[? ?]|[_ [? _]]]]; discriminate.
    + right. left. reflexivity.
  - assert (Hother : forall e' : Py.exception,
               e' <> Py.KeyboardInterrupt ->
               exit_status
                 (([TCPServer "" port; Print (banner port); ServeForever]
                   ++ [ServerClose])%list,
                  @inr unit termination (Raised e')) = Some 1%Z)
      by (intros e' He'; destruct e'; try reflexivity; now contradiction He').
    destruct e;
      try (rewrite Hother by discriminate;
           split; [|split; [|split]];
           [ split; [discriminate|]; intros [_ ?]; discriminate
           | split; [discriminate|]; intros [_ [?|[? _]]]; discriminate
           | split; [discriminate|];
             intros [?|[[? ?]|[_ [? _]]]]; discriminate
           | right; right; left; reflexivity ]).
    destruct (print_stopped w) as [e|].
    + destruct e; cbn [exit_status snd];
        (split; [|split; [|split]]);
        try (split; [discriminate|]);
        try (intros [_ ?]; discriminate);
        try (intros [_ [?|[_ ?]]]; discriminate);
        try (intros [?|[[? ?]|[_ [_ ?]]]]; discriminate);
        try (split; [intros _; right; right; repeat split; reflexivity
                    | reflexivity]);
        auto.
    + cbn [exit_status snd]. split; [|split; [|split]].
      * split; [discriminate|]. intros [_ ?]. discriminate.
      * split; [intros _|]; repeat split; try reflexivity.
        right. split; reflexivity.
      * split; [discriminate|].
        intros [?|[[? ?]|[_ [_ ?]]]]; discriminate.
      * right. left. reflexivity.
Qed.

Lemma X2_witness :
  exit_status (main ["server.py"; "9090"] sample_world) = Some 0%Z.
Proof.
  destruct (X2_main_exit_status ["server.py"; "9090"] sample_world 9090%Z
              eq_refl) as (_ & Hzero & _).
  apply Hzero. repeat split. right. split; reflexivity.
Defined.

(* ===================================================================== *)
(** * Whole responses *)
(* ===================================================================== *)

Local Open Scope handler_scope.

(** A header block ends with the four headers whatever the method put
    before them. *)
Lemma header_block_carries_cors (env : Env) (code : Z) (message : string)
  (fields : list (string * string)) (b : list string) :
  carries_cors (String.concat "" (b ++ header_block env code message fields)).
Proof.
  unfold header_block. rewrite !app_assoc. rewrite <- app_assoc.
  apply carries_cors_flush.
Qed.

(** An error response with an error page, in full. *)
Lemma send_error_exact (env : Env) (code : Z) (message explain : option string)
  (h : Handler) :
  (request_version h =? "HTTP/0.9") = false ->
  has_error_page code = true ->
  exists h' : Handler,
    CORSHTTPRequestHandler.send_error env code message explain h
    = Py.Ok (tt, h')
    /\ wfile h' =
       (wfile h ++
        Head (String.concat ""
                (pending h ++
                 header_block env code (error_reason code message)
                   (error_fields
                      (error_page env code (error_reason code message)
                         explain))))
        :: error_body h
             (error_page env code (error_reason code message) explain))%list
    /\ close_connection h' = true
    /\ pending h' = [].
Proof.
  intros E Hpage. unfold has_error_page in Hpage.
  unfold CORSHTTPRequestHandler.send_error, send_error, log_error,
    http_server.bind.
  rewrite log_message_run, send_response_run. cbv zeta. settle E.
  rewrite send_header_close_run. settle E.
  rewrite Hpage.
  repeat (rewrite send_header_run by reflexivity; settle E).
  unfold ret. rewrite end_headers_run. settle E.
  unfold get. unfold error_body, error_reason, command_is. settle E.
  match goal with
  | |- context [if ?b then wfile_write ?w else _] => destruct b
  end.
  - eexists. split; [reflexivity|]. norm.
    split; [|split; reflexivity].
    unfold header_block, error_fields, error_reason. cbn [map fst snd].
    repeat rewrite <- app_assoc. cbn [app]. reflexivity.
  - eexists. split; [reflexivity|]. norm.
    split; [|split; reflexivity].
    unfold header_block, error_fields, error_reason. cbn [map fst snd].
    repeat rewrite <- app_assoc. cbn [app]. reflexivity.
Qed.

(** What [GET], [HEAD] and any other method dispatch to. *)
Lemma handle_command_GET (env : Env) (h : Handler) :
  command h = Some "GET" ->
  CORSHTTPRequestHandler.handle_command env h
  = do_GET env CORSHTTPRequestHandler.end_headers
      CORSHTTPRequestHandler.log_message h.
Proof.
  intros Hc.
  unfold CORSHTTPRequestHandler.handle_command, handle_command,
    http_server.bind, get.
  rewrite Hc. reflexivity.
Qed.

Lemma handle_command_HEAD (env : Env) (h : Handler) :
  command h = Some "HEAD" ->
  CORSHTTPRequestHandler.handle_command env h
  = do_HEAD env CORSHTTPRequestHandler.end_headers
      CORSHTTPRequestHandler.log_message h.
Proof.
  intros Hc.
  unfold CORSHTTPRequestHandler.handle_command, handle_command,
    http_server.bind, get.
  rewrite Hc. reflexivity.
Qed.

Lemma handle_command_other (env : Env) (h : Handler) (method : string) :
  command h = Some method ->
  CORSHTTPRequestHandler.getattr_do env method = None ->
  CORSHTTPRequestHandler.handle_command env h
  = CORSHTTPRequestHandler.send_error env 501
      (Some ("Unsupported method (" ++ repr env method ++ ")")) None h.
Proof.
  intros Hc Hdo.
  unfold CORSHTTPRequestHandler.handle_command, handle_command,
    http_server.bind, get.
  rewrite Hc, Hdo. reflexivity.
Qed.

(** The class has a [do_] method for GET, HEAD and OPTIONS and for
    nothing else. *)
Lemma getattr_do_None (env : Env) (method : string) :
  CORSHTTPRequestHandler.getattr_do env method = None
  <-> method <> "GET" /\ method <> "HEAD" /\ method <> "OPTIONS".
Proof.
  unfold CORSHTTPRequestHandler.getattr_do.
  destruct (String.eqb_spec method "GET") as [->|HG].
  { split; [discriminate | intros [H _]; now contradiction H]. }
  destruct (String.eqb_spec method "HEAD") as [->|HH].
  { split; [discriminate | intros (_ & H & _); now contradiction H]. }
  destruct (String.eqb_spec method "OPTIONS") as [->|HO].
  { split; [discriminate | intros (_ & _ & H); now contradiction H]. }
  split; [intros _; repeat split; assumption | reflexivity].
Qed.

(** X3.  A request with a method other than GET, HEAD and OPTIONS, POST
    among them although the [Access-Control-Allow-Methods] header names
    it, is answered with status 501 and the error page; the header block
    still carries the four headers, and the connection is closed
    afterwards. *)
Theorem X3_unsupported_method_is_501 (env : Env) (h : Handler) (method : string) :
  command h = Some method ->
  method <> "GET" -> method <> "HEAD" -> method <> "OPTIONS" ->
  (request_version h =? "HTTP/0.9") = false ->
  let reason := "Unsupported method (" ++ repr env method ++ ")" in
  let page := error_page env 501 reason None in
  exists (h' : Handler) (block : string),
    CORSHTTPRequestHandler.handle_command env h = Py.Ok (tt, h')
    /\ block =
       String.concat ""
         (pending h ++ header_block env 501 reason (error_fields page))
    /\ wfile h' =
       (wfile h ++ Head block :: (if page =? "" then [] else [Body page]))%list
    /\ carries_cors block
    /\ close_connection h' = true.
Proof.
  intros Hc HG HH HO E reason page.
  assert (Hdo : CORSHTTPRequestHandler.getattr_do env method = None)
    by (apply getattr_do_None; repeat split; assumption).
  rewrite (handle_command_other env h method Hc Hdo).
  destruct (send_error_exact env 501 (Some reason) None h E eq_refl)
    as (h' & Hrun & Hw & Hclose & _).
  eexists h', _. split; [exact Hrun|]. split; [reflexivity|].
  split; [|split; [apply header_block_carries_cors | exact Hclose]].
  rewrite Hw. unfold error_body, command_is. rewrite Hc.
  destruct (String.eqb_spec method "HEAD") as [->|_];
    [now contradiction HH|].
  cbn [negb andb error_reason]. fold reason. fold page.
  destruct (page =? ""); reflexivity.
Qed.

Lemma X3_witness :
  exists (h' : Handler) (block : string),
    CORSHTTPRequestHandler.handle_command sample_env
      (parsed_handler "POST" "/api") = Py.Ok (tt, h')
    /\ block =
       String.concat ""
         (header_block sample_env 501 "Unsupported method ('POST')"
            (error_fields "<h1>501 Unsupported method ('POST')</h1>"))
    /\ wfile h' =
       [Head block; Body "<h1>501 Unsupported method ('POST')</h1>"]
    /\ carries_cors block
    /\ close_connection h' = true.
Proof.
  apply (X3_unsupported_method_is_501 sample_env (parsed_handler "POST" "/api")
           "POST"); try reflexivity; discriminate.
Defined.

(** [do_GET] and [do_HEAD] after [send_head]. *)
Lemma handle_command_send_head (env : Env) (h h1 : Handler) (method : string)
  (f : option FileObject) :
  command h = Some method ->
  method = "GET" \/ method = "HEAD" ->
  CORSHTTPRequestHandler.send_head env h = Py.Ok (f, h1) ->
  exists h' : Handler,
    CORSHTTPRequestHandler.handle_command env h = Py.Ok (tt, h')
    /\ wfile h' = (wfile h1 ++ copied method f)%list
    /\ close_connection h' = close_connection h1.
Proof.
  intros Hc [-> | ->] Hrun; unfold CORSHTTPRequestHandler.send_head in Hrun.
  - rewrite (handle_command_GET env h Hc).
    unfold do_GET, http_server.bind. rewrite Hrun.
    destruct f as [f|].
    + eexists. split; [reflexivity|]. norm. split; reflexivity.
    + eexists. split; [reflexivity|]. cbn [copied].
      rewrite app_nil_r. split; reflexivity.
  - rewrite (handle_command_HEAD env h Hc).
    unfold do_HEAD, http_server.bind. rewrite Hrun.
    eexists. split; [reflexivity|].
    destruct f; cbn [copied String.eqb Ascii.eqb Bool.eqb];
      rewrite app_nil_r; split; reflexivity.
Qed.

(** The file branch of [send_head], in full. *)
Lemma send_file_exact (env : Env) (path : string) (fd : FileData)
  (h : Handler) :
  Py.endswith path "/" = false ->
  open_rb env path = Some fd ->
  (request_version h =? "HTTP/0.9") = false ->
  exists h' : Handler,
    http_server.send_file env CORSHTTPRequestHandler.end_headers
      CORSHTTPRequestHandler.log_message path h
    = Py.Ok (if not_modified env h fd then None
             else Some {| name := Some path; data := content fd |}, h')
    /\ wfile h' =
       (wfile h ++
        [Head (String.concat ""
                 (pending h ++
                  if not_modified env h fd
                  then header_block env 304 "Not Modified" []
                  else header_block env 200 "OK"
                         (file_fields env path fd)))])%list
    /\ close_connection h' = close_connection h.
Proof.
  intros Hslash Hopen E.
  unfold send_file. rewrite Hslash, Hopen.
  unfold http_server.bind at 1, get at 1.
  fold (not_modified env h fd).
  destruct (not_modified env h fd).
  - unfold http_server.bind.
    rewrite send_response_run. cbv zeta. settle E.
    rewrite end_headers_run. settle E.
    unfold ret. eexists. split; [reflexivity|]. norm.
    split; [|reflexivity].
    unfold header_block. cbn [map].
    repeat rewrite <- app_assoc. cbn [app]. reflexivity.
  - unfold http_server.bind.
    rewrite send_response_run. cbv zeta. settle E.
    repeat (rewrite send_header_run by reflexivity; settle E).
    rewrite end_headers_run. settle E.
    unfold ret. eexists. split; [reflexivity|]. norm.
    split; [|reflexivity].
    unfold header_block, file_fields. cbn [map fst snd].
    repeat rewrite <- app_assoc. cbn [app]. reflexivity.
Qed.

(** The error branches of [send_file]. *)
Lemma send_file_missing (env : Env) (path : string) (h : Handler) :
  Py.endswith path "/" = true \/ open_rb env path = None ->
  http_server.send_file env CORSHTTPRequestHandler.end_headers
    CORSHTTPRequestHandler.log_message path h
  = (CORSHTTPRequestHandler.send_error env 404 (Some "File not found") None ;;
     ret None) h.
Proof.
  intros H. unfold send_file, CORSHTTPRequestHandler.send_error.
  destruct (Py.endswith path "/"); [reflexivity|].
  destruct H as [H|H]; [discriminate|]. rewrite H. reflexivity.
Qed.

(** [send_head] on a path that is not a directory, and on a directory
    whose URL ends with a slash. *)
Lemma send_head_file (env : Env) (h : Handler) :
  isdir env (translate_path env h (path h)) = false ->
  CORSHTTPRequestHandler.send_head env h
  = http_server.send_file env CORSHTTPRequestHandler.end_headers
      CORSHTTPRequestHandler.log_message (translate_path env h (path h)) h.
Proof.
  intros Hdir.
  unfold CORSHTTPRequestHandler.send_head, send_head.
  unfold http_server.bind at 1, get at 1. cbv zeta.
  rewrite Hdir. reflexivity.
Qed.

Lemma send_head_directory (env : Env) (h : Handler) :
  isdir env (translate_path env h (path h)) = true ->
  Py.endswith (urlsplit_path env (path h)) "/" = true ->
  CORSHTTPRequestHandler.send_head env h
  = match find_index env (translate_path env h (path h)) with
    | Some index =>
        http_server.send_file env CORSHTTPRequestHandler.end_headers
          CORSHTTPRequestHandler.log_message index h
    | None =>
        list_directory env CORSHTTPRequestHandler.end_headers
          CORSHTTPRequestHandler.log_message
          (translate_path env h (path h)) h
    end.
Proof.
  intros Hdir Hslash.
  unfold CORSHTTPRequestHandler.send_head, send_head.
  unfold http_server.bind at 1, get at 1. cbv zeta.
  rewrite Hdir, Hslash. cbn [negb].
  destruct (find_index env _); reflexivity.
Qed.









(** The index file of a directory is not a path that ends with a slash. *)
Lemma index_not_slash (p name : string) :
  name = "index.html" \/ name = "index.htm" ->
  Py.endswith (posixpath.join p name) "/" = false.
Proof.
  intros Hname. unfold posixpath.join.
  assert (Hrel : Py.startswith name "/" = false)
    by (destruct Hname as [-> | ->]; reflexivity).
  assert (Hne : name <> "")
    by (destruct Hname as [-> | ->]; discriminate).
  assert (Hend : Py.endswith name "/" = false)
    by (destruct Hname as [-> | ->]; reflexivity).
  rewrite Hrel. destruct ((p =? "") || Py.endswith p "/").
  - rewrite (endswith_slash_app p name Hne). exact Hend.
  - rewrite (endswith_slash_app p ("/" ++ name)) by discriminate.
    destruct Hname as [-> | ->]; reflexivity.
Qed.





(* ===================================================================== *)
(** * State invariants of a request *)
(* ===================================================================== *)

Lemma keeps_ret (I : Handler -> Prop) {A : Type} (a : A) : keeps I (ret a).
Proof. intros h Hh. exists a, h. split; [reflexivity | exact Hh]. Qed.

Lemma keeps_get (I : Handler -> Prop) : keeps I get.
Proof. intros h Hh. exists h, h. split; [reflexivity | exact Hh]. Qed.

Lemma keeps_bind (I : Handler -> Prop) {A B : Type} (m : M A) (k : A -> M B) :
  keeps I m -> (forall a, keeps I (k a)) -> keeps I (http_server.bind m k).
Proof.
  intros Hm Hk h Hh. unfold http_server.bind.
  destruct (Hm h Hh) as (a & h1 & -> & Hh1).
  exact (Hk a h1 Hh1).
Qed.

Lemma keeps_modify (I : Handler -> Prop) (f : Handler -> Handler) :
  (forall h, I h -> I (f h)) -> keeps I (modify f).
Proof.
  intros Hf h Hh. exists tt, (f h). split; [reflexivity | exact (Hf h Hh)].
Qed.

Create HintDb keeps.

(** One step through a method body; [side] shows that a state update
    respects the invariant.  A test of the protocol version, which is
    HTTP/1.0, is decided first. *)
Ltac keeps_step side :=
  match goal with
  | |- keeps _ (http_server.bind _ _) => apply keeps_bind; [| intros ?]
  | |- keeps _ (modify _) => apply keeps_modify; side
  | |- keeps _ (ret _) => apply keeps_ret
  | |- keeps _ get => apply keeps_get
  | |- keeps _ (if (?b && false) && _ then _ else _) =>
      destruct b; cbn [andb]
  | |- keeps _ (if ?b && false then _ else _) => destruct b; cbn [andb]
  | |- keeps _ (if ?b then _ else _) => destruct b
  | |- keeps _ (match ?x with _ => _ end) => destruct x
  | |- keeps _ _ => solve [auto with keeps]
  end.

(** ** The connection is closed after every request *)

Ltac closing_side :=
  let h := fresh "h" in
  let H := fresh "H" in
  intros h H; unfold closing in *; norm; first [exact H | reflexivity].

Ltac closing_auto := cbv zeta; repeat keeps_step closing_side.

Lemma closing_print (text : string) : keeps closing (http_server.print text).
Proof. unfold http_server.print. closing_auto. Qed.

Lemma closing_wfile_write (w : write) : keeps closing (wfile_write w).
Proof. unfold wfile_write. closing_auto. Qed.

Lemma closing_buffer_append (line : string) :
  keeps closing (buffer_append line).
Proof. unfold buffer_append. closing_auto. Qed.

#[local] Hint Resolve closing_print closing_wfile_write
  closing_buffer_append : keeps.

Lemma closing_send_response_only (code : Z) (message : option string) :
  keeps closing (send_response_only code message).
Proof. unfold send_response_only. closing_auto. Qed.

(** No header but [Connection] touches [close_connection], and
    [Connection: close] sets it. *)
Lemma closing_send_header (keyword value : string) :
  (Py.lower keyword =? "connection") = false ->
  keeps closing (send_header keyword value).
Proof. intros H. unfold send_header. rewrite H. closing_auto. Qed.

Lemma closing_send_header_close :
  keeps closing (send_header "Connection" "close").
Proof.
  unfold send_header.
  change (Py.lower "Connection" =? "connection") with true.
  change (Py.lower "close" =? "close") with true.
  closing_auto.
Qed.

Lemma closing_flush_headers : keeps closing flush_headers.
Proof. unfold flush_headers. closing_auto. Qed.

#[local] Hint Resolve closing_send_response_only closing_send_header_close
  closing_flush_headers : keeps.
#[local] Hint Extern 1 (keeps closing (send_header _ _)) =>
  apply closing_send_header; reflexivity : keeps.

Lemma closing_end_headers : keeps closing CORSHTTPRequestHandler.end_headers.
Proof.
  intros h Hh. rewrite end_headers_run. eexists _, _.
  split; [reflexivity|].
  destruct (request_version h =? "HTTP/0.9"); exact Hh.
Qed.

Lemma closing_log_message (format : string) (first : arg) (rest : list arg) :
  keeps closing (CORSHTTPRequestHandler.log_message format (first :: rest)).
Proof.
  intros h Hh. rewrite log_message_run. eexists _, _.
  split; [reflexivity | exact Hh].
Qed.

#[local] Hint Resolve closing_end_headers closing_log_message : keeps.

Lemma closing_send_response (env : Env) (code : Z) (message : option string) :
  keeps closing
    (send_response env CORSHTTPRequestHandler.log_message code message).
Proof. unfold send_response, log_request. closing_auto. Qed.

#[local] Hint Resolve closing_send_response : keeps.

Lemma closing_send_error (env : Env) (code : Z)
  (message explain : option string) :
  keeps closing
    (http_server.send_error env CORSHTTPRequestHandler.end_headers
       CORSHTTPRequestHandler.log_message code message explain).
Proof. unfold send_error, log_error. closing_auto. Qed.

#[local] Hint Resolve closing_send_error : keeps.

Lemma closing_parse_request (env : Env) (req : Request) :
  keeps closing
    (parse_request env CORSHTTPRequestHandler.end_headers
       CORSHTTPRequestHandler.log_message req).
Proof.
  unfold parse_request, handle_expect_100.
  change (str_ge protocol_version "HTTP/1.1") with false.
  closing_auto.
Qed.

Lemma closing_send_head (env : Env) :
  keeps closing
    (send_head env CORSHTTPRequestHandler.end_headers
       CORSHTTPRequestHandler.log_message).
Proof. unfold send_head, send_file, list_directory. closing_auto. Qed.

#[local] Hint Resolve closing_parse_request closing_send_head : keeps.

Lemma closing_getattr_do (env : Env) (command : string) (method : M unit) :
  CORSHTTPRequestHandler.getattr_do env command = Some method ->
  keeps closing method.
Proof.
  unfold CORSHTTPRequestHandler.getattr_do.
  destruct (command =? "GET").
  { intros [= <-]. unfold do_GET. closing_auto. }
  destruct (command =? "HEAD").
  { intros [= <-]. unfold do_HEAD. closing_auto. }
  destruct (command =? "OPTIONS").
  { intros [= <-]. unfold CORSHTTPRequestHandler.do_OPTIONS. closing_auto. }
  discriminate.
Qed.

Lemma closing_handle_command (env : Env) :
  keeps closing (CORSHTTPRequestHandler.handle_command env).
Proof.
  unfold CORSHTTPRequestHandler.handle_command, handle_command.
  apply keeps_bind; [apply keeps_get | intros self]. cbv zeta.
  destruct (CORSHTTPRequestHandler.getattr_do env _) as [method|] eqn:Hdo.
  - exact (closing_getattr_do env _ method Hdo).
  - auto with keeps.
Qed.

#[local] Hint Resolve closing_handle_command : keeps.

Lemma closing_handle_one_request (env : Env) (req : Request) :
  keeps closing (CORSHTTPRequestHandler.handle_one_request env req).
Proof.
  unfold CORSHTTPRequestHandler.handle_one_request, handle_one_request.
  fold (CORSHTTPRequestHandler.handle_command env).
  closing_auto.
Qed.

(** The loop of [handle] does nothing when the connection is to be
    closed. *)
Lemma handle_loop_closing (env : Env) (reads : list Request) (h : Handler) :
  close_connection h = true -> handle_loop env reads h = Py.Ok (tt, h).
Proof.
  intros Hh. destruct reads; cbn [handle_loop];
    unfold http_server.bind, get; rewrite Hh; reflexivity.
Qed.


(** ** A HEAD request gets no body *)

Ltac heads_side :=
  let h := fresh "h" in
  let H := fresh "H" in
  intros h H; unfold heads_only, command_is in *; norm; exact H.

Lemma heads_only_print (w0 : list write) (text : string) :
  keeps (heads_only w0) (http_server.print text).
Proof. unfold http_server.print. repeat keeps_step heads_side. Qed.

Lemma heads_only_buffer_append (w0 : list write) (line : string) :
  keeps (heads_only w0) (buffer_append line).
Proof. unfold buffer_append. repeat keeps_step heads_side. Qed.

Lemma heads_only_write_head (w0 : list write) (block : string) :
  keeps (heads_only w0) (wfile_write (Head block)).
Proof.
  intros h [Hc (ws & Hw & Hws)]. eexists tt, _. split; [reflexivity|].
  split; [exact Hc|]. exists (ws ++ [Head block])%list. norm.
  split; [rewrite Hw; symmetry; apply app_assoc|].
  apply Forall_app. split; [exact Hws|].
  constructor; [exists block; reflexivity | constructor].
Qed.

(** The last step of [send_error]: the page is not written when the
    command is HEAD. *)
Lemma heads_only_error_body (w0 : list write) (body : option string) :
  keeps (heads_only w0)
    (self <- get ;;
     match body with
     | Some body =>
         if negb (command_is self "HEAD") && negb (body =? "")
         then wfile_write (Body body)
         else ret tt
     | None => ret tt
     end).
Proof.
  intros h Hh. unfold http_server.bind, get.
  destruct body as [body|].
  - destruct Hh as [Hc Hw]. rewrite Hc. cbn [negb andb].
    exists tt, h. split; [reflexivity | split; assumption].
  - exists tt, h. split; [reflexivity | exact Hh].
Qed.

#[local] Hint Resolve heads_only_print heads_only_buffer_append
  heads_only_write_head : keeps.

Ltac heads_step :=
  match goal with
  | |- keeps _ (http_server.bind get
                  (fun self => match _ with Some _ => _ | None => ret tt end)) =>
      apply heads_only_error_body
  | |- _ => keeps_step heads_side
  end.

Ltac heads_auto := cbv zeta; repeat heads_step.

Lemma heads_only_send_response_only (w0 : list write) (code : Z)
  (message : option string) :
  keeps (heads_only w0) (send_response_only code message).
Proof. unfold send_response_only. heads_auto. Qed.

Lemma heads_only_send_header (w0 : list write) (keyword value : string) :
  keeps (heads_only w0) (send_header keyword value).
Proof. unfold send_header. heads_auto. Qed.

Lemma heads_only_end_headers (w0 : list write) :
  keeps (heads_only w0) CORSHTTPRequestHandler.end_headers.
Proof.
  intros h Hh. rewrite end_headers_run. eexists _, _.
  split; [reflexivity|].
  destruct (request_version h =? "HTTP/0.9"); [exact Hh|].
  destruct Hh as [Hc (ws & Hw & Hws)].
  split; [exact Hc|]. eexists (ws ++ [Head _])%list. norm.
  split; [rewrite Hw; symmetry; apply app_assoc|].
  apply Forall_app. split; [exact Hws|].
  constructor; [eexists; reflexivity | constructor].
Qed.

Lemma heads_only_log_message (w0 : list write) (format : string)
  (first : arg) (rest : list arg) :
  keeps (heads_only w0)
    (CORSHTTPRequestHandler.log_message format (first :: rest)).
Proof.
  intros h Hh. rewrite log_message_run. eexists _, _.
  split; [reflexivity | exact Hh].
Qed.

#[local] Hint Resolve heads_only_send_response_only heads_only_send_header
  heads_only_end_headers heads_only_log_message : keeps.

Lemma heads_only_send_response (w0 : list write) (env : Env) (code : Z)
  (message : option string) :
  keeps (heads_only w0)
    (send_response env CORSHTTPRequestHandler.log_message code message).
Proof. unfold send_response, log_request. heads_auto. Qed.

#[local] Hint Resolve heads_only_send_response : keeps.

Lemma heads_only_send_error (w0 : list write) (env : Env) (code : Z)
  (message explain : option string) :
  keeps (heads_only w0)
    (http_server.send_error env CORSHTTPRequestHandler.end_headers
       CORSHTTPRequestHandler.log_message code message explain).
Proof. unfold send_error, log_error. heads_auto. Qed.

#[local] Hint Resolve heads_only_send_error : keeps.

Lemma heads_only_do_HEAD (w0 : list write) (env : Env) :
  keeps (heads_only w0)
    (do_HEAD env CORSHTTPRequestHandler.end_headers
       CORSHTTPRequestHandler.log_message).
Proof.
  unfold do_HEAD, send_head, send_file, list_directory. heads_auto.
Qed.



(* ===================================================================== *)
(** * The access log of a request *)
(* ===================================================================== *)

Lemma hushed_ret {A : Type} (a : A) : hushed (ret a).
Proof. intros h. exists a, h. repeat split. Qed.

Lemma hushed_get : hushed get.
Proof. intros h. exists h, h. repeat split. Qed.

Lemma hushed_modify (f : Handler -> Handler) :
  (forall h, client_address (f h) = client_address h
             /\ requestline (f h) = requestline h
             /\ stdout (f h) = stdout h) ->
  hushed (modify f).
Proof.
  intros Hf h. exists tt, (f h). split; [reflexivity | apply Hf].
Qed.

Lemma hushed_bind {A B : Type} (m : M A) (k : A -> M B) :
  hushed m -> (forall a, hushed (k a)) -> hushed (http_server.bind m k).
Proof.
  intros Hm Hk h. unfold http_server.bind.
  destruct (Hm h) as (a & h1 & -> & Ha1 & Hr1 & Ho1).
  destruct (Hk a h1) as (b & h2 & -> & Ha2 & Hr2 & Ho2).
  exists b, h2. repeat split; congruence.
Qed.

Create HintDb hushed.

#[local] Hint Resolve hushed_ret hushed_get : hushed.

Ltac hushed_step :=
  match goal with
  | |- hushed (http_server.bind _ _) => apply hushed_bind; [| intros ?]
  | |- hushed (modify _) =>
      apply hushed_modify; intros ?; repeat split; reflexivity
  | |- hushed (if ?b then _ else _) => destruct b
  | |- hushed (match ?x with _ => _ end) => destruct x
  | |- hushed _ => solve [auto with hushed]
  end.

Ltac hushed_auto := cbv zeta; repeat hushed_step.

Lemma hushed_wfile_write (w : write) : hushed (wfile_write w).
Proof. unfold wfile_write. hushed_auto. Qed.

Lemma hushed_buffer_append (line : string) : hushed (buffer_append line).
Proof. unfold buffer_append. hushed_auto. Qed.

#[local] Hint Resolve hushed_wfile_write hushed_buffer_append : hushed.

Lemma hushed_send_response_only (code : Z) (message : option string) :
  hushed (send_response_only code message).
Proof. unfold send_response_only. hushed_auto. Qed.

Lemma hushed_send_header (keyword value : string) :
  hushed (send_header keyword value).
Proof. unfold send_header. hushed_auto. Qed.

Lemma hushed_end_headers : hushed CORSHTTPRequestHandler.end_headers.
Proof.
  intros h. rewrite end_headers_run. eexists _, _.
  split; [reflexivity|].
  destruct (request_version h =? "HTTP/0.9"); repeat split.
Qed.

#[local] Hint Resolve hushed_send_response_only hushed_send_header
  hushed_end_headers : hushed.

(** What was logged stays logged while nothing is printed. *)
Lemma logged_then_hushed (h h1 h2 : Handler) :
  logged h h1 ->
  requestline h2 = requestline h1 -> stdout h2 = stdout h1 ->
  logged h h2.
Proof.
  unfold logged. cbv zeta. intros [H | [code H]] Hr Ho.
  - left. congruence.
  - right. exists code. congruence.
Qed.

Lemma logged_after_hushed (h h1 h2 : Handler) :
  client_address h1 = client_address h -> stdout h1 = stdout h ->
  logged h1 h2 -> logged h h2.
Proof.
  unfold logged. cbv zeta. intros Ha Ho [H | [code H]].
  - left. congruence.
  - right. exists code. congruence.
Qed.

Lemma logs_after_hushed {A B : Type} (m : M A) (k : A -> M B) :
  hushed m -> (forall a, logs (k a)) -> logs (http_server.bind m k).
Proof.
  intros Hm Hk h. unfold http_server.bind.
  destruct (Hm h) as (a & h1 & -> & Ha1 & Hr1 & Ho1).
  destruct (Hk a h1) as (b & h2 & -> & Ha2 & Hr2 & Hl).
  exists b, h2. split; [reflexivity|].
  split; [congruence|]. split; [congruence|].
  exact (logged_after_hushed h h1 h2 Ha1 Ho1 Hl).
Qed.

Lemma logs_then_hushed {A B : Type} (m : M A) (k : A -> M B) :
  logs m -> (forall a, hushed (k a)) -> logs (http_server.bind m k).
Proof.
  intros Hm Hk h. unfold http_server.bind.
  destruct (Hm h) as (a & h1 & -> & Ha1 & Hr1 & Hl).
  destruct (Hk a h1) as (b & h2 & -> & Ha2 & Hr2 & Ho2).
  exists b, h2. split; [reflexivity|].
  split; [congruence|]. split; [congruence|].
  exact (logged_then_hushed h h1 h2 Hl Hr2 Ho2).
Qed.

Create HintDb logs.

(** A sequence that logs the request once: steps that print nothing, the
    step that logs, then steps that print nothing. *)
Ltac logs_step :=
  match goal with
  | |- logs (if ?b then _ else _) => destruct b
  | |- logs (match ?x with _ => _ end) => destruct x
  | |- logs (http_server.bind _ _) =>
      first [ apply logs_after_hushed; [solve [hushed_auto] | intros ?]
            | apply logs_then_hushed;
              [solve [auto with logs] | intros ?; solve [hushed_auto]] ]
  | |- logs _ => solve [auto with logs]
  end.

Ltac logs_auto := cbv zeta; repeat logs_step.

(** [send_response] logs the request line, [send_error] the status code
    and then the request line. *)
Lemma logs_send_response (env : Env) (code : Z) (message : option string) :
  logs (send_response env CORSHTTPRequestHandler.log_message code message).
Proof.
  intros h. rewrite send_response_run. cbv zeta. eexists _, _.
  split; [reflexivity|].
  destruct (request_version h =? "HTTP/0.9");
    (split; [reflexivity|]; split; [reflexivity|]; left; reflexivity).
Qed.

Lemma logs_send_error (env : Env) (code : Z) (message explain : option string) :
  logs (http_server.send_error env CORSHTTPRequestHandler.end_headers
          CORSHTTPRequestHandler.log_message code message explain).
Proof.
  intros h. unfold send_error, log_error. cbv zeta.
  unfold http_server.bind at 1. rewrite log_message_run. cbv beta iota.
  unfold http_server.bind at 1. rewrite send_response_run. cbv beta iota zeta.
  match goal with
  | |- exists a h', ?m ?s = Py.Ok (a, h') /\ _ =>
      assert (Hm : hushed m) by hushed_auto;
      destruct (Hm s) as ([] & h2 & Hrun & Ha & Hr & Ho)
  end.
  exists tt, h2. split; [exact Hrun|].
  rewrite Ha, Hr.
  destruct (request_version _ =? "HTTP/0.9");
    (split; [reflexivity|]; split; [reflexivity|]; right; exists code;
     unfold logged; cbv zeta; rewrite Ho, Hr; reflexivity).
Qed.

#[local] Hint Resolve logs_send_response logs_send_error : logs.

Lemma logs_send_head (env : Env) :
  logs (send_head env CORSHTTPRequestHandler.end_headers
          CORSHTTPRequestHandler.log_message).
Proof. unfold send_head, send_file, list_directory. logs_auto. Qed.

#[local] Hint Resolve logs_send_head : logs.

Lemma logs_getattr_do (env : Env) (command : string) (method : M unit) :
  CORSHTTPRequestHandler.getattr_do env command = Some method ->
  logs method.
Proof.
  unfold CORSHTTPRequestHandler.getattr_do.
  destruct (command =? "GET").
  { intros [= <-]. unfold do_GET. logs_auto. }
  destruct (command =? "HEAD").
  { intros [= <-]. unfold do_HEAD. logs_auto. }
  destruct (command =? "OPTIONS").
  { intros [= <-]. unfold CORSHTTPRequestHandler.do_OPTIONS. logs_auto. }
  discriminate.
Qed.

Lemma logs_handle_command (env : Env) :
  logs (CORSHTTPRequestHandler.handle_command env).
Proof.
  unfold CORSHTTPRequestHandler.handle_command, handle_command.
  apply logs_after_hushed; [apply hushed_get | intros self]. cbv zeta.
  destruct (CORSHTTPRequestHandler.getattr_do env _) as [method|] eqn:Hdo.
  - exact (logs_getattr_do env _ method Hdo).
  - auto with logs.
Qed.

(** *** [parse_request] *)

Lemma parse_logs_ret_true : parse_logs (ret true).
Proof. intros h. exists true, h. repeat split. Qed.

Lemma parse_logs_modify (f : Handler -> Handler) (k : M bool) :
  (forall h, client_address (f h) = client_address h
             /\ stdout (f h) = stdout h) ->
  parse_logs k -> parse_logs (http_server.bind (modify f) (fun _ => k)).
Proof.
  intros Hf Hk h. unfold http_server.bind, modify.
  destruct (Hf h) as [Ha Ho].
  destruct (Hk (f h)) as (b & h' & Hrun & Ha' & Hb).
  exists b, h'. split; [exact Hrun|]. split; [congruence|].
  destruct b; [congruence|].
  exact (logged_after_hushed h (f h) h' Ha Ho Hb).
Qed.

Lemma parse_logs_after_hushed {A : Type} (m : M A) (k : A -> M bool) :
  hushed m -> (forall a, parse_logs (k a)) ->
  parse_logs (http_server.bind m k).
Proof.
  intros Hm Hk h. unfold http_server.bind.
  destruct (Hm h) as (a & h1 & -> & Ha1 & _ & Ho1).
  destruct (Hk a h1) as (b & h2 & Hrun & Ha2 & Hb).
  exists b, h2. split; [exact Hrun|]. split; [congruence|].
  destruct b; [congruence|].
  exact (logged_after_hushed h h1 h2 Ha1 Ho1 Hb).
Qed.

Lemma parse_logs_error {A : Type} (m : M A) :
  logs m -> parse_logs (http_server.bind m (fun _ => ret false)).
Proof.
  intros Hm h. unfold http_server.bind.
  destruct (Hm h) as (a & h1 & -> & Ha & _ & Hl).
  exists false, h1. split; [reflexivity|]. split; [exact Ha | exact Hl].
Qed.

Lemma parse_logs_bind (m : M bool) (k : bool -> M bool) :
  parse_logs m -> parse_logs (k true) ->
  (forall h, k false h = Py.Ok (false, h)) ->
  parse_logs (http_server.bind m k).
Proof.
  intros Hm Hk Hfalse h. unfold http_server.bind.
  destruct (Hm h) as ([|] & h1 & -> & Ha1 & Hb).
  - destruct (Hk h1) as (b & h2 & -> & Ha2 & Hb2).
    exists b, h2. split; [reflexivity|]. split; [congruence|].
    destruct b; [congruence|].
    exact (logged_after_hushed h h1 h2 Ha1 Hb Hb2).
  - rewrite Hfalse. exists false, h1.
    split; [reflexivity|]. split; [exact Ha1 | exact Hb].
Qed.

Ltac parse_logs_step :=
  match goal with
  | |- parse_logs (ret true) => apply parse_logs_ret_true
  | |- parse_logs (http_server.bind (modify _) _) =>
      apply parse_logs_modify; [intros ?; split; reflexivity|]
  | |- parse_logs (http_server.bind _ (fun _ => ret false)) =>
      apply parse_logs_error; solve [auto with logs]
  | |- parse_logs (http_server.bind _ (fun b => if negb b then _ else _)) =>
      apply parse_logs_bind; [| cbn [negb] | intros ?; reflexivity]
  | |- parse_logs (http_server.bind _ _) =>
      apply parse_logs_after_hushed; [solve [hushed_auto] | intros ?]
  | |- parse_logs (if (?b && false) && _ then _ else _) =>
      destruct b; cbn [andb]
  | |- parse_logs (if ?b then _ else _) => destruct b
  | |- parse_logs (match ?x with _ => _ end) => destruct x
  end.

Ltac parse_logs_auto := cbv zeta; repeat parse_logs_step.

(** [parse_request] returns [true] having printed nothing, or [false]
    having logged the request, or [false] having printed nothing (a blank
    request line). *)
Lemma parse_request_logs (env : Env) (req : Request) (h : Handler) :
  exists (b : bool) (h' : Handler),
    parse_request env CORSHTTPRequestHandler.end_headers
      CORSHTTPRequestHandler.log_message req h = Py.Ok (b, h')
    /\ client_address h' = client_address h
    /\ if b then stdout h' = stdout h
       else stdout h' = stdout h \/ logged h h'.
Proof.
  unfold parse_request. cbv zeta.
  change (str_ge protocol_version "HTTP/1.1") with false.
  destruct (Py.split _) as [|w1 [|w2 ws]] eqn:W.
  - eexists false, _. split; [reflexivity|]. split; [reflexivity|].
    left. reflexivity.
  - cbn [length Nat.eqb Nat.leb andb negb last].
    match goal with
    | |- context [?m h] =>
        assert (Hp : parse_logs m) by parse_logs_auto;
        destruct (Hp h) as (b & h' & Hrun & Ha & Hb)
    end.
    exists b, h'. split; [exact Hrun|]. split; [exact Ha|].
    destruct b; [exact Hb | now right].
  - cbn [length Nat.eqb Nat.leb andb negb].
    match goal with
    | |- context [?m h] =>
        assert (Hp : parse_logs m) by parse_logs_auto;
        destruct (Hp h) as (b & h' & Hrun & Ha & Hb)
    end.
    exists b, h'. split; [exact Hrun|]. split; [exact Ha|].
    destruct b; [exact Hb | now right].
Qed.


(* ===================================================================== *)
(** * The port as text and back *)
(* ===================================================================== *)

(** [scan_digits] on the digits of a numeral reads them all. *)
Lemma scan_digits_numeral (d : Decimal.uint) :
  forall (prev : bool) (acc : Z) (digits : nat),
    Py.scan_digits (NilEmpty.string_of_uint d) prev acc digits
    = Some (horner d acc,
            (digits + String.length (NilEmpty.string_of_uint d))%nat,
            match d with Decimal.Nil => prev | _ => false end, "").
Proof.
  induction d; intros prev acc digits;
    [ cbn [NilEmpty.string_of_uint Py.scan_digits String.length horner];
      rewrite Nat.add_0_r; reflexivity | .. ];
    cbn [NilEmpty.string_of_uint String.length horner];
    rewrite Nat.add_succ_r;
    match goal with
    | |- Py.scan_digits (String ?c ?s) _ _ _ = _ =>
        change (Py.scan_digits (String c s) prev acc digits)
          with (Py.scan_digits s false
                  (10 * acc + match Py.digit_value c with
                              | Some v => v
                              | None => 0
                              end)%Z (S digits))
    end;
    rewrite IHd; destruct d; reflexivity.
Qed.

(** The value [scan_digits] computes is the number the numeral denotes. *)
Lemma horner_of_uint_acc (d : Decimal.uint) :
  forall acc : positive,
    horner d (Z.pos acc) = Z.pos (Pos.of_uint_acc d acc).
Proof.
  induction d; intros acc; cbn [horner Pos.of_uint_acc];
    [reflexivity | ..];
    match goal with
    | |- horner _ ?z = Z.pos (Pos.of_uint_acc _ ?p) =>
        replace z with (Z.pos p) by lia
    end;
    apply IHd.
Qed.

Lemma horner_of_uint (d : Decimal.uint) :
  horner d 0 = Z.of_N (Pos.of_uint d).
Proof.
  induction d; cbn [horner Pos.of_uint Z.of_N];
    [reflexivity | exact IHd | ..];
    match goal with
    | |- horner _ ?z = Z.pos (Pos.of_uint_acc _ ?p) =>
        change z with (Z.pos p)
    end;
    apply horner_of_uint_acc.
Qed.

Lemma horner_to_uint (p : positive) : horner (Pos.to_uint p) 0 = Z.pos p.
Proof. rewrite horner_of_uint, Unsigned.of_to. reflexivity. Qed.

(** A numeral is made of ASCII characters. *)
Lemma numeral_is_ascii (d : Decimal.uint) :
  Py.is_ascii (NilEmpty.string_of_uint d) = true.
Proof.
  unfold Py.is_ascii.
  induction d; cbn [NilEmpty.string_of_uint list_ascii_of_string forallb];
    [reflexivity | ..]; rewrite IHd; reflexivity.
Qed.

(** [PyLong_FromString] on a numeral that is not empty, with or without a
    minus sign before it. *)
Lemma PyLong_FromString_numeral (d : Decimal.uint) :
  d <> Decimal.Nil ->
  (String.length (NilEmpty.string_of_uint d) <= Py.max_str_digits)%nat ->
  Py.PyLong_FromString (NilEmpty.string_of_uint d) = Some (horner d 0)
  /\ Py.PyLong_FromString (String "-" (NilEmpty.string_of_uint d))
     = Some (- horner d 0)%Z.
Proof.
  intros Hd Hlen.
  assert (Hscan := scan_digits_numeral d false 0%Z 0).
  assert (Hlimit : (Py.max_str_digits
                    <? 0 + String.length (NilEmpty.string_of_uint d))%nat
                   = false)
    by (apply Nat.ltb_ge; exact Hlen).
  assert (Hsome : ((0 + String.length (NilEmpty.string_of_uint d)) =? 0)%nat
                  = false)
    by (destruct d; [now contradiction Hd | reflexivity ..]).
  assert (Hlast : match d with Decimal.Nil => false | _ => false end = false)
    by (destruct d; reflexivity).
  rewrite Hlast in Hscan.
  destruct d; [now contradiction Hd | ..];
    (split;
     [ unfold Py.PyLong_FromString;
       cbn [NilEmpty.string_of_uint] in *;
       match goal with
       | |- context [Py.skip_spaces (String ?c ?s)] =>
           change (Py.skip_spaces (String c s)) with (String c s)
       end;
       cbv beta iota zeta
     | unfold Py.PyLong_FromString;
       cbn [NilEmpty.string_of_uint] in *;
       match goal with
       | |- context [Py.skip_spaces (String ?c ?s)] =>
           change (Py.skip_spaces (String c s)) with (String c s)
       end;
       cbv beta iota zeta ];
     rewrite Hscan; cbv beta iota;
     rewrite Hlimit, Hsome; reflexivity).
Qed.

(** X13.  The port as text and back.  [int] reads the decimal text of an
    integer, as the banner shows it after [http://localhost:], back to
    that integer, for every integer whose text stays within the digit
    limit of [int]; so the server started again with the port of the
    banner as its argument uses the same port. *)
Theorem X13_int_of_str (n : Z) :
  (String.length (Py.str n) <= Py.max_str_digits)%nat ->
  Py.int (Py.str n) = Py.Ok n
  /\ (forall (prog : string) (rest : list string),
         port_of_argv (prog :: Py.str n :: rest) = Py.Ok n)
  /\ (forall (prog : string) (rest : list string) (w : World),
         hd_error (fst (main (prog :: Py.str n :: rest) w))
         = Some (TCPServer "" n)).
Proof.
  intros Hlen.
  assert (Hint : Py.int (Py.str n) = Py.Ok n).
  { unfold Py.int, Py.TransformDecimalAndSpaceToASCII.
    destruct n as [|p|p].
    - reflexivity.
    - unfold Py.str, Z.to_int, NilZero.string_of_int,
        NilZero.string_of_uint in *.
      pose proof (Unsigned.to_uint_nonnil p) as Hnil.
      assert (Heq : match Pos.to_uint p with
                    | Decimal.Nil => "0"
                    | _ => NilEmpty.string_of_uint (Pos.to_uint p)
                    end = NilEmpty.string_of_uint (Pos.to_uint p))
        by (destruct (Pos.to_uint p); [now contradiction Hnil | reflexivity ..]).
      rewrite Heq in *. rewrite numeral_is_ascii.
      destruct (PyLong_FromString_numeral (Pos.to_uint p) Hnil Hlen)
        as [-> _].
      rewrite horner_to_uint. reflexivity.
    - unfold Py.str, Z.to_int, NilZero.string_of_int,
        NilZero.string_of_uint in *.
      pose proof (Unsigned.to_uint_nonnil p) as Hnil.
      assert (Heq : match Pos.to_uint p with
                    | Decimal.Nil => "0"
                    | _ => NilEmpty.string_of_uint (Pos.to_uint p)
                    end = NilEmpty.string_of_uint (Pos.to_uint p))
        by (destruct (Pos.to_uint p); [now contradiction Hnil | reflexivity ..]).
      rewrite Heq in *.
      assert (Hascii : Py.is_ascii
                         (String "-"
                            (NilEmpty.string_of_uint (Pos.to_uint p)))
                       = true).
      { pose proof (numeral_is_ascii (Pos.to_uint p)) as H.
        unfold Py.is_ascii in *.
        cbn [list_ascii_of_string forallb]. rewrite H. reflexivity. }
      rewrite Hascii.
      assert (Hlen' : (String.length
                         (NilEmpty.string_of_uint (Pos.to_uint p))
                       <= Py.max_str_digits)%nat).
      { cbn [String.length] in Hlen.
        apply Nat.le_trans with (2 := Hlen). apply Nat.le_succ_diag_r. }
      destruct (PyLong_FromString_numeral (Pos.to_uint p) Hnil Hlen')
        as [_ ->].
      rewrite horner_to_uint. reflexivity. }
  split; [exact Hint|]. split.
  - intros prog rest. rewrite port_of_argv_argument. exact Hint.
  - intros prog rest w. apply main_first_event.
    rewrite port_of_argv_argument. exact Hint.
Qed.

Lemma X13_witness :
  Py.int (Py.str 8080) = Py.Ok 8080%Z
  /\ (forall (prog : string) (rest : list string),
         port_of_argv (prog :: Py.str 8080 :: rest) = Py.Ok 8080%Z)
  /\ (forall (prog : string) (rest : list string) (w : World),
         hd_error (fst (main (prog :: Py.str 8080 :: rest) w))
         = Some (TCPServer "" 8080%Z)).
Proof.
  apply (X13_int_of_str 8080%Z).
  apply Nat.leb_le. vm_compute. reflexivity.
Defined.

(* ===================================================================== *)
(** * From the request target to the file *)
(* ===================================================================== *)

Lemma split1_app (c : ascii) (p s : string) :
  has_char c p = false ->
  fst (Py.split1 c (p ++ s)) = p ++ fst (Py.split1 c s).
Proof.
  induction p as [|d p IH]; intros Hp; [reflexivity|].
  cbn [has_char] in Hp. apply orb_false_elim in Hp as [Hd Hp].
  cbn [append Py.split1]. rewrite Hd.
  specialize (IH Hp). destruct (Py.split1 c (p ++ s)) as [a b].
  cbn [fst] in *. now rewrite IH.
Qed.

Lemma split1_whole (c : ascii) (p : string) :
  has_char c p = false -> fst (Py.split1 c p) = p.
Proof.
  intros Hp. rewrite <- (append_nil_r p) at 1.
  rewrite (split1_app c p "" Hp). apply append_nil_r.
Qed.

(** X14.  The query string and the fragment of the request target play no
    part in the choice of the file: a target followed by [?] and anything,
    or by [#] and anything, is translated to the same path as the target
    alone. *)
Theorem X14_translate_path_ignores_query (env : Env) (self : Handler)
  (p q : string) :
  has_char "?" p = false ->
  has_char "#" p = false ->
  translate_path env self (p ++ "?" ++ q) = translate_path env self p
  /\ translate_path env self (p ++ "#" ++ q) = translate_path env self p.
Proof.
  intros Hquery Hfragment.
  assert (Hp : fst (Py.split1 "#" (fst (Py.split1 "?" p))) = p)
    by (rewrite (split1_whole "?" p Hquery); exact (split1_whole "#" p Hfragment)).
  assert (H1 : fst (Py.split1 "#" (fst (Py.split1 "?" (p ++ "?" ++ q)))) = p).
  { rewrite (split1_app "?" p ("?" ++ q) Hquery).
    cbn [append Py.split1 Ascii.eqb Bool.eqb fst].
    rewrite append_nil_r. exact (split1_whole "#" p Hfragment). }
  assert (H2 : fst (Py.split1 "#" (fst (Py.split1 "?" (p ++ "#" ++ q)))) = p).
  { rewrite (split1_app "?" p ("#" ++ q) Hquery).
    cbn [append Py.split1 Ascii.eqb Bool.eqb].
    destruct (Py.split1 "?" q) as [a b]. cbn [fst].
    rewrite (split1_app "#" p (String "#" a) Hfragment).
    cbn [Py.split1 Ascii.eqb Bool.eqb fst]. apply append_nil_r. }
  unfold translate_path. cbv zeta. rewrite H1, H2, Hp. split; reflexivity.
Qed.

Lemma X14_witness :
  translate_path sample_env sample_handler ("/index.html" ++ "?" ++ "v=2")
  = translate_path sample_env sample_handler "/index.html"
  /\ translate_path sample_env sample_handler ("/index.html" ++ "#" ++ "v=2")
     = translate_path sample_env sample_handler "/index.html".
Proof.
  apply (X14_translate_path_ignores_query sample_env sample_handler
           "/index.html" "v=2"); reflexivity.
Defined.

(* ===================================================================== *)
(** * [DIRECTORY] is the directory of the script *)
(* ===================================================================== *)

(** [normpath] in terms of its leading slashes and its components. *)
Lemma normpath_components (path : string) :
  path <> "" ->
  posixpath.normpath path =
  let s := String.concat "" (repeat "/" (initial_slashes path))
           ++ Py.join "/" (components path) in
  if s =? "" then "." else s.
Proof.
  intros Hne. unfold posixpath.normpath.
  destruct (String.eqb_spec path "") as [->|_]; [now contradiction Hne|].
  reflexivity.
Qed.

Lemma split_on_slash_free (s : string) :
  Forall (fun c => has_slash c = false) (Py.split_on "/" s).
Proof.
  induction s as [|c s IH]; cbn [Py.split_on].
  - repeat constructor.
  - destruct (Ascii.eqb c "/") eqn:E.
    + constructor; [reflexivity | exact IH].
    + destruct (Py.split_on "/" s) as [|w ws].
      * repeat constructor. cbn [has_slash]. unfold posixpath.is_sep.
        now rewrite E.
      * inversion IH as [|w' ws' Hw Hws]; subst.
        constructor; [|exact Hws].
        cbn [has_slash]. unfold posixpath.is_sep. now rewrite E, Hw.
Qed.

Lemma Forall_removelast {A : Type} (P : A -> Prop) (l : list A) :
  Forall P l -> Forall P (removelast l).
Proof.
  induction 1 as [|x l Hx Hl IH]; cbn [removelast]; [constructor|].
  destruct l; [constructor|]. constructor; assumption.
Qed.

Lemma normpath_step_components (i : nat) (cs : list string) (c : string) :
  Forall component cs -> has_slash c = false ->
  Forall component (posixpath.normpath_step i cs c).
Proof.
  intros Hcs Hc. unfold posixpath.normpath_step.
  destruct (String.eqb_spec c "") as [->|Hne]; [exact Hcs|].
  cbn [orb]. destruct (c =? "."); [exact Hcs|].
  match goal with |- Forall _ (if ?b then _ else _) => destruct b end.
  - apply Forall_app. split; [exact Hcs|].
    constructor; [split; assumption | constructor].
  - now apply Forall_removelast.
Qed.

Lemma fold_components (i : nat) (words : list string) :
  Forall (fun c => has_slash c = false) words ->
  forall cs : list string,
    Forall component cs ->
    Forall component (fold_left (posixpath.normpath_step i) words cs).
Proof.
  induction 1 as [|w words Hw _ IH]; intros cs Hcs; cbn [fold_left].
  - exact Hcs.
  - apply IH. now apply normpath_step_components.
Qed.

Lemma components_are_components (path : string) :
  Forall component (components path).
Proof.
  unfold components. apply fold_components; [|constructor].
  apply split_on_slash_free.
Qed.

(** A script name is kept as a component, an empty word is dropped. *)
Lemma normpath_step_name (i : nat) (cs : list string) (n : string) :
  script_name n -> posixpath.normpath_step i cs n = (cs ++ [n])%list.
Proof.
  intros [[Hne _] [Hdot Hdotdot]]. unfold posixpath.normpath_step.
  destruct (String.eqb_spec n "") as [->|_]; [now contradiction Hne|].
  destruct (String.eqb_spec n ".") as [->|_]; [now contradiction Hdot|].
  destruct (String.eqb_spec n "..") as [->|_]; [now contradiction Hdotdot|].
  reflexivity.
Qed.

Lemma normpath_step_empty (i : nat) (cs : list string) :
  posixpath.normpath_step i cs "" = cs.
Proof. reflexivity. Qed.

(** A script name starts with a character that is not a slash. *)
Lemma script_name_head (n : string) :
  component n ->
  exists (c : ascii) (r : string), n = String c r /\ c <> "/"%char.
Proof.
  intros [Hne Hslash]. destruct n as [|c r]; [now contradiction Hne|].
  exists c, r. split; [reflexivity|].
  cbn [has_slash] in Hslash. apply orb_false_elim in Hslash as [Hc _].
  unfold posixpath.is_sep in Hc. now apply Ascii.eqb_neq.
Qed.

(** Joining a name to an absolute directory leaves the leading slashes as
    they are. *)
Lemma initial_slashes_join (d n : string) :
  posixpath.isabs d = true -> component n ->
  initial_slashes (posixpath.join d n) = initial_slashes d.
Proof.
  intros Habs Hn.
  destruct (script_name_head n Hn) as (c & r & -> & Hc).
  apply startswith_slash_iff in Habs as [r1 ->].
  unfold posixpath.join.
  assert (Hrel : Py.startswith (String c r) "/" = false).
  { unfold Py.startswith. cbn [prefix].
    destruct (ascii_dec "/" c) as [E|_]; [now contradiction Hc|reflexivity]. }
  rewrite Hrel. change (String "/" r1 =? "") with false. cbn [orb].
  destruct r1 as [|c2 [|c3 r3]].
  - (* the root directory *)
    change (Py.endswith "/" "/") with true. cbv iota.
    unfold initial_slashes, Py.startswith. cbn [append prefix].
    destruct (ascii_dec "/" "/") as [_|E]; [|now contradiction E].
    destruct (ascii_dec "/" c) as [E|_]; [now contradiction Hc|reflexivity].
  - (* one character after the slash *)
    destruct (Ascii.eqb_spec c2 "/") as [->|Hc2].
    + change (Py.endswith "//" "/") with true. cbv iota.
      unfold initial_slashes, Py.startswith. cbn [append prefix].
      destruct (ascii_dec "/" "/") as [_|E]; [|now contradiction E].
      destruct (ascii_dec "/" c) as [E|_]; [now contradiction Hc|reflexivity].
    + assert (Hend : Py.endswith (String "/" (String c2 "")) "/" = false).
      { cbn [Py.endswith String.eqb]. apply Ascii.eqb_neq in Hc2.
        rewrite Hc2. destruct (Ascii.eqb "/" "/"); reflexivity. }
      rewrite Hend.
      unfold initial_slashes, Py.startswith. cbn [append prefix].
      destruct (ascii_dec "/" "/") as [_|E]; [|now contradiction E].
      destruct (ascii_dec "/" c2) as [E|_];
        [symmetry in E; now contradiction Hc2 | reflexivity].
  - (* two characters or more after the slash *)
    destruct (Py.endswith _ "/");
      unfold initial_slashes, Py.startswith; cbn [append prefix];
      destruct (ascii_dec "/" "/") as [_|E]; try (now contradiction E);
      destruct (ascii_dec "/" c2), (ascii_dec "/" c3); try reflexivity;
      destruct r3; reflexivity.
Qed.

(** The components of a script's path are those of its directory and
    then its name. *)
Lemma components_join (d n : string) :
  posixpath.isabs d = true -> script_name n ->
  components (posixpath.join d n) = (components d ++ [n])%list.
Proof.
  intros Habs Hn. pose proof Hn as [Hcomp _].
  unfold components. rewrite (initial_slashes_join d n Habs Hcomp).
  assert (Hsplit : Py.split_on "/" n = [n])
    by (apply split_on_no_slash; apply Hcomp).
  unfold posixpath.join.
  rewrite (no_slash_not_absolute n) by apply Hcomp.
  destruct (String.eqb_spec d "") as [->|_]; [discriminate|]. cbn [orb].
  generalize (initial_slashes d). intros i.
  destruct (Py.endswith d "/") eqn:Hend.
  - apply endswith_slash_inv in Hend as [d0 ->].
    rewrite append_assoc.
    change ("/" ++ n) with (String "/" n).
    change (d0 ++ "/") with (d0 ++ String "/" "").
    rewrite !split_on_app_sep, Hsplit. cbn [Py.split_on].
    rewrite !fold_left_app. cbn [fold_left].
    rewrite normpath_step_empty. now apply normpath_step_name.
  - change ("/" ++ n) with (String "/" n).
    rewrite split_on_app_sep, Hsplit, fold_left_app. cbn [fold_left].
    now apply normpath_step_name.
Qed.

Lemma join_snoc (cs : list string) (n : string) :
  Py.join "/" (cs ++ [n])
  = match cs with
    | [] => n
    | _ => Py.join "/" cs ++ "/" ++ n
    end.
Proof.
  unfold Py.join. induction cs as [|c cs IH]; [reflexivity|].
  destruct cs as [|c' cs]; [reflexivity|].
  change (String.concat "/" ((c :: c' :: cs) ++ [n])%list)
    with (c ++ "/" ++ String.concat "/" ((c' :: cs) ++ [n])%list).
  rewrite IH.
  change (String.concat "/" (c :: c' :: cs))
    with (c ++ "/" ++ String.concat "/" (c' :: cs)).
  now rewrite !append_assoc.
Qed.

(** ** [dirname] of a path that ends with a name *)

Lemma head_of_no_slash (n : string) :
  has_slash n = false -> posixpath.head_of n = "".
Proof.
  induction n as [|c n IH]; intros H; [reflexivity|].
  cbn [has_slash] in H. apply orb_false_elim in H as [Hc Hn].
  cbn [posixpath.head_of]. rewrite (IH Hn), Hc. reflexivity.
Qed.

Lemma head_of_name (x n : string) :
  has_slash n = false -> posixpath.head_of (x ++ "/" ++ n) = x ++ "/".
Proof.
  intros Hn. induction x as [|c x IH].
  - cbn [append posixpath.head_of]. rewrite (head_of_no_slash n Hn).
    reflexivity.
  - cbn [append posixpath.head_of] in *. rewrite IH.
    destruct x; reflexivity.
Qed.

Lemma name_last (w : string) :
  component w ->
  exists (pre : string) (c : ascii),
    w = pre ++ String c "" /\ posixpath.is_sep c = false.
Proof.
  intros [Hne Hslash]. induction w as [|c w IH]; [now contradiction Hne|].
  cbn [has_slash] in Hslash. apply orb_false_elim in Hslash as [Hc Hw].
  destruct w as [|c' w'].
  - exists "", c. split; [reflexivity | exact Hc].
  - destruct IH as (pre & c0 & Heq & Hc0); [discriminate | exact Hw |].
    exists (String c pre), c0. split; [|exact Hc0].
    cbn [append]. now rewrite <- Heq.
Qed.

Lemma rstrip_sep_after (a : string) (c : ascii) :
  posixpath.is_sep c = false ->
  Py.rstrip_by posixpath.is_sep (a ++ String c "/") = a ++ String c "".
Proof.
  intros Hc. induction a as [|x a IH].
  - cbn [append Py.rstrip_by String.eqb andb]. rewrite Hc. reflexivity.
  - cbn [append Py.rstrip_by]. rewrite IH.
    destruct a; reflexivity.
Qed.

Lemma all_sep_after (a : string) (c : ascii) (b : string) :
  posixpath.is_sep c = false ->
  posixpath.all_sep (a ++ String c b) = false.
Proof.
  intros Hc. unfold posixpath.all_sep. induction a as [|x a IH].
  - cbn [append list_ascii_of_string forallb]. now rewrite Hc.
  - cbn [append list_ascii_of_string forallb]. rewrite IH.
    apply andb_false_r.
Qed.

(** The last character of what [normpath] joins is not a slash. *)
Lemma join_last (cs : list string) :
  Forall component cs -> cs <> [] ->
  exists (pre : string) (c : ascii),
    Py.join "/" cs = pre ++ String c "" /\ posixpath.is_sep c = false.
Proof.
  intros Hcs Hne.
  destruct (exists_last Hne) as (cs' & w & ->).
  apply Forall_app in Hcs as [_ Hw]. inversion Hw as [|w' l Hw' _]; subst.
  destruct (name_last w Hw') as (pre & c & -> & Hc).
  rewrite join_snoc. destruct cs' as [|c' cs'].
  - exists pre, c. split; [reflexivity | exact Hc].
  - exists (Py.join "/" (c' :: cs') ++ "/" ++ pre), c.
    split; [now rewrite !append_assoc | exact Hc].
Qed.

Lemma dirname_of_name (x n : string) :
  has_slash n = false ->
  posixpath.dirname (x ++ "/" ++ n)
  = if posixpath.all_sep (x ++ "/") then x ++ "/"
    else Py.rstrip_by posixpath.is_sep (x ++ "/").
Proof.
  intros Hn. unfold posixpath.dirname. rewrite (head_of_name x n Hn).
  assert (Hne : (x ++ "/" =? "") = false) by (destruct x; reflexivity).
  rewrite Hne. cbn [negb andb].
  destruct (posixpath.all_sep (x ++ "/")); reflexivity.
Qed.

(** The directory part of the normalised path of a script is the
    normalised path of its directory. *)
Lemma dirname_normpath_join (d n : string) :
  posixpath.isabs d = true -> script_name n ->
  posixpath.dirname (posixpath.normpath (posixpath.join d n))
  = posixpath.normpath d.
Proof.
  intros Habs Hn. pose proof Hn as [[_ Hslash] _].
  pose proof Hn as [Hcomp _].
  rewrite (normpath_components (posixpath.join d n))
    by (apply absolute_nonempty, join_absolute, Habs).
  rewrite (normpath_components d) by (apply absolute_nonempty, Habs).
  rewrite (components_join d n Habs Hn), (initial_slashes_join d n Habs Hcomp).
  pose proof (components_are_components d) as Hcs.
  rewrite join_snoc. cbv zeta.
  assert (Hi : initial_slashes d = 1%nat \/ initial_slashes d = 2%nat).
  { unfold initial_slashes. unfold posixpath.isabs in Habs. rewrite Habs.
    destruct (_ && _); [right | left]; reflexivity. }
  assert (Hkeep : forall rest : string,
             (if String.concat "" (repeat "/" (initial_slashes d)) ++ rest
                 =? ""
              then "."
              else String.concat "" (repeat "/" (initial_slashes d)) ++ rest)
             = String.concat "" (repeat "/" (initial_slashes d)) ++ rest)
    by (intros rest; destruct Hi as [-> | ->]; reflexivity).
  rewrite !Hkeep.
  destruct (components d) as [|c0 cs] eqn:Hc.
  - (* the root *)
    destruct Hi as [-> | ->].
    + change (String.concat "" (repeat "/" 1) ++ n) with ("" ++ "/" ++ n).
      rewrite (dirname_of_name "" n Hslash). reflexivity.
    + change (String.concat "" (repeat "/" 2) ++ n) with ("/" ++ "/" ++ n).
      rewrite (dirname_of_name "/" n Hslash). reflexivity.
  - destruct (join_last (c0 :: cs) Hcs) as (pre & c & Hjoin & Hsep);
      [discriminate|].
    rewrite Hjoin.
    generalize (String.concat "" (repeat "/" (initial_slashes d))).
    intros slashes.
    rewrite <- (append_assoc slashes (pre ++ String c "") ("/" ++ n)).
    rewrite (dirname_of_name _ n Hslash).
    rewrite <- (append_assoc slashes pre (String c "")).
    rewrite (append_assoc (slashes ++ pre) (String c "") "/").
    change (String c "" ++ "/") with (String c "/").
    rewrite (all_sep_after (slashes ++ pre) c "/" Hsep).
    apply rstrip_sep_after, Hsep.
Qed.

(** X15.  [DIRECTORY] is the directory of the script.  For a script named
    [n] in the absolute directory [d], [DIRECTORY] is [d] in normal form:
    both when the script is started by its full path, whatever the
    working directory, and when it is started by its name from [d]. *)
Theorem X15_DIRECTORY_is_script_directory (d n : string) :
  posixpath.isabs d = true ->
  script_name n ->
  (forall getcwd : string,
      DIRECTORY getcwd (posixpath.join d n) = posixpath.normpath d)
  /\ DIRECTORY d n = posixpath.normpath d.
Proof.
  intros Habs Hn. split.
  - intros getcwd. unfold DIRECTORY, posixpath.abspath.
    rewrite (join_absolute d n Habs). cbn [negb].
    exact (dirname_normpath_join d n Habs Hn).
  - unfold DIRECTORY, posixpath.abspath.
    assert (Hrel : posixpath.isabs n = false)
      by (apply no_slash_not_absolute; apply Hn).
    rewrite Hrel. cbn [negb].
    exact (dirname_normpath_join d n Habs Hn).
Qed.

Lemma X15_witness :
  (forall getcwd : string,
      DIRECTORY getcwd (posixpath.join "/srv/./ui/" "server.py")
      = posixpath.normpath "/srv/./ui/")
  /\ DIRECTORY "/srv/./ui/" "server.py" = posixpath.normpath "/srv/./ui/".
Proof.
  apply (X15_DIRECTORY_is_script_directory "/srv/./ui/" "server.py").
  - reflexivity.
  - repeat split; try discriminate.
Defined.

(* ===================================================================== *)
(** * Request lines at the edges *)
(* ===================================================================== *)

(** X16.  A request line with no word in it, the empty line read at the
    end of the connection among them, is not answered: nothing is
    written, nothing is logged, and the connection is to be closed. *)
Theorem X16_blank_request_is_not_answered (env : Env) (req : Request)
  (h : Handler) :
  (Z.of_nat (String.length (raw_requestline req)) <= 65536)%Z ->
  request_words req = [] ->
  exists h' : Handler,
    CORSHTTPRequestHandler.handle_one_request env req h = Py.Ok (tt, h')
    /\ wfile h' = wfile h
    /\ stdout h' = stdout h
    /\ close_connection h' = true.
Proof.
  intros Hlen Hwords.
  unfold CORSHTTPRequestHandler.handle_one_request, handle_one_request.
  apply Z.ltb_ge in Hlen. rewrite Hlen.
  destruct (raw_requestline req =? "").
  - eexists. split; [reflexivity|]. repeat split.
  - unfold parse_request. cbv zeta. fold (request_words req).
    rewrite Hwords.
    eexists. split; [reflexivity|]. repeat split.
Qed.

Lemma X16_witness :
  exists h' : Handler,
    CORSHTTPRequestHandler.handle_one_request sample_env
      (request_of_line "") sample_handler = Py.Ok (tt, h')
    /\ wfile h' = wfile sample_handler
    /\ stdout h' = stdout sample_handler
    /\ close_connection h' = true.
Proof.
  apply (X16_blank_request_is_not_answered sample_env (request_of_line "")
           sample_handler).
  - vm_compute. discriminate.
  - reflexivity.
Defined.

(** The class's [send_error] is the inherited one with the overrides in
    place, and a state update followed by a method is the method in the
    updated state. *)
Lemma send_error_unfold (env : Env) (code : Z)
  (message explain : option string) (h : Handler) :
  CORSHTTPRequestHandler.send_error env code message explain h
  = http_server.send_error env CORSHTTPRequestHandler.end_headers
      CORSHTTPRequestHandler.log_message code message explain h.
Proof. reflexivity. Qed.

Lemma bind_modify {A : Type} (f : Handler -> Handler) (k : M A) (h : Handler) :
  http_server.bind (modify f) (fun _ => k) h = k (f h).
Proof. reflexivity. Qed.

Lemma reason_414 : error_reason 414 None = "Request-URI Too Long".
Proof. reflexivity. Qed.

(** X17.  A request line longer than 65536 bytes is answered with status
    414 without being parsed: the header block carries the error headers
    and the four headers, the error page follows, the line logged is
    empty, and the connection is to be closed. *)
Theorem X17_long_request_line_is_414 (env : Env) (req : Request) (h : Handler) :
  (65536 < Z.of_nat (String.length (raw_requestline req)))%Z ->
  let page := error_page env 414 "Request-URI Too Long" None in
  exists h' : Handler,
    CORSHTTPRequestHandler.handle_one_request env req h = Py.Ok (tt, h')
    /\ wfile h' =
       (wfile h ++
        Head (String.concat ""
                (pending h ++
                 header_block env 414 "Request-URI Too Long"
                   (error_fields page)))
        :: (if page =? "" then [] else [Body page]))%list
    /\ requestline h' = ""
    /\ close_connection h' = true.
Proof.
  intros Hlen page.
  unfold CORSHTTPRequestHandler.handle_one_request, handle_one_request.
  apply Z.ltb_lt in Hlen. rewrite Hlen.
  rewrite !bind_modify.
  match goal with
  | |- context [send_error _ _ _ _ _ _ ?s] =>
      destruct (send_error_exact env 414 None None s eq_refl eq_refl)
        as (h' & Hrun & Hw & Hclose & _);
      destruct (logs_send_error env 414 None None s)
        as ([] & h'' & Hrun' & _ & Hline & _)
  end.
  rewrite send_error_unfold in Hrun.
  rewrite Hrun in Hrun'. injection Hrun' as <-.
  exists h'. split; [exact Hrun|].
  split; [|split; [exact Hline | exact Hclose]].
  rewrite Hw, reason_414. unfold error_body. norm.
  cbn [negb andb String.eqb]. fold page.
  destruct (page =? ""); reflexivity.
Qed.
Lemma X17_witness :
  exists h' : Handler,
    CORSHTTPRequestHandler.handle_one_request sample_env long_request
      sample_handler = Py.Ok (tt, h')
    /\ wfile h' =
       [Head (String.concat ""
                (header_block sample_env 414 "Request-URI Too Long"
                   (error_fields "<h1>414 Request-URI Too Long</h1>")));
        Body "<h1>414 Request-URI Too Long</h1>"]
    /\ requestline h' = ""
    /\ close_connection h' = true.
Proof.
  apply (X17_long_request_line_is_414 sample_env long_request sample_handler).
  vm_compute. reflexivity.
Defined.

(* ===================================================================== *)
(** * HTTP/0.9: a response without headers *)
(* ===================================================================== *)

Lemma unheaded_refl (h h' : Handler) : wfile h' = wfile h -> unheaded h h'.
Proof.
  intros Hw _. exists []. split; [now rewrite app_nil_r | constructor].
Qed.

Lemma unheaded_after (h h1 h2 : Handler) :
  wfile h1 = wfile h -> unheaded h1 h2 -> unheaded h h2.
Proof. intros Hw H E. rewrite <- Hw. exact (H E). Qed.

Lemma plain_of_quiet {A : Type} (m : M A) : quiet m -> plain m.
Proof.
  intros Hm h. destruct (Hm h) as (a & h' & Hrun & Hv & Hw).
  exists a, h'. split; [exact Hrun|]. split; [exact Hv|].
  now apply unheaded_refl.
Qed.

Lemma plain_bind {A B : Type} (m : M A) (k : A -> M B) :
  plain m -> (forall a, plain (k a)) -> plain (http_server.bind m k).
Proof.
  intros Hm Hk h. unfold http_server.bind.
  destruct (Hm h) as (a & h1 & -> & Hv1 & H1).
  destruct (Hk a h1) as (b & h2 & -> & Hv2 & H2).
  exists b, h2. split; [reflexivity|]. split; [congruence|].
  intros E.
  destruct (H2 E) as (rest2 & Hw2 & Hr2).
  rewrite Hv2 in E. destruct (H1 E) as (rest1 & Hw1 & Hr1).
  exists (rest1 ++ rest2)%list. split.
  - rewrite Hw2, Hw1. symmetry. apply app_assoc.
  - apply Forall_app. split; assumption.
Qed.

Lemma plain_write_body (data : string) : plain (wfile_write (Body data)).
Proof.
  intros h. eexists tt, _. split; [reflexivity|]. split; [reflexivity|].
  intros _. exists [Body data]. split; [reflexivity|].
  constructor; [exists data; reflexivity | constructor].
Qed.

Lemma plain_end_headers : plain CORSHTTPRequestHandler.end_headers.
Proof.
  intros h. rewrite end_headers_run. eexists _, _.
  split; [reflexivity|].
  destruct (request_version h =? "HTTP/0.9") eqn:E.
  - split; [reflexivity|]. now apply unheaded_refl.
  - split; [reflexivity|]. intros E'.
    cbn [request_version set_headers_buffer set_wfile] in E'. congruence.
Qed.

Lemma plain_send_response (env : Env) (code : Z) (message : option string) :
  plain (send_response env CORSHTTPRequestHandler.log_message code message).
Proof.
  apply plain_of_quiet, quiet_send_response. apply quiet_log_message.
Qed.

Lemma plain_log_message (format : string) (first : arg) (rest : list arg) :
  plain (CORSHTTPRequestHandler.log_message format (first :: rest)).
Proof. apply plain_of_quiet, quiet_log_message. Qed.

Create HintDb plain.

#[local] Hint Resolve plain_write_body plain_end_headers plain_send_response
  plain_log_message : plain.

Ltac plain_step :=
  match goal with
  | |- plain (http_server.bind _ _) => apply plain_bind; [| intros ?]
  | |- plain (if ?b then _ else _) => destruct b
  | |- plain (match ?x with _ => _ end) => destruct x
  | |- plain _ =>
      first [ solve [auto with plain]
            | apply plain_of_quiet; solve [quiet_auto] ]
  end.

Ltac plain_auto := cbv zeta; repeat plain_step.

Lemma plain_send_error (env : Env) (code : Z)
  (message explain : option string) :
  plain (http_server.send_error env CORSHTTPRequestHandler.end_headers
           CORSHTTPRequestHandler.log_message code message explain).
Proof. unfold send_error, log_error. plain_auto. Qed.

#[local] Hint Resolve plain_send_error : plain.

Lemma plain_send_head (env : Env) :
  plain (send_head env CORSHTTPRequestHandler.end_headers
           CORSHTTPRequestHandler.log_message).
Proof. unfold send_head, send_file, list_directory. plain_auto. Qed.

#[local] Hint Resolve plain_send_head : plain.

Lemma plain_getattr_do (env : Env) (command : string) (method : M unit) :
  CORSHTTPRequestHandler.getattr_do env command = Some method ->
  plain method.
Proof.
  unfold CORSHTTPRequestHandler.getattr_do.
  destruct (command =? "GET").
  { intros [= <-]. unfold do_GET. plain_auto. }
  destruct (command =? "HEAD").
  { intros [= <-]. unfold do_HEAD. plain_auto. }
  destruct (command =? "OPTIONS").
  { intros [= <-]. unfold CORSHTTPRequestHandler.do_OPTIONS. plain_auto. }
  discriminate.
Qed.

Lemma plain_handle_command (env : Env) :
  plain (CORSHTTPRequestHandler.handle_command env).
Proof.
  unfold CORSHTTPRequestHandler.handle_command, handle_command.
  apply plain_bind; [apply plain_of_quiet, quiet_get | intros self].
  cbv zeta.
  destruct (CORSHTTPRequestHandler.getattr_do env _) as [method|] eqn:Hdo.
  - exact (plain_getattr_do env _ method Hdo).
  - auto with plain.
Qed.

(** *** [parse_request] *)

Lemma parse_plain_ret_true : parse_plain (ret true).
Proof. intros h. exists true, h. split; reflexivity. Qed.

Lemma parse_plain_modify (f : Handler -> Handler) (k : M bool) :
  (forall h, wfile (f h) = wfile h) ->
  parse_plain k -> parse_plain (http_server.bind (modify f) (fun _ => k)).
Proof.
  intros Hf Hk h. unfold http_server.bind, modify.
  destruct (Hk (f h)) as (b & h' & Hrun & Hb).
  exists b, h'. split; [exact Hrun|].
  destruct b; [congruence|].
  exact (unheaded_after h (f h) h' (Hf h) Hb).
Qed.

Lemma parse_plain_after_quiet {A : Type} (m : M A) (k : A -> M bool) :
  quiet m -> (forall a, parse_plain (k a)) ->
  parse_plain (http_server.bind m k).
Proof.
  intros Hm Hk h. unfold http_server.bind.
  destruct (Hm h) as (a & h1 & -> & _ & Hw1).
  destruct (Hk a h1) as (b & h2 & Hrun & Hb).
  exists b, h2. split; [exact Hrun|].
  destruct b; [congruence|].
  exact (unheaded_after h h1 h2 Hw1 Hb).
Qed.

Lemma parse_plain_error {A : Type} (m : M A) :
  plain m -> parse_plain (http_server.bind m (fun _ => ret false)).
Proof.
  intros Hm h. unfold http_server.bind.
  destruct (Hm h) as (a & h1 & -> & _ & Hb).
  exists false, h1. split; [reflexivity | exact Hb].
Qed.

Lemma parse_plain_bind (m : M bool) (k : bool -> M bool) :
  parse_plain m -> parse_plain (k true) ->
  (forall h, k false h = Py.Ok (false, h)) ->
  parse_plain (http_server.bind m k).
Proof.
  intros Hm Hk Hfalse h. unfold http_server.bind.
  destruct (Hm h) as ([|] & h1 & -> & Hb).
  - destruct (Hk h1) as (b & h2 & -> & Hb2).
    exists b, h2. split; [reflexivity|].
    destruct b; [congruence|].
    exact (unheaded_after h h1 h2 Hb Hb2).
  - rewrite Hfalse. exists false, h1. split; [reflexivity | exact Hb].
Qed.

Ltac parse_plain_step :=
  match goal with
  | |- parse_plain (ret true) => apply parse_plain_ret_true
  | |- parse_plain (http_server.bind (modify _) _) =>
      apply parse_plain_modify; [intros ?; reflexivity|]
  | |- parse_plain (http_server.bind _ (fun _ => ret false)) =>
      apply parse_plain_error; solve [auto with plain]
  | |- parse_plain
         (http_server.bind _ (fun b => if negb b then _ else _)) =>
      apply parse_plain_bind; [| cbn [negb] | intros ?; reflexivity]
  | |- parse_plain (http_server.bind _ _) =>
      apply parse_plain_after_quiet; [solve [quiet_auto] | intros ?]
  | |- parse_plain (if (?b && false) && _ then _ else _) =>
      destruct b; cbn [andb]
  | |- parse_plain (if ?b then _ else _) => destruct b
  | |- parse_plain (match ?x with _ => _ end) => destruct x
  end.

Ltac parse_plain_auto := cbv zeta; repeat parse_plain_step.

Lemma parse_request_plain (env : Env) (req : Request) (h : Handler) :
  exists (b : bool) (h' : Handler),
    parse_request env CORSHTTPRequestHandler.end_headers
      CORSHTTPRequestHandler.log_message req h = Py.Ok (b, h')
    /\ if b then wfile h' = wfile h else unheaded h h'.
Proof.
  unfold parse_request. cbv zeta.
  change (str_ge protocol_version "HTTP/1.1") with false.
  destruct (Py.split _) as [|w1 [|w2 ws]] eqn:W.
  - eexists false, _. split; [reflexivity|]. now apply unheaded_refl.
  - cbn [length Nat.eqb Nat.leb andb negb last].
    match goal with
    | |- context [?m h] =>
        assert (Hp : parse_plain m) by parse_plain_auto;
        exact (Hp h)
    end.
  - cbn [length Nat.eqb Nat.leb andb negb].
    match goal with
    | |- context [?m h] =>
        assert (Hp : parse_plain m) by parse_plain_auto;
        exact (Hp h)
    end.
Qed.

